(** * The AI-estimate pipeline of the Kanboard assistant

    A shallow embedding of [services/ai_services.py] (class [AIEstimator])
    and of the [/api/estimate] handler of [ai_task_creator.py], with the
    properties the design document states about them.

    Modelling conventions.
    - Python [str] values are Rocq strings, read as ASCII text: the
      whitespace class and the case mappings below are the ASCII part of
      Python's; characters from 128 up are treated as caseless,
      non-blank characters, and [str.encode()] is the identity on bytes.
    - JSON and Python values are the inductive [pyval]; a [dict] with
      string keys is a [gmap string pyval].
    - An exception is a value of [exn]; code that may raise returns a
      [result].  The text of the interpreter's own messages is a
      parameter ([exn_text]): no property below depends on it.
    - The provider, the clock and the random source are inputs: the
      provider is a script answering the n-th call, [time.sleep] and the
      calls are recorded in a trace.  Logging and printing are not
      modelled. *)

From Stdlib Require Import ZArith Lia Bool Ascii DecimalString DecimalZ DecimalPos.
From stdpp Require Import gmap strings list fin_maps.

Set Warnings "-register-all".
#[local] Arguments String.append !s1 s2 : simpl nomatch.
Local Open Scope Z_scope.

(* ===================================================================== *)
(** ** Python string primitives *)
(* ===================================================================== *)

Module PyStr.

Definition code (c : ascii) : N := N_of_ascii c.

(** [str.isspace] on one ASCII character: TAB, LF, VT, FF, CR, the four
    separators FS, GS, RS, US, and the space. *)
Definition is_space (c : ascii) : bool :=
  let n := code c in
  ((9 <=? n) && (n <=? 13) || (28 <=? n) && (n <=? 32))%N.

Definition is_upper (c : ascii) : bool :=
  let n := code c in ((65 <=? n) && (n <=? 90))%N.

Definition is_lower (c : ascii) : bool :=
  let n := code c in ((97 <=? n) && (n <=? 122))%N.

Definition to_upper (c : ascii) : ascii :=
  if is_lower c then ascii_of_N (code c - 32) else c.

Definition to_lower (c : ascii) : ascii :=
  if is_upper c then ascii_of_N (code c + 32) else c.

Fixpoint map (f : ascii -> ascii) (s : string) : string :=
  match s with
  | EmptyString => EmptyString
  | String c r => String (f c) (map f r)
  end.

(** [s.upper()], [s.lower()] *)
Definition upper : string -> string := map to_upper.
Definition lower : string -> string := map to_lower.

(** [s.capitalize()]: the first character upper-cased, every other
    character lower-cased. *)
Definition capitalize (s : string) : string :=
  match s with
  | EmptyString => EmptyString
  | String c r => String (to_upper c) (lower r)
  end.

(** [s.replace(a, b)] for one-character [a] and [b]. *)
Definition replace_char (a b : ascii) : string -> string :=
  map (fun c => if Ascii.eqb c a then b else c).

(** [s[:n]] for [n >= 0] *)
Fixpoint take (n : nat) (s : string) : string :=
  match n, s with
  | S n', String c r => String c (take n' r)
  | _, _ => EmptyString
  end.

(** [s[n:]] for [n >= 0] *)
Fixpoint drop (n : nat) (s : string) : string :=
  match n, s with
  | S n', String _ r => drop n' r
  | _, _ => s
  end.

(** [s[:-n]] for [n > 0]: everything but the last [n] characters. *)
Definition drop_last (n : nat) (s : string) : string :=
  take (String.length s - n) s.

(** [s.startswith(p)] *)
Fixpoint startswith (s p : string) {struct p} : bool :=
  match p, s with
  | EmptyString, _ => true
  | String a p', String b s' => Ascii.eqb a b && startswith s' p'
  | String _ _, EmptyString => false
  end.

(** [s.endswith(p)] *)
Fixpoint endswith (s p : string) : bool :=
  String.eqb s p ||
  match s with
  | EmptyString => false
  | String _ r => endswith r p
  end.

(** [p in s] *)
Fixpoint contains (s p : string) : bool :=
  startswith s p ||
  match s with
  | EmptyString => false
  | String _ r => contains r p
  end.

Fixpoint lstrip (s : string) : string :=
  match s with
  | EmptyString => EmptyString
  | String c r => if is_space c then lstrip r else s
  end.

Fixpoint rstrip (s : string) : string :=
  match s with
  | EmptyString => EmptyString
  | String c r =>
      match rstrip r with
      | EmptyString => if is_space c then EmptyString else String c EmptyString
      | r' => String c r'
      end
  end.

(** [s.strip()] *)
Definition strip (s : string) : string := rstrip (lstrip s).

(** [s.split()]: the maximal runs of non-blank characters. *)
Fixpoint split (s : string) : list string :=
  match s with
  | EmptyString => []
  | String c r =>
      if is_space c then split r
      else match r with
           | EmptyString => [String c EmptyString]
           | String c' _ =>
               if is_space c' then String c EmptyString :: split r
               else match split r with
                    | w :: ws => String c w :: ws
                    | [] => [String c EmptyString]
                    end
           end
  end.

(** [sep.join(ws)] *)
Fixpoint join (sep : string) (ws : list string) : string :=
  match ws with
  | [] => EmptyString
  | [w] => w
  | w :: ws' => w +:+ sep +:+ join sep ws'
  end.

(** Truth value of a string: [bool(s)]. *)
Definition nonempty (s : string) : bool :=
  match s with EmptyString => false | _ => true end.

End PyStr.

(* ===================================================================== *)
(** ** Hexadecimal rendering, MD5 and version-4 UUIDs

    [hashlib.md5] and [uuid.uuid4] belong to the Python library; they are
    spelled out (RFC 1321, RFC 4122) so that the identifiers of the
    handler can be evaluated. *)
(* ===================================================================== *)

Module Hex.

Definition digit (n : Z) : ascii :=
  match String.get (Z.to_nat (n mod 16)) "0123456789abcdef" with
  | Some c => c
  | None => "0"%char
  end.

(** [width] lower-case hexadecimal digits of [v], most significant first
    (['%0*x' % (width, v)] for [0 <= v < 16^width]). *)
Fixpoint fixed (width : nat) (v : Z) : string :=
  match width with
  | O => EmptyString
  | S w => String (digit (Z.shiftr v (4 * Z.of_nat w))) (fixed w v)
  end.

(** [bytes.hex()] *)
Fixpoint of_bytes (bs : list Z) : string :=
  match bs with
  | [] => EmptyString
  | b :: r => fixed 2 b +:+ of_bytes r
  end.

Definition is_lower_hex (c : ascii) : bool :=
  let n := PyStr.code c in
  ((48 <=? n) && (n <=? 57) || (97 <=? n) && (n <=? 102))%N.

Definition is_upper_hex (c : ascii) : bool :=
  let n := PyStr.code c in
  ((48 <=? n) && (n <=? 57) || (65 <=? n) && (n <=? 70))%N.

Fixpoint all (p : ascii -> bool) (s : string) : bool :=
  match s with
  | EmptyString => true
  | String c r => p c && all p r
  end.

End Hex.

Module MD5.

Definition mask32 : Z := 0xffffffff.
Definition add32 (a b : Z) : Z := Z.land (a + b) mask32.
Definition not32 (a : Z) : Z := Z.lxor a mask32.
Definition rotl32 (x c : Z) : Z :=
  Z.land (Z.lor (Z.shiftl x c) (Z.shiftr x (32 - c))) mask32.

Definition K : list Z :=
[ 0xd76aa478; 0xe8c7b756; 0x242070db; 0xc1bdceee;
  0xf57c0faf; 0x4787c62a; 0xa8304613; 0xfd469501;
  0x698098d8; 0x8b44f7af; 0xffff5bb1; 0x895cd7be;
  0x6b901122; 0xfd987193; 0xa679438e; 0x49b40821;
  0xf61e2562; 0xc040b340; 0x265e5a51; 0xe9b6c7aa;
  0xd62f105d; 0x02441453; 0xd8a1e681; 0xe7d3fbc8;
  0x21e1cde6; 0xc33707d6; 0xf4d50d87; 0x455a14ed;
  0xa9e3e905; 0xfcefa3f8; 0x676f02d9; 0x8d2a4c8a;
  0xfffa3942; 0x8771f681; 0x6d9d6122; 0xfde5380c;
  0xa4beea44; 0x4bdecfa9; 0xf6bb4b60; 0xbebfbc70;
  0x289b7ec6; 0xeaa127fa; 0xd4ef3085; 0x04881d05;
  0xd9d4d039; 0xe6db99e5; 0x1fa27cf8; 0xc4ac5665;
  0xf4292244; 0x432aff97; 0xab9423a7; 0xfc93a039;
  0x655b59c3; 0x8f0ccc92; 0xffeff47d; 0x85845dd1;
  0x6fa87e4f; 0xfe2ce6e0; 0xa3014314; 0x4e0811a1;
  0xf7537e82; 0xbd3af235; 0x2ad7d2bb; 0xeb86d391 ].

Definition shifts : list Z :=
[ 7; 12; 17; 22; 7; 12; 17; 22; 7; 12; 17; 22; 7; 12; 17; 22;
  5;  9; 14; 20; 5;  9; 14; 20; 5;  9; 14; 20; 5;  9; 14; 20;
  4; 11; 16; 23; 4; 11; 16; 23; 4; 11; 16; 23; 4; 11; 16; 23;
  6; 10; 15; 21; 6; 10; 15; 21; 6; 10; 15; 21; 6; 10; 15; 21 ].

Record state := State { sa : Z; sb : Z; sc : Z; sd : Z }.

Definition init : state :=
  State 0x67452301 0xefcdab89 0x98badcfe 0x10325476.

(** One of the 64 operations on the words [M] of a block. *)
Definition step (M : list Z) (st : state) (i : nat) : state :=
  let '(State a b c d) := st in
  let zi := Z.of_nat i in
  let '(f, g) :=
    if (zi <? 16) then (Z.lor (Z.land b c) (Z.land (not32 b) d), zi)
    else if (zi <? 32)
         then (Z.lor (Z.land d b) (Z.land (not32 d) c), (5 * zi + 1) mod 16)
    else if (zi <? 48) then (Z.lxor (Z.lxor b c) d, (3 * zi + 5) mod 16)
    else (Z.lxor c (Z.lor b (not32 d)), (7 * zi) mod 16) in
  let f' := add32 (add32 (add32 f a) (nth i K 0)) (nth (Z.to_nat g) M 0) in
  State d (add32 b (rotl32 f' (nth i shifts 0))) b c.

(** Little-endian 32-bit words of a byte sequence. *)
Fixpoint words (bs : list Z) : list Z :=
  match bs with
  | b0 :: b1 :: b2 :: b3 :: r =>
      (b0 + Z.shiftl b1 8 + Z.shiftl b2 16 + Z.shiftl b3 24) :: words r
  | _ => []
  end.

Definition block (st : state) (bs : list Z) : state :=
  let '(State a b c d) := fold_left (step (words bs)) (seq 0 64) st in
  State (add32 (sa st) a) (add32 (sb st) b)
        (add32 (sc st) c) (add32 (sd st) d).

Fixpoint blocks (n : nat) (st : state) (bs : list Z) : state :=
  match n with
  | O => st
  | S n' => blocks n' (block st (firstn 64 bs)) (skipn 64 bs)
  end.

Definition le_bytes (n : nat) (v : Z) : list Z :=
  List.map (fun i => Z.land (Z.shiftr v (8 * Z.of_nat i)) 255) (seq 0 n).

(** The message followed by 0x80, zeros up to 56 modulo 64, and the bit
    length on 8 bytes. *)
Definition pad (bs : list Z) : list Z :=
  let len := Z.of_nat (length bs) in
  let zeros := Z.to_nat ((55 - len) mod 64) in
  bs ++ [128] ++ repeat 0 zeros ++ le_bytes 8 ((8 * len) mod 2 ^ 64).

Definition digest (bs : list Z) : state :=
  let p := pad bs in blocks (length p / 64)%nat init p.

Definition state_bytes (st : state) : list Z :=
  le_bytes 4 (sa st) ++ le_bytes 4 (sb st) ++
  le_bytes 4 (sc st) ++ le_bytes 4 (sd st).

(** [s.encode()] on ASCII text. *)
Fixpoint encode (s : string) : list Z :=
  match s with
  | EmptyString => []
  | String c r => Z.of_N (PyStr.code c) :: encode r
  end.

(** [hashlib.md5(bs).hexdigest()] *)
Definition hexdigest (bs : list Z) : string :=
  Hex.of_bytes (state_bytes (digest bs)).

End MD5.

Module UUID.

(** [uuid.uuid4()]: 128 random bits with the variant and version fields
    forced (RFC 4122). *)
Definition uuid4 (random_bits : Z) : Z :=
  let i0 := random_bits mod 2 ^ 128 in
  let i1 := Z.land i0 (Z.lnot (Z.shiftl 0xc000 48)) in
  let i2 := Z.lor i1 (Z.shiftl 0x8000 48) in
  let i3 := Z.land i2 (Z.lnot (Z.shiftl 0xf000 64)) in
  Z.lor i3 (Z.shiftl 4 76).

(** [str(u)]: the 32 hexadecimal digits in groups 8-4-4-4-12. *)
Definition str (u : Z) : string :=
  let h := Hex.fixed 32 u in
  PyStr.take 8 h +:+ "-" +:+ PyStr.take 4 (PyStr.drop 8 h) +:+ "-" +:+
  PyStr.take 4 (PyStr.drop 12 h) +:+ "-" +:+
  PyStr.take 4 (PyStr.drop 16 h) +:+ "-" +:+ PyStr.drop 20 h.

End UUID.

(* ===================================================================== *)
(** ** Python values, exceptions and the operations the code applies *)
(* ===================================================================== *)

Module Py.

(** What [json.loads] can build, which is also all the handler sees.
    A float is carried as its IEEE-754 binary64 bit pattern. *)
Inductive pyval :=
| VNone
| VBool (b : bool)
| VInt (n : Z)
| VFloat (bits : Z)
| VStr (s : string)
| VList (l : list pyval)
| VDict (d : gmap string pyval).

(** The places where the interpreter itself raises. *)
Inductive fault :=
| NotContainer (v : pyval)              (* [k in v]: TypeError *)
| BadSubscript (v : pyval)              (* [v[k]] with a str [k]: TypeError *)
| MissingKey (k : string)               (* [d[k]]: KeyError *)
| NoItemAssignment (v : pyval)          (* [v[k] = x]: TypeError *)
| NoAttribute (v : pyval) (name : string) (* [v.name]: AttributeError *)
| NotSliceable (v : pyval)              (* [v[:n]]: TypeError or KeyError *)
| Unbound (name : string).              (* UnboundLocalError *)

(** Exceptions, all of them subclasses of [Exception]. *)
Inductive exn :=
| Fault (f : fault)
| JSONDecodeError (msg : string)
| Raised (msg : string).  (* raised by a library: provider, HTTP layer *)

Inductive result (A : Type) :=
| Ok (a : A)
| Raise (e : exn).
Arguments Ok {A} a.
Arguments Raise {A} e.

(** Sequencing: the first exception raised is the outcome. *)
Definition bind {A B} (r : result A) (k : A -> result B) : result B :=
  match r with
  | Ok a => k a
  | Raise e => Raise e
  end.

(** [str(e)] *)
Definition str_exn (exn_text : fault -> string) (e : exn) : string :=
  match e with
  | Fault f => exn_text f
  | JSONDecodeError msg => msg
  | Raised msg => msg
  end.

Definition is_str (v : pyval) : bool :=
  match v with VStr _ => true | _ => false end.

Definition is_list (v : pyval) : bool :=
  match v with VList _ => true | _ => false end.

Definition str_eqb (k : string) (v : pyval) : bool :=
  match v with VStr s => String.eqb s k | _ => false end.

(** [bool(v)] *)
Definition truthy (v : pyval) : bool :=
  match v with
  | VNone => false
  | VBool b => b
  | VInt n => negb (n =? 0)
  | VFloat bits => negb (Z.land bits (2 ^ 63 - 1) =? 0)
  | VStr s => PyStr.nonempty s
  | VList l => match l with [] => false | _ => true end
  | VDict d => negb (bool_decide (d = ∅))
  end.

(** [k in v] *)
Definition contains (k : string) (v : pyval) : result bool :=
  match v with
  | VDict d => Ok (bool_decide (is_Some (d !! k)))
  | VList l => Ok (existsb (str_eqb k) l)
  | VStr s => Ok (PyStr.contains s k)
  | _ => Raise (Fault (NotContainer v))
  end.

(** [v[k]] for a string [k] *)
Definition getitem (v : pyval) (k : string) : result pyval :=
  match v with
  | VDict d =>
      match d !! k with
      | Some x => Ok x
      | None => Raise (Fault (MissingKey k))
      end
  | _ => Raise (Fault (BadSubscript v))
  end.

(** [v[k] = x] for a string [k] *)
Definition setitem (v : pyval) (k : string) (x : pyval) : result pyval :=
  match v with
  | VDict d => Ok (VDict (<[k := x]> d))
  | _ => Raise (Fault (NoItemAssignment v))
  end.

(** [v.get(k, dflt)] *)
Definition get (v : pyval) (k : string) (dflt : pyval) : result pyval :=
  match v with
  | VDict d => Ok (default dflt (d !! k))
  | _ => Raise (Fault (NoAttribute v "get"))
  end.

(** [v.strip()] *)
Definition strip (v : pyval) : result string :=
  match v with
  | VStr s => Ok (PyStr.strip s)
  | _ => Raise (Fault (NoAttribute v "strip"))
  end.

(** [v[:n]], of which only the success matters here. *)
Definition slice_prefix (v : pyval) : result unit :=
  match v with
  | VStr _ | VList _ => Ok tt
  | _ => Raise (Fault (NotSliceable v))
  end.

End Py.

Notation "'let*' x ':=' r 'in' k" := (Py.bind r (fun x => k))
  (at level 10, x name, r at level 100, k at level 200, only parsing).

(* ===================================================================== *)
(** ** services/ai_services.py *)
(* ===================================================================== *)

Module AIServices.
Import Py.

Definition nl : string := String "010" EmptyString.   (* line feed *)
Definition dq : string := String "034" EmptyString.   (* double quote *)

(** The answer of the provider; [response.text] may be [None]. *)
Record response := Response { text : option string }.

(** [client.models.generate_content(model, contents, config)]: the
    answer to the call number [n] of one estimate. *)
Record Client := MkClient {
  generate_content : option string -> string -> nat -> result response
}.

Record AIEstimator := MkEstimator {
  client : option Client;
  model_id : option string;
  available : bool
}.

(** What the constructor reads: the environment variables and the
    provider's client factory. *)
Record Env := MkEnv {
  getenv : string -> option string;
  genai_Client : string -> result Client
}.

(** Observable effects of [estimate_task]. *)
Inductive event :=
| Generate (model : option string) (prompt : string) (attempt : nat)
| Sleep (seconds : Z).

(** [AIEstimator.__init__]; on the two failure paths [model_id] is [None]
    or left unset, and is never read. *)
Definition __init__ (env : Env) : AIEstimator :=
  match getenv env "GEMINI_API_KEY" with
  | None | Some EmptyString =>
      MkEstimator None None false
  | Some api_key =>
      match genai_Client env api_key with
      | Ok c =>
          MkEstimator (Some c)
            (Some (default "gemini-2.0-flash-exp" (getenv env "GEMINI_MODEL")))
            true
      | Raise _ => MkEstimator None None false
      end
  end.

Definition _create_prompt (task_description : string) : string :=
  PyStr.join nl (EmptyString :: [
    "You are a software project management assistant specialized in Kanban-based workflows.";
    "Analyze the task below and return a STRICTLY VALID JSON response.";
    EmptyString;
    "TASK DESCRIPTION:";
    task_description;
    EmptyString;
    "Return JSON in this EXACT format:";
    "{";
    "    " +:+ dq +:+ "title" +:+ dq +:+ ": " +:+ dq +:+ "Short action-based title (3-6 words, start with verb like Fix, Add, Update, Create)" +:+ dq +:+ ",";
    "    " +:+ dq +:+ "estimated_time" +:+ dq +:+ ": " +:+ dq +:+ "string (e.g., '2 days', '1 week', '3 weeks')" +:+ dq +:+ ",";
    "    " +:+ dq +:+ "priority" +:+ dq +:+ ": " +:+ dq +:+ "string (Low/Medium/High)" +:+ dq +:+ ",";
    "    " +:+ dq +:+ "complexity_level" +:+ dq +:+ ": " +:+ dq +:+ "string (Low/Medium/High)" +:+ dq +:+ ",";
    "    " +:+ dq +:+ "dependencies" +:+ dq +:+ ": [" +:+ dq +:+ "array of prerequisite tasks or systems" +:+ dq +:+ "],";
    "    " +:+ dq +:+ "required_access" +:+ dq +:+ ": [";
    "        " +:+ dq +:+ "Specific access requirement 1 (e.g., 'GitHub Repository Write Access')" +:+ dq +:+ ",";
    "        " +:+ dq +:+ "Specific access requirement 2 (e.g., 'AWS Lambda Deployment Console')" +:+ dq +:+ ",";
    "        " +:+ dq +:+ "Specific access requirement 3 (e.g., 'PostgreSQL Database Admin Rights')" +:+ dq;
    "    ],";
    "    " +:+ dq +:+ "suggested_labels" +:+ dq +:+ ": [" +:+ dq +:+ "array" +:+ dq +:+ ", " +:+ dq +:+ "of" +:+ dq +:+ ", " +:+ dq +:+ "labels" +:+ dq +:+ "],";
    "    " +:+ dq +:+ "reasoning" +:+ dq +:+ ": " +:+ dq +:+ "MUST BE IN THIS EXACT FORMAT (see below)" +:+ dq;
    "}";
    EmptyString;
    "CRITICAL: The " +:+ dq +:+ "reasoning" +:+ dq +:+ " field MUST follow this EXACT structure:";
    EmptyString;
    dq +:+ "Phase 1: Technical Breakdown";
    "Overview: [Write 3-4 concise technical sentences describing the approach, architecture, or key technologies involved. Be specific about the technical stack and implementation strategy.]";
    EmptyString;
    "Phase 1: [First milestone name]";
    "- [Specific task 1]";
    "- [Specific task 2]";
    "- [Specific task 3]";
    EmptyString;
    "Phase 2: [Second milestone name]";
    "- [Specific task 1]";
    "- [Specific task 2]";
    "- [Specific task 3]";
    EmptyString;
    "Phase 3: [Third milestone name]";
    "- [Specific task 1]";
    "- [Specific task 2]";
    "- [Specific task 3]" +:+ dq;
    EmptyString;
    "IMPORTANT for required_access:";
    "- Be specific about exact access needed for THIS TASK";
    "- Include service/tool name (GitHub, AWS, PostgreSQL, Slack, Telegram, etc.)";
    "- Specify access type (Read, Write, Admin, Console, etc.)";
    EmptyString;
    "Analyze the task and provide realistic, practical estimates.";
    EmptyString ]).

Definition fence : string := "```".
Definition fence_json : string := "```json".

Definition _clean_response (response_text : string) : string :=
  let t1 := if PyStr.startswith response_text fence_json
            then PyStr.drop 7 response_text else response_text in
  let t2 := if PyStr.startswith t1 fence then PyStr.drop 3 t1 else t1 in
  let t3 := if PyStr.endswith t2 fence then PyStr.drop_last 3 t2 else t2 in
  PyStr.strip t3.

(** One of the three [if key in data: if isinstance(data[key], str): ...]
    blocks. *)
Definition wrap_if_str (key : string) (data : pyval) : result pyval :=
  let* present := contains key data in
  if present then
    (let* v := getitem data key in
     if is_str v then setitem data key (VList [v]) else Ok data)
  else Ok data.

Definition _validate_and_format_response
    (data : pyval) (task_description : string) : result pyval :=
  let* d1 := wrap_if_str "required_access" data in
  let* d2 := wrap_if_str "dependencies" d1 in
  wrap_if_str "suggested_labels" d2.

Definition fallback_reasoning (task_description : string) : string :=
  PyStr.join nl [
    "Phase 1: Technical Breakdown";
    "Overview: Manual technical analysis required for '"
      +:+ PyStr.take 100 task_description
      +:+ "...'. Standard development workflow with modern tech stack. Requires environment setup, implementation, and deployment phases.";
    EmptyString;
    "Phase 1: Requirements Analysis and Setup";
    "- Review task requirements and define scope";
    "- Set up development environment and tools";
    "- Create project structure and initial configuration";
    EmptyString;
    "Phase 2: Core Implementation";
    "- Implement main functionality according to specifications";
    "- Write comprehensive unit and integration tests";
    "- Conduct code review and refactoring";
    EmptyString;
    "Phase 3: Testing and Deployment";
    "- Perform end-to-end testing in staging environment";
    "- Create deployment documentation and runbooks";
    "- Deploy to production with monitoring setup" ].

(** [error or "AI service temporarily unavailable"] *)
Definition error_or_default (error : option string) : string :=
  match error with
  | Some e => if PyStr.nonempty e then e
              else "AI service temporarily unavailable"
  | None => "AI service temporarily unavailable"
  end.

(** [_get_fallback_response]; [now] is [datetime.now().isoformat()]. *)
Definition _get_fallback_response
    (now : string) (task_description : string) (error : option string)
    : gmap string pyval :=
  <["timestamp" := VStr now]>
  (<["fallback" := VBool true]>
  (<["reasoning" := VStr (fallback_reasoning task_description)]>
  (<["suggested_labels" :=
       VList [VStr "feature"; VStr "development"; VStr "needs-review"]]>
  (<["required_access" :=
       VList [VStr "Development Environment Access";
              VStr "Version Control System (GitHub/GitLab)";
              VStr "Testing Environment"]]>
  (<["dependencies" :=
       VList [VStr "Initial requirements gathering";
              VStr "Technical review"]]>
  (<["complexity_level" := VStr "Medium"]>
  (<["priority" := VStr "Medium"]>
  (<["estimated_time" := VStr "1-2 weeks"]>
  (<["title" :=
       VStr ("Analysis: " +:+ PyStr.take 40 task_description +:+ "...")]>
  (<["error" := VStr (error_or_default error)]>
  (<["success" := VBool false]> ∅))))))))))).

Definition max_retries : Z := 3.
Definition initial_retry_delay : Z := 2.

(** The transient signatures of the retry loop. *)
Definition is_transient (error_str : string) : bool :=
  PyStr.contains error_str "503" || PyStr.contains error_str "UNAVAILABLE"
  || PyStr.contains error_str "429".

(** How the [for attempt in range(max_retries)] loop is left. *)
Inductive loop_exit :=
| Break (r : response)     (* [break] with [response] bound *)
| Return (v : pyval)       (* [return] from inside the loop *)
| Exhausted.               (* the range ran out, [response] unbound *)

Section Estimate.

(** [str] of the interpreter's exceptions, and [json.loads]. *)
Variable exn_text : fault -> string.
Variable json_loads : string -> result pyval.

(** [self.client.models.generate_content(...)], an attribute error
    when the client is [None]. *)
Definition call_provider (self : AIEstimator) (prompt : string)
    (attempt : nat) : result response * list event :=
  match client self with
  | None => (Raise (Fault (NoAttribute VNone "models")), [])
  | Some c =>
      (generate_content c (model_id self) prompt attempt,
       [Generate (model_id self) prompt attempt])
  end.

Fixpoint retry_loop (self : AIEstimator) (now task_description prompt : string)
    (attempts : list nat) (retry_delay : Z) : loop_exit * list event :=
  match attempts with
  | [] => (Exhausted, [])
  | attempt :: rest =>
      let '(r, ev) := call_provider self prompt attempt in
      match r with
      | Ok resp => (Break resp, ev)
      | Raise e =>
          let error_str := str_exn exn_text e in
          if is_transient error_str then
            if Z.of_nat attempt <? max_retries - 1 then
              let '(x, tr) :=
                retry_loop self now task_description prompt rest
                           (retry_delay * 2) in
              (x, ev ++ Sleep retry_delay :: tr)
            else
              (Return (VDict (_get_fallback_response now task_description
                                (Some ("API Error: " +:+ error_str)))), ev)
          else
            (Return (VDict (_get_fallback_response now task_description
                              (Some ("API Error: " +:+ error_str)))), ev)
      end
  end.

(** The statements after the loop, inside the outer [try]. *)
Definition parse_response (task_description : string) (resp : response)
    : result pyval :=
  let* response_text := match text resp with
                      | Some t => Ok (PyStr.strip t)
                      | None => Raise (Fault (NoAttribute VNone "strip"))
                      end in
  let response_text := _clean_response response_text in
  let* estimate_data := json_loads response_text in
  let* formatted_data :=
       _validate_and_format_response estimate_data task_description in
  setitem formatted_data "success" (VBool true).

(** The two handlers: [except json.JSONDecodeError] around the parse,
    [except Exception] around everything. *)
Definition handle (now task_description : string) (r : result pyval)
    : pyval :=
  match r with
  | Ok v => v
  | Raise (JSONDecodeError je) =>
      VDict (_get_fallback_response now task_description
               (Some ("JSON Parse Error: " +:+ je)))
  | Raise e =>
      VDict (_get_fallback_response now task_description
               (Some ("Unexpected Error: " +:+ str_exn exn_text e)))
  end.

Definition estimate_task (self : AIEstimator) (now : string)
    (task_description : string) : pyval * list event :=
  if negb (available self) then
    (VDict (_get_fallback_response now task_description None), [])
  else
    let prompt := _create_prompt task_description in
    let '(x, tr) :=
      retry_loop self now task_description prompt
                 (seq 0 (Z.to_nat max_retries)) initial_retry_delay in
    match x with
    | Return v => (v, tr)
    | Break resp =>
        (handle now task_description (parse_response task_description resp), tr)
    | Exhausted =>
        (handle now task_description (Raise (Fault (Unbound "response"))), tr)
    end.

End Estimate.

End AIServices.

(* ===================================================================== *)
(** ** ai_task_creator.py *)
(* ===================================================================== *)

Module AITaskCreator.
Import Py.

(** [generate_short_title(task, max_words)]; the handler calls it with
    the default [max_words = 6]. *)
Definition generate_short_title (task : string) (max_words : nat) : string :=
  if negb (PyStr.nonempty task) then "New Ticket"
  else
    let task := PyStr.strip (PyStr.replace_char "010" " " task) in
    let words := PyStr.split task in
    let short_title := PyStr.join " " (firstn max_words words) in
    PyStr.capitalize short_title.

(** [generate_ticket_number()], from the random bits [uuid4] draws. *)
Definition generate_ticket_number (random_bits : Z) : string :=
  "TKT-" +:+ PyStr.upper (PyStr.take 8 (UUID.str (UUID.uuid4 random_bits))).

(** [hashlib.md5(task_description.encode()).hexdigest()[:16]] *)
Definition ticket_id_of (task_description : string) : string :=
  PyStr.take 16 (MD5.hexdigest (MD5.encode task_description)).

(** [x = ai_response.get(key, []); if isinstance(x, str): x = [x]] *)
Definition get_listish (ai_response : pyval) (key : string) : result pyval :=
  let* x := get ai_response key (VList []) in
  Ok (if is_str x then VList [x] else x).

(** The title of the preview: the model's, stripped, when it is a string
    of 3 to 6 words, else one derived from the task text. *)
Definition choose_title (raw_title : pyval) (task_description : string)
    : string :=
  match raw_title with
  | VStr t =>
      let n := length (PyStr.split t) in
      if (3 <=? n)%nat && (n <=? 6)%nat then PyStr.strip t
      else generate_short_title task_description 6
  | _ => generate_short_title task_description 6
  end.

Definition error_body (error : pyval) : pyval :=
  VDict (<["error" := error]> (<["success" := VBool false]> ∅)).

Section Handler.

Variable exn_text : fault -> string.

(** The body of the [try] of [get_ai_estimate]: the JSON body of the
    answer and its HTTP status.  [request_json] is what
    [request.get_json()] gives, [estimate_task] the estimator in
    service, [random_bits] the draw behind the ticket number. *)
Definition get_ai_estimate_body (request_json : result pyval)
    (estimate_task : string -> pyval) (random_bits : Z)
    : result (pyval * Z) :=
  let* data := request_json in
  let* task := get data "task" (VStr EmptyString) in
  let* task_description := strip task in
  if negb (PyStr.nonempty task_description) then
    Ok (error_body (VStr "Task description is required"), 400)
  else
    let ai_response := estimate_task task_description in
    (* the values printed before the branch *)
    let* _p1 := get ai_response "success" VNone in
    let* _p2 := get ai_response "estimated_time" VNone in
    let* _p3 := get ai_response "priority" VNone in
    let* reasoning := get ai_response "reasoning" (VStr EmptyString) in
    let* _p4 := slice_prefix reasoning in
    let* success := get ai_response "success" VNone in
    if truthy success then
      let ticket_id := ticket_id_of task_description in
      let ticket_number := generate_ticket_number random_bits in
      let* tags := get_listish ai_response "suggested_labels" in
      let* access_required := get_listish ai_response "required_access" in
      let* dependencies := get_listish ai_response "dependencies" in
      let* raw_title := get ai_response "title" VNone in
      let title := choose_title raw_title task_description in
      let* estimated_time :=
        get ai_response "estimated_time" (VStr "Unknown") in
      let* priority := get ai_response "priority" (VStr "Medium") in
      let* complexity_level :=
        get ai_response "complexity_level" (VStr "Medium") in
      let* reasoning' := get ai_response "reasoning" (VStr EmptyString) in
      let estimate : gmap string pyval :=
        <["reasoning" := reasoning']>
        (<["suggested_labels" := tags]>
        (<["required_access" := access_required]>
        (<["dependencies" := dependencies]>
        (<["complexity_level" := complexity_level]>
        (<["priority" := priority]>
        (<["estimated_time" := estimated_time]> ∅)))))) in
      Ok (VDict (<["estimate" := VDict estimate]>
                (<["title" := VStr title]>
                (<["task" := VStr task_description]>
                (<["ticket_number" := VStr ticket_number]>
                (<["ticket_id" := VStr ticket_id]>
                (<["success" := VBool true]> ∅)))))), 200)
    else
      let* error := get ai_response "error" (VStr "AI generation failed") in
      Ok (error_body error, 500).

(** [get_ai_estimate]: any exception of the body becomes a 500. *)
Definition get_ai_estimate (request_json : result pyval)
    (estimate_task : string -> pyval) (random_bits : Z) : pyval * Z :=
  match get_ai_estimate_body request_json estimate_task random_bits with
  | Ok r => r
  | Raise e => (error_body (VStr (str_exn exn_text e)), 500)
  end.

End Handler.

(** The stand-in estimator installed when [services.ai_services] cannot
    be imported. *)
Definition stub_estimate : gmap string pyval :=
  <["reasoning" := VStr "Basic implementation (FALLBACK RESPONSE)"]>
  (<["suggested_labels" := VList [VStr "feature"]]>
  (<["required_access" := VList [VStr "Backend"]]>
  (<["dependencies" := VList [VStr "Initial setup"]]>
  (<["complexity_level" := VStr "Medium"]>
  (<["priority" := VStr "Medium"]>
  (<["estimated_time" := VStr "2 days"]>
  (<["success" := VBool true]> ∅))))))).

Definition stub_estimate_task (task : string) : pyval := VDict stub_estimate.

(** Reading a field of a JSON body. *)
Definition field (body : pyval) (key : string) : option pyval :=
  match body with
  | VDict d => d !! key
  | _ => None
  end.

End AITaskCreator.

(* ===================================================================== *)
(** ** Vocabulary of the properties *)
(* ===================================================================== *)

Module Spec.
Import Py.

(** A payload [s] between an opening fence line and a closing fence. *)
Definition fenced (opener s : string) : string :=
  opener +:+ AIServices.nl +:+ s +:+ AIServices.nl +:+ AIServices.fence.

(** A field holding the Boolean [b]. *)
Definition is_flag (b : bool) (o : option pyval) : bool :=
  match o with
  | Some (VBool b') => Bool.eqb b b'
  | _ => false
  end.

(** A field holding a non-empty string. *)
Definition is_text (o : option pyval) : bool :=
  match o with
  | Some (VStr s) => PyStr.nonempty s
  | _ => false
  end.

(** A field holding a non-empty list of strings. *)
Definition is_text_list (o : option pyval) : bool :=
  match o with
  | Some (VList (x :: l)) => forallb is_str (x :: l)
  | _ => false
  end.

(** A field holding a list. *)
Definition is_sequence (o : option pyval) : bool :=
  match o with
  | Some v => is_list v
  | None => false
  end.

(** Every field of the estimate schema is there and filled in. *)
Definition schema_populated (d : gmap string pyval) : bool :=
  is_text (d !! "title") && is_text (d !! "estimated_time") &&
  is_text (d !! "priority") && is_text (d !! "complexity_level") &&
  is_text_list (d !! "dependencies") &&
  is_text_list (d !! "required_access") &&
  is_text_list (d !! "suggested_labels") && is_text (d !! "reasoning").

(** The complete fallback result: failure flag, marker, error text,
    timestamp and the whole schema. *)
Definition complete_fallback (d : gmap string pyval) : bool :=
  is_flag false (d !! "success") && is_flag true (d !! "fallback") &&
  is_text (d !! "error") && is_str (default VNone (d !! "timestamp")) &&
  schema_populated d.

(** What the normalisation makes of one field of a payload. *)
Definition wrap_field (k : string) (p : gmap string pyval)
    : gmap string pyval :=
  match p !! k with
  | Some (VStr s) => <[k := VList [VStr s]]> p
  | _ => p
  end.

Definition normalized (p : gmap string pyval) : gmap string pyval :=
  wrap_field "suggested_labels"
    (wrap_field "dependencies" (wrap_field "required_access" p)).

(** What the handler makes of an array field of the estimate [d]:
    the empty list when absent, a one-element list for a bare string. *)
Definition listish (d : gmap string pyval) (key : string) : pyval :=
  let x := default (VList []) (d !! key) in
  if is_str x then VList [x] else x.

(** The first [n] blank-separated words, joined by single spaces. *)
Definition first_words (n : nat) (text : string) : string :=
  PyStr.join " " (firstn n (PyStr.split text)).

(** No lower-case letter in front, no upper-case letter after it. *)
Definition capitalized (s : string) : bool :=
  match s with
  | EmptyString => true
  | String c r =>
      negb (PyStr.is_lower c) &&
      Hex.all (fun x => negb (PyStr.is_upper x)) r
  end.

(** The events of [k] transient failures followed by one more call:
    call, sleep 2, call, sleep 4, ..., call. *)
Fixpoint backoff_trace (model : option string) (prompt : string)
    (attempt : nat) (delay : Z) (k : nat) : list AIServices.event :=
  match k with
  | O => [AIServices.Generate model prompt attempt]
  | S k' =>
      AIServices.Generate model prompt attempt :: AIServices.Sleep delay ::
      backoff_trace model prompt (S attempt) (delay * 2) k'
  end.

(** The seconds slept along a trace. *)
Fixpoint slept (tr : list AIServices.event) : Z :=
  match tr with
  | [] => 0
  | AIServices.Sleep s :: r => s + slept r
  | _ :: r => slept r
  end.

(** The number of calls to the provider along a trace. *)
Fixpoint calls (tr : list AIServices.event) : nat :=
  match tr with
  | [] => O
  | AIServices.Generate _ _ _ :: r => S (calls r)
  | _ :: r => calls r
  end.

End Spec.

(* ===================================================================== *)
(** ** Concrete providers, payloads and environments *)
(* ===================================================================== *)

Module Fixtures.
Import Py AIServices.

(** Message texts in the wording of CPython 3.12. *)
Definition exn_text (f : fault) : string :=
  match f with
  | NotContainer _ => "argument of type 'NoneType' is not iterable"
  | BadSubscript _ => "list indices must be integers or slices, not str"
  | MissingKey k => "'" +:+ k +:+ "'"
  | NoItemAssignment _ => "'str' object does not support item assignment"
  | NoAttribute _ name => "'NoneType' object has no attribute '" +:+ name +:+ "'"
  | NotSliceable _ => "'NoneType' object is not subscriptable"
  | Unbound name =>
      "cannot access local variable '" +:+ name
      +:+ "' where it is not associated with a value"
  end.

(** A reply of the model: a bare string for [required_access], and a
    [success] of its own. *)
Definition payload_text : string :=
  "{" +:+ dq +:+ "title" +:+ dq +:+ ": " +:+ dq +:+ "Fix Safari login bug" +:+ dq
  +:+ ", " +:+ dq +:+ "required_access" +:+ dq +:+ ": " +:+ dq +:+ "Backend" +:+ dq
  +:+ ", " +:+ dq +:+ "success" +:+ dq +:+ ": false}".

Definition payload : gmap string pyval :=
  <["title" := VStr "Fix Safari login bug"]>
  (<["required_access" := VStr "Backend"]>
  (<["success" := VBool false]> ∅)).

(** [json.loads] on the texts used below; anything else is rejected. *)
Definition json_loads (s : string) : result pyval :=
  if String.eqb s payload_text then Ok (VDict payload)
  else if String.eqb s "[]" then Ok (VList [])
  else if String.eqb s "null" then Ok VNone
  else Raise (JSONDecodeError "Expecting value: line 1 column 1 (char 0)").

(** Overloaded, then rate-limited, then a fenced answer. *)
Definition flaky_client : Client :=
  MkClient (fun _ _ n =>
    match n with
    | O => Raise (Raised "503 UNAVAILABLE. The model is overloaded.")
    | S O => Raise (Raised "429 RESOURCE_EXHAUSTED. Quota exceeded.")
    | _ => Ok (Response (Some (Spec.fenced fence_json payload_text)))
    end).

Definition overloaded_client : Client :=
  MkClient (fun _ _ _ =>
    Raise (Raised "503 UNAVAILABLE. The model is overloaded.")).

(** Overloaded once, then a permanent refusal. *)
Definition refusing_client : Client :=
  MkClient (fun _ _ n =>
    match n with
    | O => Raise (Raised "503 UNAVAILABLE. The model is overloaded.")
    | _ => Raise (Raised "400 INVALID_ARGUMENT. API key not valid.")
    end).

Definition model : option string := Some "gemini-2.0-flash-exp".
Definition now : string := "2026-01-15T10:30:00.000000".
Definition task : string := "Fix login bug on mobile Safari for iOS 17 users".

Definition estimator (c : Client) : AIEstimator :=
  MkEstimator (Some c) model true.

(** No credential in the environment. *)
Definition bare_env : Env :=
  MkEnv (fun _ => None) (fun _ => Ok overloaded_client).

(** A credential and a working client factory. *)
Definition keyed_env : Env :=
  MkEnv (fun k => if String.eqb k "GEMINI_API_KEY" then Some "secret"
                  else None)
        (fun _ => Ok flaky_client).

End Fixtures.

(* ===================================================================== *)
(** ** models.py and the ticket creation of ai_task_creator.py *)
(* ===================================================================== *)

Module Models.
Import Py.

(** [KanbanTicket._generate_ticket_number] *)
Definition _generate_ticket_number (random_bits : Z) : string :=
  "TKT-" +:+ PyStr.upper (PyStr.take 8 (UUID.str (UUID.uuid4 random_bits))).

(** [KanbanTicket.__init__] on its keyword arguments: what is passed on to
    the constructor of the ORM; a ticket number is drawn when none, or a
    falsy one, was given. *)
Definition __init__ (kwargs : gmap string pyval) (random_bits : Z)
    : gmap string pyval :=
  match kwargs !! "ticket_number" with
  | Some v =>
      if truthy v then kwargs
      else <["ticket_number" := VStr (_generate_ticket_number random_bits)]>
             kwargs
  | None =>
      <["ticket_number" := VStr (_generate_ticket_number random_bits)]> kwargs
  end.

End Models.

Module TicketCreation.
Import Py.

(** [generate_short_title(task)] on whatever [data.get('task', ...)]
    gave: a falsy value of any type is "no task"; another value must
    have [replace], that is, be a string. *)
Definition short_title_of (task : pyval) : result string :=
  if negb (truthy task) then Ok "New Ticket"
  else match task with
       | VStr s => Ok (AITaskCreator.generate_short_title s 6)
       | _ => Raise (Fault (NoAttribute task "replace"))
       end.

(** [v.lower()] *)
Definition lower (v : pyval) : result pyval :=
  match v with
  | VStr s => Ok (VStr (PyStr.lower s))
  | _ => Raise (Fault (NoAttribute v "lower"))
  end.

(** The keyword arguments of [KanbanTicket(...)] in
    [create_final_ticket], evaluated from left to right; the default of
    the title is computed before the title is looked up. *)
Definition new_ticket_kwargs (data : pyval) (random_bits : Z)
    : result (gmap string pyval) :=
  let* ticket_id := get data "ticket_id" VNone in
  let* given_number := get data "ticket_number" VNone in
  let ticket_number :=
    if truthy given_number then given_number
    else VStr (AITaskCreator.generate_ticket_number random_bits) in
  let* task := get data "task" (VStr "New Ticket") in
  let* default_title := short_title_of task in
  let* title := get data "title" (VStr default_title) in
  let* description := get data "edited_description" (VStr EmptyString) in
  let* edited_priority := get data "edited_priority" (VStr "medium") in
  let* priority := lower edited_priority in
  let* estimate1 := get data "estimate" (VDict ∅) in
  let* estimated_time := get estimate1 "estimated_time" (VStr "TBD") in
  let* estimate2 := get data "estimate" (VDict ∅) in
  let* tags := get estimate2 "suggested_labels" (VList []) in
  let* estimate3 := get data "estimate" (VDict ∅) in
  let* access_required := get estimate3 "required_access" (VList []) in
  let* estimate4 := get data "estimate" (VDict ∅) in
  let* dependencies := get estimate4 "dependencies" (VList []) in
  Ok (<["dependencies" := dependencies]>
     (<["access_required" := access_required]>
     (<["tags" := tags]>
     (<["estimated_time" := estimated_time]>
     (<["priority" := priority]>
     (<["status" := VStr "new"]>
     (<["description" := description]>
     (<["title" := title]>
     (<["ticket_number" := ticket_number]>
     (<["ticket_id" := ticket_id]> ∅)))))))))).

Section Handler.

Variable exn_text : fault -> string.

(** [str(v)] inside an f-string, for a [v] that is no string. *)
Variable format_value : pyval -> string.

(** The store: [db.session.add], [commit] and [to_dict()] of the new
    ticket, or the exception of a refused insert. *)
Variable persist : gmap string pyval -> result pyval.

Definition format (v : pyval) : string :=
  match v with
  | VStr s => s
  | _ => format_value v
  end.

(** The body of the [try] of [create_final_ticket]. *)
Definition create_final_ticket_body (request_json : result pyval)
    (random1 random2 : Z) : result (pyval * Z) :=
  let* data := request_json in
  let* kwargs := new_ticket_kwargs data random1 in
  let new_ticket := Models.__init__ kwargs random2 in
  let* ticket_data := persist new_ticket in
  let* number := getitem ticket_data "ticket_number" in
  Ok (VDict (<["message" :=
               VStr ("Ticket " +:+ format number
                     +:+ " created successfully!")]>
            (<["ticket" := ticket_data]>
            (<["success" := VBool true]> ∅))), 200).

(** [create_final_ticket]: any exception becomes a 500. *)
Definition create_final_ticket (request_json : result pyval)
    (random1 random2 : Z) : pyval * Z :=
  match create_final_ticket_body request_json random1 random2 with
  | Ok r => r
  | Raise e =>
      (AITaskCreator.error_body (VStr (str_exn exn_text e)), 500)
  end.

End Handler.

End TicketCreation.

(* ===================================================================== *)
(** ** services/estimation_services.py *)
(* ===================================================================== *)

Module EstimationServices.
Import Py.

Record TicketEstimator := MkTicketEstimator { ticket_counter : Z }.

(** [TicketEstimator.__init__] *)
Definition __init__ : TicketEstimator := MkTicketEstimator 1000.

(** [str(n)] of an integer. *)
Definition str_int (n : Z) : string :=
  DecimalString.NilZero.string_of_int (Z.to_int n).

(** [_generate_ticket_id]: the counter is advanced, then rendered. *)
Definition _generate_ticket_id (self : TicketEstimator) (task : string)
    : string * TicketEstimator :=
  let task_hash :=
    PyStr.upper (PyStr.take 6 (MD5.hexdigest (MD5.encode task))) in
  let self' := MkTicketEstimator (ticket_counter self + 1) in
  ("TKT-" +:+ str_int (ticket_counter self') +:+ "-" +:+ task_hash, self').

(** [a in x and b in x], the second test made only after a true first. *)
Definition contains_both (a b : string) (x : pyval) : result bool :=
  let* first := contains a x in
  if first then contains b x else Ok false.

(** [_suggest_assignee] *)
Definition _suggest_assignee (estimate : pyval) : result string :=
  let* required_access := get estimate "required_access" (VList []) in
  let* full := contains_both "Backend" "Frontend" required_access in
  if full then Ok "Full Stack Developer" else
  let* backend := contains "Backend" required_access in
  if backend then Ok "Backend Developer" else
  let* frontend := contains "Frontend" required_access in
  if frontend then Ok "Frontend Developer" else
  let* database := contains "Database" required_access in
  if database then Ok "Database Administrator" else
  let* devops := contains "DevOps" required_access in
  if devops then Ok "DevOps Engineer" else Ok "General Developer".

(** [create_ticket]; [now1], [now2], [now3] are the three readings of the
    clock, [metadata] is [None] when the argument is left out.  The
    counter has moved also when the assignee cannot be computed. *)
Definition create_ticket (self : TicketEstimator) (now1 now2 now3 : string)
    (task : string) (estimate metadata : pyval)
    : result pyval * TicketEstimator :=
  let '(ticket_id, self') := _generate_ticket_id self task in
  let ticket : gmap string pyval :=
    <["history" :=
        VList [VDict (<["details" := VStr "Ticket estimated by AI assistant"]>
                     (<["action" := VStr "Created"]>
                     (<["timestamp" := VStr now3]> ∅)))]]>
    (<["metadata" := if truthy metadata then metadata else VDict ∅]>
    (<["estimate_details" := estimate]>
    (<["estimated_at" := VStr now2]>
    (<["created_at" := VStr now1]>
    (<["status" := VStr "Estimated"]>
    (<["task" := VStr task]>
    (<["id" := VStr ticket_id]> ∅))))))) in
  (let* assignee := _suggest_assignee estimate in
   Ok (VDict (<["suggested_assignee" := VStr assignee]> ticket)),
   self').

(** The identifiers of successive calls of [_generate_ticket_id]. *)
Fixpoint generate_ids (self : TicketEstimator) (tasks : list string)
    : list string :=
  match tasks with
  | [] => []
  | task :: rest =>
      let '(ticket_id, self') := _generate_ticket_id self task in
      ticket_id :: generate_ids self' rest
  end.

End EstimationServices.

(* ===================================================================== *)
(** ** kanban_dashboard.py *)
(* ===================================================================== *)

Module KanbanDashboard.
Import Py.

(** A row of [kanban_tickets], as far as these handlers decide it: the
    status, the progress, the two instants (as numbers) and the other
    columns.  [updated_at] is left out: the handlers assign it, and so
    does the ORM on every update. *)
Record Ticket := MkTicket {
  status : option string;
  progress_percentage : option Z;
  started_at : option Z;
  completed_at : option Z;
  columns : gmap string pyval
}.

Definition statuses : list string :=
  ["new"; "in_progress"; "review"; "completed"; "blocked"].

(** The answer: [ticket.to_dict()] of the updated ticket, or a status
    code and an error text. *)
Inductive response :=
| Success (ticket : Ticket)
| Failure (code : Z) (error : string).

(** [v in ['new', 'in_progress', 'review', 'completed', 'blocked']] *)
Definition known_status (v : pyval) : bool :=
  match v with
  | VStr s => bool_decide (s ∈ statuses)
  | _ => false
  end.

Definition is_none (v : pyval) : bool :=
  match v with VNone => true | _ => false end.

(** The block under [if new_status:], for a status that passed the
    check; [now] is the clock read for [started_at] or [completed_at]. *)
Definition apply_status (ticket : Ticket) (new_status : string) (now : Z)
    : Ticket :=
  if String.eqb new_status "in_progress" &&
     negb (bool_decide (is_Some (started_at ticket))) then
    MkTicket (Some new_status)
      (match progress_percentage ticket with
       | None => Some 10
       | Some p => if p =? 0 then Some 10 else Some p
       end)
      (Some now) (completed_at ticket) (columns ticket)
  else if String.eqb new_status "completed" &&
          negb (bool_decide (is_Some (completed_at ticket))) then
    MkTicket (Some new_status) (Some 100) (started_at ticket) (Some now)
      (columns ticket)
  else if String.eqb new_status "new" then
    MkTicket (Some new_status) (Some 0) None None (columns ticket)
  else
    MkTicket (Some new_status) (progress_percentage ticket)
      (started_at ticket) (completed_at ticket) (columns ticket).

Definition set_progress (ticket : Ticket) (p : Z) : Ticket :=
  MkTicket (status ticket) (Some p) (started_at ticket)
    (completed_at ticket) (columns ticket).

Section Update.

Variable exn_text : fault -> string.

(** [int(v)] for a [v] that is neither an int nor a Boolean. *)
Variable int_of : pyval -> result Z.

(** [db.session.commit()] of a table: done, or the exception of the
    store. *)
Variable commit : gmap Z Ticket -> result unit.

Definition py_int (v : pyval) : result Z :=
  match v with
  | VInt n => Ok n
  | VBool b => Ok (if b then 1 else 0)
  | _ => int_of v
  end.

(** The body of the [try] of [update_ticket_status], for the ticket
    found under [ticket_id]. *)
Definition update_found (db : gmap Z Ticket) (ticket_id : Z)
    (ticket : Ticket) (request_json : result pyval) (now : Z)
    : result (response * gmap Z Ticket) :=
  let* data := request_json in
  let* new_status := get data "status" VNone in
  let* new_progress := get data "progress_percentage" VNone in
  if truthy new_status && negb (known_status new_status) then
    Ok (Failure 400 "Invalid status", db)
  else
    let ticket1 :=
      match new_status with
      | VStr s => if truthy new_status then apply_status ticket s now
                  else ticket
      | _ => ticket
      end in
    let* ticket2 :=
      if is_none new_progress then Ok ticket1
      else (let* n := py_int new_progress in
            Ok (set_progress ticket1 (Z.max 0 (Z.min 100 n)))) in
    let* _ := commit (<[ticket_id := ticket2]> db) in
    Ok (Success ticket2, <[ticket_id := ticket2]> db).

(** [update_ticket_status]: the answer and the table afterwards; an
    exception rolls the session back. *)
Definition update_ticket_status (db : gmap Z Ticket) (ticket_id : Z)
    (request_json : result pyval) (now : Z) : response * gmap Z Ticket :=
  match db !! ticket_id with
  | None => (Failure 404 "Ticket not found", db)
  | Some ticket =>
      match update_found db ticket_id ticket request_json now with
      | Ok r => r
      | Raise e => (Failure 500 (str_exn exn_text e), db)
      end
  end.



End Update.

(** [t.status == s] *)
Definition has_status (s : string) (t : Ticket) : bool :=
  match status t with
  | Some x => String.eqb x s
  | None => false
  end.

(** [[t.to_dict() for t in tickets if t.status == s]] *)
Definition column (to_dict : Ticket -> pyval) (s : string)
    (tickets : list Ticket) : list pyval :=
  List.map to_dict (List.filter (has_status s) tickets).

(** [get_kanban_tickets]: the body of the answer, for the rows in the
    order the query returned them. *)
Definition get_kanban_tickets (to_dict : Ticket -> pyval)
    (tickets : list Ticket) : pyval :=
  VDict (<["tickets" :=
            VDict (<["blocked" := VList (column to_dict "blocked" tickets)]>
                  (<["completed" := VList (column to_dict "completed" tickets)]>
                  (<["review" := VList (column to_dict "review" tickets)]>
                  (<["in_progress" :=
                       VList (column to_dict "in_progress" tickets)]>
                  (<["new" := VList (column to_dict "new" tickets)]> ∅)))))]>
        (<["success" := VBool true]> ∅)).

End KanbanDashboard.

(* ===================================================================== *)
(** ** Vocabulary and fixtures of the further properties *)
(* ===================================================================== *)

Module Spec2.
Import Py.

(** A word: not empty, and without a blank. *)
Definition good_word (w : string) : Prop :=
  PyStr.nonempty w = true /\
  Hex.all (fun c => negb (PyStr.is_space c)) w = true.

(** The value is the string [s]: what [s in l] tests on each element. *)
Definition has_element (s : string) (l : list pyval) : bool :=
  existsb (str_eqb s) l.

(** A stored progress is absent or a percentage. *)
Definition progress_ok (t : KanbanDashboard.Ticket) : Prop :=
  match KanbanDashboard.progress_percentage t with
  | None => True
  | Some p => 0 <= p <= 100
  end.

(** The ticket has one of the five statuses of the board. *)
Definition shown (t : KanbanDashboard.Ticket) : bool :=
  match KanbanDashboard.status t with
  | Some s => bool_decide (s ∈ KanbanDashboard.statuses)
  | None => false
  end.

(** What a request asks for: [data.get('status')] and
    [data.get('progress_percentage')]. *)
Definition asked_status (data : gmap string pyval) : pyval :=
  default VNone (data !! "status").
Definition asked_progress (data : gmap string pyval) : pyval :=
  default VNone (data !! "progress_percentage").

(** A stored status is absent or one of the five stages. *)
Definition status_ok (t : KanbanDashboard.Ticket) : Prop :=
  match KanbanDashboard.status t with
  | None => True
  | Some s => s ∈ KanbanDashboard.statuses
  end.

End Spec2.

Module Fixtures2.
Import Py AIServices.

(** A reply in prose, a JSON array, a bare object, an object whose
    reasoning is null. *)
Definition prose_client : Client :=
  MkClient (fun _ _ _ => Ok (Response (Some "Sorry, I cannot help."))).

Definition array_client : Client :=
  MkClient (fun _ _ _ => Ok (Response (Some "[]"))).

Definition direct_client : Client :=
  MkClient (fun _ _ _ => Ok (Response (Some Fixtures.payload_text))).

Definition null_reasoning_text : string :=
  "{" +:+ dq +:+ "reasoning" +:+ dq +:+ ": null}".

Definition null_reasoning_client : Client :=
  MkClient (fun _ _ _ => Ok (Response (Some null_reasoning_text))).

Definition json_loads (s : string) : result pyval :=
  if String.eqb s null_reasoning_text
  then Ok (VDict {["reasoning" := VNone]})
  else Fixtures.json_loads s.

(** The keyword arguments made from a task and a priority 'HIGH', the
    random bits being zero. *)
Definition new_kwargs : gmap string pyval :=
  <["dependencies" := VList []]>
  (<["access_required" := VList []]>
  (<["tags" := VList []]>
  (<["estimated_time" := VStr "TBD"]>
  (<["priority" := VStr "high"]>
  (<["status" := VStr "new"]>
  (<["description" := VStr EmptyString]>
  (<["title" := VStr "Fix login bug on mobile safari"]>
  (<["ticket_number" := VStr "TKT-00000000"]>
  (<["ticket_id" := VNone]> ∅))))))))).

(** [int(v)] on the values used below. *)
Definition int_of (v : pyval) : result Z :=
  match v with
  | VStr "250" => Ok 250
  | _ => Raise (Raised "invalid literal for int() with base 10")
  end.

Definition fresh_ticket : KanbanDashboard.Ticket :=
  KanbanDashboard.MkTicket (Some "new") (Some 0) None None ∅.

(** Completed once, then moved back to work. *)
Definition reopened_ticket : KanbanDashboard.Ticket :=
  KanbanDashboard.MkTicket (Some "in_progress") (Some 40) (Some 150)
    (Some 200) ∅.

Definition table : gmap Z KanbanDashboard.Ticket :=
  <[2 := reopened_ticket]> (<[1 := fresh_ticket]> ∅).

(** A store that accepts every commit. *)
Definition commit (_ : gmap Z KanbanDashboard.Ticket) : result unit :=
  Ok tt.

End Fixtures2.

(* ===================================================================== *)
(** * Properties *)
(* ===================================================================== *)

(** ** Evaluation of the primitives on small inputs *)

Example split_demo :
  PyStr.split "  Fix login   bug " = ["Fix"; "login"; "bug"].
Proof. reflexivity. Qed.

Example strip_demo : PyStr.strip "  a b  " = "a b".
Proof. reflexivity. Qed.

Example capitalize_demo : PyStr.capitalize "fix Login BUG" = "Fix login bug".
Proof. reflexivity. Qed.

Example endswith_demo :
  PyStr.endswith "{}```" "```" = true /\ PyStr.drop_last 3 "{}```" = "{}".
Proof. split; reflexivity. Qed.

Example md5_vectors :
  MD5.hexdigest (MD5.encode EmptyString) = "d41d8cd98f00b204e9800998ecf8427e" /\
  MD5.hexdigest (MD5.encode "abc") = "900150983cd24fb0d6963f7d28e17f72" /\
  MD5.hexdigest (MD5.encode "Fix login bug on mobile Safari for iOS 17 users")
    = "35f79ed02cba6cbf69afc5bcf9ae73aa".
Proof. repeat split; vm_compute; reflexivity. Qed.

Example uuid_demo :
  UUID.str (UUID.uuid4 0x1234567890abcdef1234567890abcdef)
  = "12345678-90ab-4def-9234-567890abcdef".
Proof. vm_compute. reflexivity. Qed.

Example md5_two_blocks :
  MD5.hexdigest (repeat 97 119) = "8a7bd0732ed6a28ce75f6dabc90e1613".
Proof. vm_compute. reflexivity. Qed.

Example init_with_key :
  AIServices.available (AIServices.__init__ Fixtures.keyed_env) = true /\
  AIServices.model_id (AIServices.__init__ Fixtures.keyed_env)
  = Some "gemini-2.0-flash-exp".
Proof. split; reflexivity. Qed.

Example clean_tagged_fence :
  AIServices._clean_response (Spec.fenced AIServices.fence_json "{}") = "{}".
Proof. reflexivity. Qed.

Example normalizer_rejects_list (task : string) :
  AIServices._validate_and_format_response
    (Py.VList [Py.VStr "dependencies"]) task
  = Py.Raise (Py.Fault (Py.BadSubscript (Py.VList [Py.VStr "dependencies"]))).
Proof. reflexivity. Qed.

Example estimate_on_json_array :
  fst (AIServices.estimate_task Fixtures.exn_text Fixtures.json_loads
         (Fixtures.estimator
            (AIServices.MkClient
               (fun _ _ _ => Py.Ok (AIServices.Response (Some "[]")))))
         Fixtures.now Fixtures.task)
  = Py.VDict (AIServices._get_fallback_response Fixtures.now Fixtures.task
      (Some "Unexpected Error: 'str' object does not support item assignment")).
Proof. reflexivity. Qed.

Example short_title_newline :
  AITaskCreator.generate_short_title
    ("add dark" +:+ AIServices.nl +:+ "MODE toggle to the settings page now") 6
  = "Add dark mode toggle to the".
Proof. reflexivity. Qed.

(** ** Strings *)

Section StringFacts.
Import PyStr.

Lemma append_assoc (a b c : string) : (a +:+ b) +:+ c = a +:+ (b +:+ c).
Proof. induction a as [|x a IH]; simpl; [reflexivity | now rewrite IH]. Qed.

Lemma length_append (a b : string) :
  String.length (a +:+ b) = (String.length a + String.length b)%nat.
Proof. induction a as [|x a IH]; simpl; [reflexivity | now rewrite IH]. Qed.

Lemma take_append (a b : string) : take (String.length a) (a +:+ b) = a.
Proof. induction a as [|x a IH]; simpl; [now destruct b | now rewrite IH]. Qed.

Lemma drop_last_append (a b : string) :
  drop_last (String.length b) (a +:+ b) = a.
Proof.
  unfold drop_last. rewrite length_append.
  replace (String.length a + String.length b - String.length b)%nat
    with (String.length a) by lia.
  apply take_append.
Qed.

Lemma length_take (n : nat) (s : string) :
  String.length (take n s) = Nat.min n (String.length s).
Proof.
  revert s; induction n as [|n IH]; intros [|c r]; simpl; auto.
Qed.

Lemma all_take (p : ascii -> bool) (n : nat) (s : string) :
  Hex.all p s = true -> Hex.all p (take n s) = true.
Proof.
  revert s; induction n as [|n IH]; intros [|c r]; simpl; auto.
  intros H. apply andb_true_iff in H as [Hc Hr].
  now rewrite Hc, IH.
Qed.

Lemma all_append (p : ascii -> bool) (a b : string) :
  Hex.all p (a +:+ b) = Hex.all p a && Hex.all p b.
Proof.
  induction a as [|x a IH]; simpl; [reflexivity|].
  now rewrite IH, andb_assoc.
Qed.

Lemma endswith_refl (p : string) : endswith p p = true.
Proof. destruct p; simpl; [reflexivity | now rewrite Ascii.eqb_refl, String.eqb_refl]. Qed.

Lemma endswith_append (a p : string) : endswith (a +:+ p) p = true.
Proof.
  induction a as [|x a IH]; simpl.
  - apply endswith_refl.
  - rewrite IH. apply orb_true_r.
Qed.

Lemma startswith_append (s p q : string) :
  startswith s (p +:+ q) = true -> startswith s p = true.
Proof.
  revert s; induction p as [|x p IH]; intros s; simpl; [reflexivity|].
  destruct s as [|y s]; [discriminate|].
  intros H. apply andb_true_iff in H as [Hxy Hr].
  rewrite Hxy. simpl. now apply IH.
Qed.

(** A trailing line feed is blank: it does not survive [rstrip]. *)
Lemma rstrip_append_nl (s : string) :
  rstrip (s +:+ AIServices.nl) = rstrip s.
Proof.
  induction s as [|c r IH]; [reflexivity|].
  simpl. simpl in IH. now rewrite IH.
Qed.

Lemma strip_append_nl (s : string) : strip (s +:+ AIServices.nl) = strip s.
Proof.
  unfold strip. induction s as [|c r IH]; [reflexivity|].
  simpl. destruct (is_space c); [exact IH|].
  exact (rstrip_append_nl (String c r)).
Qed.

Lemma strip_nl_around (s : string) :
  strip (AIServices.nl +:+ s +:+ AIServices.nl) = strip s.
Proof. exact (strip_append_nl s). Qed.

Lemma nonempty_spec (s : string) : nonempty s = true <-> s <> EmptyString.
Proof. destruct s; simpl; split; congruence. Qed.

(** The words of [split] are non-empty and hold no blank. *)
Lemma split_words (s : string) :
  Forall (fun w => nonempty w = true /\
                   Hex.all (fun c => negb (is_space c)) w = true) (split s).
Proof.
  induction s as [|c r IH]; [constructor|].
  cbn [split]. destruct (is_space c) eqn:Hc; [exact IH|].
  assert (H1 : nonempty (String c EmptyString) = true /\
               Hex.all (fun c => negb (is_space c)) (String c EmptyString)
               = true).
  { split; [reflexivity|]. cbn [Hex.all]. now rewrite Hc. }
  destruct r as [|c' r']; [now constructor|].
  destruct (is_space c') eqn:Hc'; [now constructor|].
  destruct (split (String c' r')) as [|w ws]; [now constructor|].
  inversion IH as [|? ? [Hw1 Hw2] Hws]; subst.
  constructor; [|exact Hws].
  split; [reflexivity|]. cbn [Hex.all]. now rewrite Hc, Hw2.
Qed.

(** Case mappings, by enumeration of the 256 characters. *)
Lemma to_upper_not_lower (c : ascii) : is_lower (to_upper c) = false.
Proof. destruct c as [[] [] [] [] [] [] [] []]; reflexivity. Qed.

Lemma to_lower_not_upper (c : ascii) : is_upper (to_lower c) = false.
Proof. destruct c as [[] [] [] [] [] [] [] []]; reflexivity. Qed.

Lemma to_lower_to_upper (c : ascii) : to_lower (to_upper c) = to_lower c.
Proof. destruct c as [[] [] [] [] [] [] [] []]; reflexivity. Qed.

Lemma to_lower_idem (c : ascii) : to_lower (to_lower c) = to_lower c.
Proof. destruct c as [[] [] [] [] [] [] [] []]; reflexivity. Qed.

Lemma lower_no_upper (s : string) :
  Hex.all (fun c => negb (is_upper c)) (lower s) = true.
Proof.
  unfold lower. induction s as [|c r IH]; simpl; [reflexivity|].
  now rewrite to_lower_not_upper, IH.
Qed.

Lemma lower_idem (s : string) : lower (lower s) = lower s.
Proof.
  unfold lower. induction s as [|c r IH]; simpl; [reflexivity|].
  now rewrite to_lower_idem, IH.
Qed.

Lemma lower_capitalize (s : string) : lower (capitalize s) = lower s.
Proof.
  destruct s as [|c r]; [reflexivity|].
  unfold capitalize, lower. cbn [map].
  rewrite to_lower_to_upper. f_equal. apply lower_idem.
Qed.

End StringFacts.

(** ** The response cleaner *)

Section Cleaner.
Import PyStr AIServices Spec.

Lemma clean_fenced_json (s : string) :
  _clean_response (fenced fence_json s) = strip s.
Proof.
  unfold _clean_response, fenced, fence_json, fence, nl.
  cbn [startswith String.append drop Ascii.eqb Bool.eqb andb].
  change (String "010" (s +:+ String "010" "```"))
    with ((nl +:+ s) +:+ (nl +:+ "```")).
  rewrite <- append_assoc.
  rewrite endswith_append.
  rewrite (drop_last_append _ "```").
  exact (strip_nl_around s).
Qed.

Lemma clean_fenced_plain (s : string) :
  _clean_response (fenced fence s) = strip s.
Proof.
  unfold _clean_response, fenced, fence_json, fence, nl.
  cbn [startswith String.append drop Ascii.eqb Bool.eqb andb].
  change (String "010" (s +:+ String "010" "```"))
    with ((nl +:+ s) +:+ (nl +:+ "```")).
  rewrite <- append_assoc.
  rewrite endswith_append.
  rewrite (drop_last_append _ "```").
  exact (strip_nl_around s).
Qed.

Lemma clean_unfenced (s : string) :
  startswith s fence = false -> endswith s fence = false ->
  _clean_response s = strip s.
Proof.
  intros Hs He. unfold _clean_response.
  assert (Hj : startswith s fence_json = false).
  { destruct (startswith s fence_json) eqn:E; [|reflexivity].
    change fence_json with (fence +:+ "json") in E.
    apply startswith_append in E. congruence. }
  now rewrite Hj, Hs, He.
Qed.

End Cleaner.

(** ** The normalisation step on a dictionary *)

Section Normalizer.
Import Py AIServices Spec.

Lemma wrap_if_str_dict (k : string) (p : gmap string pyval) :
  wrap_if_str k (VDict p) = Ok (VDict (wrap_field k p)).
Proof.
  unfold wrap_if_str, wrap_field, contains, getitem, setitem, bind.
  destruct (p !! k) as [v|] eqn:E.
  - rewrite bool_decide_eq_true_2 by eauto. now destruct v.
  - rewrite bool_decide_eq_false_2; [reflexivity|].
    intros [x Hx]; discriminate.
Qed.

Lemma validate_dict (p : gmap string pyval) (task : string) :
  _validate_and_format_response (VDict p) task = Ok (VDict (normalized p)).
Proof.
  unfold _validate_and_format_response, normalized.
  rewrite wrap_if_str_dict. cbn [bind].
  rewrite wrap_if_str_dict. cbn [bind].
  apply wrap_if_str_dict.
Qed.

Lemma wrap_field_same (k : string) (p : gmap string pyval) :
  wrap_field k p !! k =
  match p !! k with
  | Some (VStr s) => Some (VList [VStr s])
  | o => o
  end.
Proof.
  unfold wrap_field. destruct (p !! k) as [[]|] eqn:E; try exact E.
  apply lookup_insert_eq.
Qed.

Lemma wrap_field_other (k j : string) (p : gmap string pyval) :
  k <> j -> wrap_field k p !! j = p !! j.
Proof.
  intros Hne. unfold wrap_field.
  destruct (p !! k) as [[]|]; try reflexivity.
  now apply lookup_insert_ne.
Qed.

(** The three array fields: a string is wrapped, anything else (also an
    absent field) is left as it is. *)
Lemma normalized_array_field (k : string) (p : gmap string pyval) :
  k = "required_access" \/ k = "dependencies" \/ k = "suggested_labels" ->
  normalized p !! k =
  match p !! k with
  | Some (VStr s) => Some (VList [VStr s])
  | o => o
  end.
Proof.
  unfold normalized. intros [-> | [-> | ->]].
  - rewrite !wrap_field_other by discriminate. apply wrap_field_same.
  - rewrite wrap_field_other by discriminate. rewrite wrap_field_same.
    now rewrite wrap_field_other by discriminate.
  - rewrite wrap_field_same. now rewrite !wrap_field_other by discriminate.
Qed.

(** Every other field is left as it is. *)
Lemma normalized_other_field (j : string) (p : gmap string pyval) :
  j <> "required_access" -> j <> "dependencies" -> j <> "suggested_labels" ->
  normalized p !! j = p !! j.
Proof.
  intros H1 H2 H3. unfold normalized.
  now rewrite !wrap_field_other by congruence.
Qed.

End Normalizer.

(** ** The fallback generator *)

Section Fallback.
Import Py AIServices Spec.

Ltac fb_lookup :=
  unfold _get_fallback_response;
  repeat (rewrite lookup_insert_ne by discriminate);
  first [apply lookup_insert_eq | apply lookup_empty].

Variables (now task : string) (error : option string).

Lemma fallback_success :
  _get_fallback_response now task error !! "success" = Some (VBool false).
Proof. fb_lookup. Qed.

Lemma fallback_marker :
  _get_fallback_response now task error !! "fallback" = Some (VBool true).
Proof. fb_lookup. Qed.

Lemma fallback_error :
  _get_fallback_response now task error !! "error"
  = Some (VStr (error_or_default error)).
Proof. fb_lookup. Qed.

Lemma fallback_timestamp :
  _get_fallback_response now task error !! "timestamp" = Some (VStr now).
Proof. fb_lookup. Qed.

Lemma fallback_title :
  _get_fallback_response now task error !! "title"
  = Some (VStr ("Analysis: " +:+ PyStr.take 40 task +:+ "...")).
Proof. fb_lookup. Qed.

Lemma fallback_estimated_time :
  _get_fallback_response now task error !! "estimated_time"
  = Some (VStr "1-2 weeks").
Proof. fb_lookup. Qed.

Lemma fallback_priority :
  _get_fallback_response now task error !! "priority" = Some (VStr "Medium").
Proof. fb_lookup. Qed.

Lemma fallback_complexity :
  _get_fallback_response now task error !! "complexity_level"
  = Some (VStr "Medium").
Proof. fb_lookup. Qed.

Lemma fallback_dependencies :
  _get_fallback_response now task error !! "dependencies"
  = Some (VList [VStr "Initial requirements gathering";
                 VStr "Technical review"]).
Proof. fb_lookup. Qed.

Lemma fallback_required_access :
  _get_fallback_response now task error !! "required_access"
  = Some (VList [VStr "Development Environment Access";
                 VStr "Version Control System (GitHub/GitLab)";
                 VStr "Testing Environment"]).
Proof. fb_lookup. Qed.

Lemma fallback_labels :
  _get_fallback_response now task error !! "suggested_labels"
  = Some (VList [VStr "feature"; VStr "development"; VStr "needs-review"]).
Proof. fb_lookup. Qed.

Lemma fallback_reasoning_field :
  _get_fallback_response now task error !! "reasoning"
  = Some (VStr (fallback_reasoning task)).
Proof. fb_lookup. Qed.

Lemma error_or_default_nonempty :
  PyStr.nonempty (error_or_default error) = true.
Proof. destruct error as [[|c r]|]; reflexivity. Qed.

Lemma fallback_schema_populated :
  schema_populated (_get_fallback_response now task error) = true.
Proof.
  unfold schema_populated.
  rewrite fallback_title, fallback_estimated_time, fallback_priority,
    fallback_complexity, fallback_dependencies, fallback_required_access,
    fallback_labels, fallback_reasoning_field.
  reflexivity.
Qed.

Lemma fallback_complete :
  complete_fallback (_get_fallback_response now task error) = true.
Proof.
  unfold complete_fallback.
  rewrite fallback_success, fallback_marker, fallback_error,
    fallback_timestamp, fallback_schema_populated.
  cbn. rewrite error_or_default_nonempty. reflexivity.
Qed.

End Fallback.

(** ** The estimator: shape of the result *)

Section EstimateFacts.
Import Py AIServices Spec.

Variable exn_text : fault -> string.
Variable json_loads : string -> result pyval.

(** A [return] inside the loop hands out a fallback with an API error. *)
Lemma retry_loop_return self now task prompt attempts delay v tr :
  retry_loop exn_text self now task prompt attempts delay = (Return v, tr) ->
  exists err, v = VDict (_get_fallback_response now task
                           (Some ("API Error: " +:+ err))).
Proof.
  revert delay v tr.
  induction attempts as [|a rest IH]; intros delay v tr; cbn [retry_loop].
  - discriminate.
  - destruct (call_provider self prompt a) as [[resp|e] ev]; [discriminate|].
    destruct (is_transient (str_exn exn_text e)).
    + destruct (Z.of_nat a <? max_retries - 1).
      * destruct (retry_loop exn_text self now task prompt rest (delay * 2))
          as [x tr'] eqn:E.
        intros [= -> <-]. exact (IH _ _ _ E).
      * intros [= <- <-]. eauto.
    + intros [= <- <-]. eauto.
Qed.

(** The range of three attempts always ends in [break] or [return]. *)
Lemma retry_loop_never_exhausted self now task prompt tr :
  retry_loop exn_text self now task prompt
    (seq 0 (Z.to_nat max_retries)) initial_retry_delay <> (Exhausted, tr).
Proof.
  change (seq 0 (Z.to_nat max_retries)) with [0; 1; 2]%nat.
  cbn [retry_loop].
  repeat
    (destruct (call_provider self prompt _) as [[?|?] ?]; [discriminate|];
     destruct (is_transient _); [|discriminate]).
  discriminate.
Qed.

(** The parse succeeds only with a dictionary in which [success] is true. *)
Lemma parse_response_ok task resp v :
  parse_response json_loads task resp = Ok v ->
  exists d, v = VDict (<["success" := VBool true]> d).
Proof.
  unfold parse_response, bind.
  destruct (text resp); [|discriminate].
  destruct (json_loads _); [|discriminate].
  destruct (_validate_and_format_response _ _) as [f|]; [|discriminate].
  destruct f; try discriminate.
  intros [= <-]. eauto.
Qed.

(** Every call ends in a dictionary: a parsed payload in which [success]
    was set to true, or the fallback. *)
Lemma estimate_task_cases self now task :
  let r := fst (estimate_task exn_text json_loads self now task) in
  (exists d, r = VDict (<["success" := VBool true]> d)) \/
  (exists error, r = VDict (_get_fallback_response now task error)).
Proof.
  unfold estimate_task. destruct (available self); cbn [negb].
  2: { right. eexists. reflexivity. }
  destruct (retry_loop _ _ _ _ _ _ _) as [x tr] eqn:E.
  destruct x as [resp|v|]; cbn [fst].
  - destruct (parse_response json_loads task resp) as [v|e] eqn:P.
    + apply parse_response_ok in P as [d ->]. left. eauto.
    + right. destruct e; cbn [handle]; eexists; reflexivity.
  - apply retry_loop_return in E as [err ->]. right. eauto.
  - right. eexists. reflexivity.
Qed.

(** One turn of the loop, by the outcome of the call. *)
Lemma retry_loop_break self now task prompt a rest delay resp ev :
  call_provider self prompt a = (Ok resp, ev) ->
  retry_loop exn_text self now task prompt (a :: rest) delay
  = (Break resp, ev).
Proof. intros H. cbn [retry_loop]. now rewrite H. Qed.

Lemma retry_loop_retry self now task prompt a rest delay e ev :
  call_provider self prompt a = (Raise e, ev) ->
  is_transient (str_exn exn_text e) = true ->
  (Z.of_nat a <? max_retries - 1) = true ->
  retry_loop exn_text self now task prompt (a :: rest) delay
  = (fst (retry_loop exn_text self now task prompt rest (delay * 2)),
     ev ++ Sleep delay ::
     snd (retry_loop exn_text self now task prompt rest (delay * 2))).
Proof.
  intros H Ht Ha. cbn [retry_loop]. rewrite H, Ht, Ha.
  now destruct (retry_loop _ _ _ _ _ _ _).
Qed.

Lemma retry_loop_give_up self now task prompt a rest delay e ev :
  call_provider self prompt a = (Raise e, ev) ->
  is_transient (str_exn exn_text e) = false \/
  (Z.of_nat a <? max_retries - 1) = false ->
  retry_loop exn_text self now task prompt (a :: rest) delay
  = (Return (VDict (_get_fallback_response now task
               (Some ("API Error: " +:+ str_exn exn_text e)))), ev).
Proof.
  intros H Hc. cbn [retry_loop]. rewrite H.
  destruct (is_transient _); [|reflexivity].
  destruct Hc as [Hc|Hc]; [discriminate|]. now rewrite Hc.
Qed.

End EstimateFacts.

(** ** Claims about the estimator *)

Section EstimatorClaims.
Import Py AIServices Spec.

Variable exn_text : fault -> string.
Variable json_loads : string -> result pyval.

(** C1. For every task string, [estimate_task] ends with a dictionary
    and no exception: either a result whose [success] is true, or the
    complete fallback, in which [success] is false, the marker and a
    non-empty error text are present, and title, estimated_time,
    priority, complexity_level, dependencies, required_access,
    suggested_labels and reasoning are all filled in. *)
Theorem C1_estimate_never_raises (self : AIEstimator) (now task : string) :
  exists d : gmap string pyval,
    fst (estimate_task exn_text json_loads self now task) = VDict d /\
    (d !! "success" = Some (VBool true) \/ complete_fallback d = true).
Proof.
  destruct (estimate_task_cases exn_text json_loads self now task)
    as [[d Hd]|[error Hd]]; cbn zeta in Hd; rewrite Hd; eexists;
    (split; [reflexivity|]).
  - left. apply lookup_insert_eq.
  - right. apply fallback_complete.
Qed.

(** C6. An estimator that is not available answers every call with the
    fallback (no error note) and performs no provider call at all, so no
    prompt is sent; and the constructor leaves the estimator unavailable
    whenever the credential is missing or empty, or the client cannot
    be built.  The call reads the [available] attribute only. *)
Theorem C6_unavailable_short_circuit :
  (forall (self : AIEstimator) (now task : string),
     available self = false ->
     estimate_task exn_text json_loads self now task
     = (VDict (_get_fallback_response now task None), [])) /\
  (forall (env : Env) (now task : string),
     getenv env "GEMINI_API_KEY" = None \/
     getenv env "GEMINI_API_KEY" = Some EmptyString \/
     (exists key e, getenv env "GEMINI_API_KEY" = Some key /\
                    genai_Client env key = Raise e) ->
     available (__init__ env) = false /\
     estimate_task exn_text json_loads (__init__ env) now task
     = (VDict (_get_fallback_response now task None), [])).
Proof.
  assert (H1 : forall self now task, available self = false ->
     estimate_task exn_text json_loads self now task
     = (VDict (_get_fallback_response now task None), [])).
  { intros self now task Ha. unfold estimate_task. now rewrite Ha. }
  split; [exact H1|].
  intros env now task Hk.
  assert (Ha : available (__init__ env) = false).
  { unfold __init__.
    destruct Hk as [-> | [-> | (key & e & -> & Hc)]]; try reflexivity.
    destruct key; [reflexivity|]. now rewrite Hc. }
  split; [exact Ha | now apply H1].
Qed.

(** C10. Every dictionary returned by [estimate_task] has a Boolean
    [success]; when it is false, [fallback] is true, [error] is a
    non-empty string and [timestamp] is present; and whenever the retry
    loop ends with a response whose text parses to a dictionary [p], the
    result is the normalised [p] with [success] set to true, whatever
    [p] said about [success]. *)
Theorem C10_success_key (self : AIEstimator) (now task : string) :
  exists d : gmap string pyval,
    fst (estimate_task exn_text json_loads self now task) = VDict d /\
    (exists b, d !! "success" = Some (VBool b)) /\
    (d !! "success" = Some (VBool false) ->
       d !! "fallback" = Some (VBool true) /\
       is_text (d !! "error") = true /\
       exists ts, d !! "timestamp" = Some (VStr ts)) /\
    (forall resp tr t p,
       available self = true ->
       retry_loop exn_text self now task (_create_prompt task)
         (seq 0 (Z.to_nat max_retries)) initial_retry_delay
       = (Break resp, tr) ->
       text resp = Some t ->
       json_loads (_clean_response (PyStr.strip t)) = Ok (VDict p) ->
       d = <["success" := VBool true]> (normalized p) /\
       d !! "success" = Some (VBool true)).
Proof.
  assert (Hpath : forall d resp tr t p,
    fst (estimate_task exn_text json_loads self now task) = VDict d ->
    available self = true ->
    retry_loop exn_text self now task (_create_prompt task)
      (seq 0 (Z.to_nat max_retries)) initial_retry_delay = (Break resp, tr) ->
    text resp = Some t ->
    json_loads (_clean_response (PyStr.strip t)) = Ok (VDict p) ->
    d = <["success" := VBool true]> (normalized p) /\
    d !! "success" = Some (VBool true)).
  { intros d resp tr t p Hd Ha Hl Ht Hj.
    unfold estimate_task in Hd. rewrite Ha in Hd. cbn [negb] in Hd.
    rewrite Hl in Hd. cbn [fst] in Hd.
    unfold parse_response in Hd. rewrite Ht in Hd. cbn [bind] in Hd.
    rewrite Hj in Hd. cbn [bind] in Hd.
    rewrite validate_dict in Hd. cbn [bind setitem handle] in Hd.
    injection Hd as <-. split; [reflexivity | apply lookup_insert_eq]. }
  destruct (estimate_task_cases exn_text json_loads self now task)
    as [[d Hd]|[error Hd]]; cbn zeta in Hd.
  - exists (<["success" := VBool true]> d).
    split; [exact Hd|]. split; [|split].
    + exists true. apply lookup_insert_eq.
    + rewrite lookup_insert_eq. discriminate.
    + intros resp tr t p. now apply Hpath.
  - exists (_get_fallback_response now task error).
    split; [exact Hd|]. split; [|split].
    + exists false. apply fallback_success.
    + intros _. rewrite fallback_marker, fallback_error, fallback_timestamp.
      cbn. rewrite error_or_default_nonempty. eauto.
    + intros resp tr t p. now apply Hpath.
Qed.

End EstimatorClaims.

(** C8. Two runs of the fallback generator on the same task text with no
    error note agree on every field but [timestamp]; and whatever the task
    text and the note, the result has [success] false, [fallback] true and
    every field of the schema filled in. *)
Theorem C8_fallback_deterministic
    (task now1 now2 : string) (error : option string) :
  delete "timestamp" (AIServices._get_fallback_response now1 task None)
  = delete "timestamp" (AIServices._get_fallback_response now2 task None) /\
  AIServices._get_fallback_response now1 task error !! "success"
  = Some (Py.VBool false) /\
  AIServices._get_fallback_response now1 task error !! "fallback"
  = Some (Py.VBool true) /\
  Spec.complete_fallback (AIServices._get_fallback_response now1 task error)
  = true.
Proof.
  split; [|split; [|split]].
  - unfold AIServices._get_fallback_response. now rewrite !delete_insert_eq.
  - apply fallback_success.
  - apply fallback_marker.
  - apply fallback_complete.
Qed.

(** ** Retry and backoff *)

Section Retry.
Import Py AIServices Spec.

Variable exn_text : fault -> string.
Variable json_loads : string -> result pyval.

Ltac retry_with H Ht :=
  erewrite retry_loop_retry;
  [ | unfold call_provider; cbn [client model_id]; rewrite H;
      reflexivity
    | exact Ht | reflexivity ].

Ltac give_up_with H Ht :=
  erewrite retry_loop_give_up;
  [ | unfold call_provider; cbn [client model_id]; rewrite H;
      reflexivity
    | Ht ].

(** C3. With a configured client: (1) when the first two calls raise
    errors whose text carries a transient signature and the third call
    answers with a text that parses to a dictionary [p], the result is
    the normalised [p] with [success] true, no fallback marker is added
    to it, and the trace is call, sleep 2, call, sleep 4, call: 6 units
    slept before the last attempt; (2) after three transient failures
    the result is the fallback with the third error, after exactly
    three calls; (3) a non-transient error at attempt [k] gives the
    fallback with that error at once: nothing is slept or called after
    it. *)
Theorem C3_retry_backoff
    (c : Client) (model : option string) (now task : string) :
  let self := MkEstimator (Some c) model true in
  let prompt := _create_prompt task in
  let call := generate_content c model prompt in
  let transient (r : result response) :=
    exists e, r = Raise e /\ is_transient (str_exn exn_text e) = true in
  let run := estimate_task exn_text json_loads self now task in
  (forall t p,
     transient (call 0%nat) -> transient (call 1%nat) ->
     call 2%nat = Ok (Response (Some t)) ->
     json_loads (_clean_response (PyStr.strip t)) = Ok (VDict p) ->
     run = (VDict (<["success" := VBool true]> (normalized p)),
            [Generate model prompt 0; Sleep 2; Generate model prompt 1;
             Sleep 4; Generate model prompt 2]) /\
     (<["success" := VBool true]> (normalized p)) !! "fallback"
     = p !! "fallback" /\
     slept (snd run) = initial_retry_delay + 2 * initial_retry_delay) /\
  (forall e,
     transient (call 0%nat) -> transient (call 1%nat) ->
     call 2%nat = Raise e -> is_transient (str_exn exn_text e) = true ->
     run = (VDict (_get_fallback_response now task
                     (Some ("API Error: " +:+ str_exn exn_text e))),
            [Generate model prompt 0; Sleep 2; Generate model prompt 1;
             Sleep 4; Generate model prompt 2]) /\
     calls (snd run) = 3%nat) /\
  (forall k e,
     (k < 3)%nat ->
     (forall i, (i < k)%nat -> transient (call i)) ->
     call k = Raise e -> is_transient (str_exn exn_text e) = false ->
     run = (VDict (_get_fallback_response now task
                     (Some ("API Error: " +:+ str_exn exn_text e))),
            backoff_trace model prompt 0 initial_retry_delay k) /\
     calls (snd run) = S k).
Proof.
  intros self prompt call transient run.
  subst self call transient. cbv beta.
  assert (Hrun : run =
    let '(x, tr) :=
      retry_loop exn_text (MkEstimator (Some c) model true) now task prompt
                 [0; 1; 2]%nat 2 in
    match x with
    | Return v => (v, tr)
    | Break resp => (handle exn_text now task
                       (parse_response json_loads task resp), tr)
    | Exhausted => (handle exn_text now task
                      (Raise (Fault (Unbound "response"))), tr)
    end) by reflexivity.
  split; [|split].
  - intros t p (e0 & H0 & T0) (e1 & H1 & T1) H2 Hj.
    assert (E : run = (VDict (<["success" := VBool true]> (normalized p)),
            [Generate model prompt 0; Sleep 2; Generate model prompt 1;
             Sleep 4; Generate model prompt 2])).
    { rewrite Hrun.
      retry_with H0 T0. retry_with H1 T1.
      erewrite retry_loop_break;
        [| unfold call_provider; cbn [client model_id];
           rewrite H2; reflexivity].
      cbn [fst snd app].
      unfold parse_response. cbn [text bind]. rewrite Hj. cbn [bind].
      rewrite validate_dict. reflexivity. }
    split; [exact E|]. split.
    + rewrite lookup_insert_ne by discriminate.
      apply normalized_other_field; discriminate.
    + rewrite E. reflexivity.
  - intros e (e0 & H0 & T0) (e1 & H1 & T1) H2 T2.
    assert (E : run = (VDict (_get_fallback_response now task
                     (Some ("API Error: " +:+ str_exn exn_text e))),
            [Generate model prompt 0; Sleep 2; Generate model prompt 1;
             Sleep 4; Generate model prompt 2])).
    { rewrite Hrun.
      retry_with H0 T0. retry_with H1 T1.
      give_up_with H2 ltac:(right; reflexivity).
      reflexivity. }
    split; [exact E | rewrite E; reflexivity].
  - intros k e Hk Hpre Hc Tc.
    assert (E : run = (VDict (_get_fallback_response now task
                     (Some ("API Error: " +:+ str_exn exn_text e))),
            backoff_trace model prompt 0 initial_retry_delay k)).
    { rewrite Hrun.
      destruct k as [|[|[|k]]]; [| | |lia].
      + give_up_with Hc ltac:(left; exact Tc). reflexivity.
      + destruct (Hpre 0%nat ltac:(lia)) as (e0 & H0 & T0).
        retry_with H0 T0.
        give_up_with Hc ltac:(left; exact Tc). reflexivity.
      + destruct (Hpre 0%nat ltac:(lia)) as (e0 & H0 & T0).
        destruct (Hpre 1%nat ltac:(lia)) as (e1 & H1 & T1).
        retry_with H0 T0. retry_with H1 T1.
        give_up_with Hc ltac:(left; exact Tc). reflexivity. }
    split; [exact E|]. rewrite E.
    destruct k as [|[|[|k]]]; [reflexivity..|lia].
Qed.

End Retry.

(** ** The estimator on concrete providers *)

Section EstimatorRuns.
Import Py AIServices Spec Fixtures.

(** No credential in the environment, and an estimator switched off. *)
Lemma C6_witness :
  (available (__init__ bare_env) = false /\
   estimate_task exn_text json_loads (__init__ bare_env) now task
   = (VDict (_get_fallback_response now task None), [])) /\
  estimate_task exn_text json_loads
    (MkEstimator (Some flaky_client) model false) now task
  = (VDict (_get_fallback_response now task None), []).
Proof.
  destruct (C6_unavailable_short_circuit exn_text json_loads) as [H1 H2].
  split.
  - apply H2. left. reflexivity.
  - apply H1. reflexivity.
Defined.

(** The three provider scripts of the fixtures. *)
Lemma C3_witness :
  estimate_task exn_text json_loads (estimator flaky_client) now task
  = (VDict (<["success" := VBool true]> (normalized payload)),
     [Generate model (_create_prompt task) 0; Sleep 2;
      Generate model (_create_prompt task) 1; Sleep 4;
      Generate model (_create_prompt task) 2]) /\
  estimate_task exn_text json_loads (estimator overloaded_client) now task
  = (VDict (_get_fallback_response now task
       (Some "API Error: 503 UNAVAILABLE. The model is overloaded.")),
     [Generate model (_create_prompt task) 0; Sleep 2;
      Generate model (_create_prompt task) 1; Sleep 4;
      Generate model (_create_prompt task) 2]) /\
  estimate_task exn_text json_loads (estimator refusing_client) now task
  = (VDict (_get_fallback_response now task
       (Some "API Error: 400 INVALID_ARGUMENT. API key not valid.")),
     [Generate model (_create_prompt task) 0; Sleep 2;
      Generate model (_create_prompt task) 1]).
Proof.
  split; [|split].
  - pose proof (C3_retry_backoff exn_text json_loads flaky_client model
                  now task) as H.
    cbv zeta in H. destruct H as [H _].
    refine (proj1 (H (fenced fence_json payload_text) payload _ _ _ _)).
    + eexists. split; reflexivity.
    + eexists. split; reflexivity.
    + reflexivity.
    + reflexivity.
  - pose proof (C3_retry_backoff exn_text json_loads overloaded_client model
                  now task) as H.
    cbv zeta in H. destruct H as [_ [H _]].
    refine (proj1 (H (Raised "503 UNAVAILABLE. The model is overloaded.")
                     _ _ _ _)).
    + eexists. split; reflexivity.
    + eexists. split; reflexivity.
    + reflexivity.
    + reflexivity.
  - pose proof (C3_retry_backoff exn_text json_loads refusing_client model
                  now task) as H.
    cbv zeta in H. destruct H as [_ [_ H]].
    refine (proj1 (H 1%nat (Raised "400 INVALID_ARGUMENT. API key not valid.")
                     _ _ _ _)).
    + lia.
    + intros i Hi. assert (i = 0%nat) as -> by lia.
      eexists. split; reflexivity.
    + reflexivity.
    + reflexivity.
Defined.

(** A reply that says [success] false is returned with [success] true;
    the fallback carries its marker and error. *)
Lemma C10_witness :
  (exists d,
     fst (estimate_task exn_text json_loads (estimator flaky_client) now task)
     = VDict d /\
     payload !! "success" = Some (VBool false) /\
     d !! "success" = Some (VBool true)) /\
  (exists d,
     fst (estimate_task exn_text json_loads (__init__ bare_env) now task)
     = VDict d /\
     d !! "success" = Some (VBool false) /\
     d !! "fallback" = Some (VBool true) /\
     is_text (d !! "error") = true).
Proof.
  split.
  - destruct (C10_success_key exn_text json_loads (estimator flaky_client)
                now task) as (d & Hd & _ & _ & Hp).
    exists d. split; [exact Hd|]. split; [reflexivity|].
    refine (proj2 (Hp (Response (Some (fenced fence_json payload_text)))
                      _ (fenced fence_json payload_text) payload _ _ _ _));
      reflexivity.
  - destruct (C10_success_key exn_text json_loads (__init__ bare_env)
                now task) as (d & Hd & _ & Hf & _).
    exists d. split; [exact Hd|].
    assert (Hs : d !! "success" = Some (VBool false)).
    { change (fst (estimate_task exn_text json_loads (__init__ bare_env)
                     now task))
        with (VDict (_get_fallback_response now task None)) in Hd.
      injection Hd as <-. apply fallback_success. }
    split; [exact Hs|].
    destruct (Hf Hs) as (Hm & He & _). split; assumption.
Defined.

End EstimatorRuns.

(** ** The normaliser and the cleaner: the stated contracts *)

Section NormalizerClaims.
Import Py AIServices Spec.

(** What does hold of the normaliser on a dictionary: it succeeds, wraps
    a bare string of the three array fields in a one-element list,
    leaves a list or an absent field alone, and touches no other
    field. *)
Lemma normalizer_on_dictionary (p : gmap string pyval) (task : string) :
  exists q,
    _validate_and_format_response (VDict p) task = Ok (VDict q) /\
    (forall k,
       k = "required_access" \/ k = "dependencies" \/
       k = "suggested_labels" ->
       (forall s, p !! k = Some (VStr s) -> q !! k = Some (VList [VStr s])) /\
       (forall l, p !! k = Some (VList l) -> q !! k = Some (VList l)) /\
       (p !! k = None -> q !! k = None)) /\
    (forall j,
       j <> "required_access" -> j <> "dependencies" ->
       j <> "suggested_labels" -> q !! j = p !! j).
Proof.
  exists (normalized p). split; [apply validate_dict|]. split.
  - intros k Hk. rewrite (normalized_array_field k p Hk).
    repeat split; intros; now rewrite H.
  - intros j H1 H2 H3. now apply normalized_other_field.
Qed.

(** C2, at the payload [{"required_access": "Backend", "dependencies":
    null}]: the normaliser wraps the bare string, and returns
    [dependencies] as it came: present, and not a sequence. *)
Theorem C2_null_field_not_a_sequence (task : string) :
  let p : gmap string pyval :=
    <["required_access" := VStr "Backend"]> {["dependencies" := VNone]} in
  exists q,
    _validate_and_format_response (VDict p) task = Ok (VDict q) /\
    q !! "required_access" = Some (VList [VStr "Backend"]) /\
    q !! "dependencies" = Some VNone /\
    is_sequence (q !! "dependencies") = false.
Proof.
  intros p. exists (normalized p). split; [apply validate_dict|].
  rewrite !normalized_array_field by auto.
  subst p. rewrite lookup_insert_eq.
  rewrite lookup_insert_ne by discriminate. rewrite lookup_singleton_eq.
  repeat split.
Qed.

(** The fenced form of a payload is cleaned to the stripped payload,
    whatever the payload. *)
Lemma clean_fenced (s : string) :
  _clean_response (fenced fence_json s) = PyStr.strip s /\
  _clean_response (fenced fence s) = PyStr.strip s.
Proof. split; [apply clean_fenced_json | apply clean_fenced_plain]. Qed.

(** A payload that is itself a fence: the fenced form cleans to the
    payload, the payload alone cleans to the empty string. *)
Lemma C7_counterexample :
  _clean_response (fenced fence_json "```") <> _clean_response "```" /\
  _clean_response (fenced fence "```") <> _clean_response "```".
Proof. split; intros H; vm_compute in H; discriminate H. Qed.

(** C7, amended. For every payload [s] that does not itself start or
    end with a triple-backtick fence, cleaning the fenced form (opener
    tagged [json] or untagged) gives the same string as cleaning [s],
    namely [s] stripped of surrounding whitespace; so both parse alike. *)
Theorem C7_fenced_cleans_like_bare
    (json_loads : string -> result pyval) (s : string) :
  PyStr.startswith s fence = false ->
  PyStr.endswith s fence = false ->
  _clean_response (fenced fence_json s) = _clean_response s /\
  _clean_response (fenced fence s) = _clean_response s /\
  _clean_response s = PyStr.strip s /\
  json_loads (_clean_response (fenced fence_json s))
  = json_loads (_clean_response s).
Proof.
  intros Hs He.
  pose proof (clean_unfenced s Hs He) as Hc.
  rewrite clean_fenced_json, clean_fenced_plain, Hc. auto.
Qed.

(** The fenced model reply of the fixtures. *)
Lemma C7_witness :
  _clean_response (fenced fence_json Fixtures.payload_text)
  = Fixtures.payload_text /\
  _clean_response (fenced fence Fixtures.payload_text)
  = _clean_response Fixtures.payload_text.
Proof.
  destruct (C7_fenced_cleans_like_bare Fixtures.json_loads
              Fixtures.payload_text) as (H1 & H2 & H3 & _);
    [reflexivity | reflexivity |].
  split; [|exact H2].
  rewrite H1, H3. reflexivity.
Defined.

End NormalizerClaims.

(** ** Hexadecimal identifiers *)

Section HexFacts.
Import PyStr.

Lemma digit_is_hex (n : Z) : Hex.is_lower_hex (Hex.digit n) = true.
Proof.
  unfold Hex.digit.
  assert (H : (Z.to_nat (n mod 16) < 16)%nat).
  { pose proof (Z.mod_pos_bound n 16 ltac:(lia)). lia. }
  set (m := Z.to_nat (n mod 16)) in *. clearbody m.
  do 16 (destruct m as [|m]; [reflexivity|]). lia.
Qed.

Lemma fixed_all_hex (w : nat) (v : Z) :
  Hex.all Hex.is_lower_hex (Hex.fixed w v) = true.
Proof.
  induction w as [|w IH]; [reflexivity|].
  cbn [Hex.fixed Hex.all]. now rewrite digit_is_hex, IH.
Qed.

Lemma fixed_length (w : nat) (v : Z) : String.length (Hex.fixed w v) = w.
Proof. induction w as [|w IH]; cbn [Hex.fixed String.length]; congruence. Qed.

Lemma of_bytes_all_hex (bs : list Z) :
  Hex.all Hex.is_lower_hex (Hex.of_bytes bs) = true.
Proof.
  induction bs as [|b r IH]; [reflexivity|].
  cbn [Hex.of_bytes]. now rewrite all_append, fixed_all_hex, IH.
Qed.

Lemma of_bytes_length (bs : list Z) :
  String.length (Hex.of_bytes bs) = (2 * length bs)%nat.
Proof.
  induction bs as [|b r IH]; [reflexivity|].
  cbn [Hex.of_bytes length]. rewrite length_append, fixed_length, IH. lia.
Qed.

(** A digest is 16 bytes, whatever was hashed. *)
Lemma state_bytes_length (st : MD5.state) : length (MD5.state_bytes st) = 16%nat.
Proof. reflexivity. Qed.

Lemma hexdigest_shape (bs : list Z) :
  String.length (MD5.hexdigest bs) = 32%nat /\
  Hex.all Hex.is_lower_hex (MD5.hexdigest bs) = true.
Proof.
  unfold MD5.hexdigest. split.
  - now rewrite of_bytes_length, state_bytes_length.
  - apply of_bytes_all_hex.
Qed.

Lemma ticket_id_shape (task : string) :
  String.length (AITaskCreator.ticket_id_of task) = 16%nat /\
  Hex.all Hex.is_lower_hex (AITaskCreator.ticket_id_of task) = true.
Proof.
  unfold AITaskCreator.ticket_id_of.
  destruct (hexdigest_shape (MD5.encode task)) as [Hl Ha]. split.
  - rewrite length_take, Hl. reflexivity.
  - now apply all_take.
Qed.

Lemma to_upper_hex (c : ascii) :
  Hex.is_lower_hex c = true -> Hex.is_upper_hex (to_upper c) = true.
Proof.
  destruct c as [[] [] [] [] [] [] [] []]; intros H;
    first [reflexivity | discriminate H].
Qed.

Lemma upper_all_hex (s : string) :
  Hex.all Hex.is_lower_hex s = true ->
  Hex.all Hex.is_upper_hex (upper s) = true.
Proof.
  unfold upper. induction s as [|c r IH]; [reflexivity|].
  cbn [Hex.all map]. intros H. apply andb_true_iff in H as [Hc Hr].
  now rewrite to_upper_hex, IH.
Qed.

Lemma upper_length (s : string) : String.length (upper s) = String.length s.
Proof.
  unfold upper. induction s as [|c r IH]; cbn [map String.length]; congruence.
Qed.

(** The leading [k] digits render the value shifted down by the rest. *)
Lemma take_fixed (k n : nat) (v : Z) :
  take k (Hex.fixed (k + n) v) = Hex.fixed k (Z.shiftr v (4 * Z.of_nat n)).
Proof.
  induction k as [|k IH]; [now destruct (Hex.fixed (0 + n) v)|].
  cbn [Nat.add Hex.fixed take]. rewrite IH. f_equal. f_equal.
  rewrite Z.shiftr_shiftr by lia. f_equal. lia.
Qed.

(** The first group of [str(u)] is the top 32 bits of [u]. *)
Lemma uuid_str_head (u : Z) :
  take 8 (UUID.str u) = Hex.fixed 8 (Z.shiftr u 96).
Proof.
  unfold UUID.str. cbv zeta.
  assert (H8 : String.length (take 8 (Hex.fixed 32 u)) = 8%nat).
  { rewrite length_take, fixed_length. reflexivity. }
  rewrite <- H8 at 1. rewrite take_append.
  exact (take_fixed 8 24 u).
Qed.

End HexFacts.

Section TicketNumberFacts.
Import PyStr.

(** Forcing the version and variant fields leaves the top 32 bits of the
    draw as they are. *)
Lemma uuid4_top_bits (random_bits : Z) :
  Z.shiftr (UUID.uuid4 random_bits) 96 = Z.shiftr (random_bits mod 2 ^ 128) 96.
Proof.
  unfold UUID.uuid4. cbv zeta.
  apply Z.bits_inj'. intros n Hn.
  rewrite !Z.shiftr_spec by lia.
  rewrite Z.lor_spec, Z.land_spec, Z.lor_spec, Z.land_spec.
  rewrite !Z.lnot_spec by lia.
  rewrite !Z.shiftl_spec by lia.
  rewrite (Z.bits_above_log2 4) by (cbn; lia).
  rewrite (Z.bits_above_log2 0xf000) by (cbn; lia).
  rewrite (Z.bits_above_log2 0x8000) by (cbn; lia).
  rewrite (Z.bits_above_log2 0xc000) by (cbn; lia).
  cbn [negb]. now rewrite !andb_true_r, !orb_false_r.
Qed.

Lemma digit_inj (a b : Z) : Hex.digit a = Hex.digit b -> a mod 16 = b mod 16.
Proof.
  unfold Hex.digit.
  pose proof (Z.mod_pos_bound a 16 ltac:(lia)) as Ha.
  pose proof (Z.mod_pos_bound b 16 ltac:(lia)) as Hb.
  intros H. apply Z2Nat.inj; [lia | lia |].
  assert (Ha' : (Z.to_nat (a mod 16) < 16)%nat) by lia.
  assert (Hb' : (Z.to_nat (b mod 16) < 16)%nat) by lia.
  set (m := Z.to_nat (a mod 16)) in *. set (k := Z.to_nat (b mod 16)) in *.
  clearbody m k. clear Ha Hb.
  do 16 (destruct m as [|m];
         [do 16 (destruct k as [|k];
                 [first [reflexivity | discriminate H]|]); lia|]).
  lia.
Qed.

(** [width] digits determine the value modulo [16^width]. *)
Lemma fixed_inj (w : nat) (x y : Z) :
  Hex.fixed w x = Hex.fixed w y ->
  x mod 16 ^ Z.of_nat w = y mod 16 ^ Z.of_nat w.
Proof.
  induction w as [|w IH]; intros H.
  - now rewrite !Z.mod_1_r.
  - cbn [Hex.fixed] in H. injection H as Hd Hr.
    apply digit_inj in Hd. specialize (IH Hr).
    rewrite !Z.shiftr_div_pow2 in Hd by lia.
    replace (2 ^ (4 * Z.of_nat w)) with (16 ^ Z.of_nat w) in Hd
      by (change 16 with (2 ^ 4); rewrite <- Z.pow_mul_r by lia; reflexivity).
    replace (Z.of_nat (S w)) with (Z.of_nat w + 1) by lia.
    rewrite Z.pow_add_r by lia. change (16 ^ 1) with 16.
    assert (Hp : 0 < 16 ^ Z.of_nat w) by (apply Z.pow_pos_nonneg; lia).
    rewrite !Z.rem_mul_r by lia. now rewrite IH, Hd.
Qed.

Lemma to_lower_to_upper_hex (c : ascii) :
  Hex.is_lower_hex c = true -> to_lower (to_upper c) = c.
Proof.
  destruct c as [[] [] [] [] [] [] [] []]; intros H;
    first [reflexivity | discriminate H].
Qed.

Lemma upper_inj_hex (s t : string) :
  Hex.all Hex.is_lower_hex s = true -> Hex.all Hex.is_lower_hex t = true ->
  upper s = upper t -> s = t.
Proof.
  unfold upper. revert t.
  induction s as [|c r IH]; intros [|d t] Hs Ht H; try discriminate H;
    [reflexivity|].
  cbn [Hex.all] in Hs, Ht. cbn [map] in H.
  apply andb_true_iff in Hs as [Hc Hr]. apply andb_true_iff in Ht as [Hd Ht].
  injection H as Hcd Hrt.
  f_equal; [|now apply IH].
  rewrite <- (to_lower_to_upper_hex c Hc), <- (to_lower_to_upper_hex d Hd).
  now rewrite Hcd.
Qed.

Lemma append_cancel_l (a x y : string) : a +:+ x = a +:+ y -> x = y.
Proof.
  induction a as [|c a IH]; cbn [String.append]; intros H; [exact H|].
  injection H as H. now apply IH.
Qed.

(** The ticket number renders the top 32 bits of the draw: [TKT-] and 8
    upper-case hexadecimal digits. *)
Lemma ticket_number_shape (random_bits : Z) :
  let h := upper (Hex.fixed 8 (Z.shiftr (random_bits mod 2 ^ 128) 96)) in
  AITaskCreator.generate_ticket_number random_bits = "TKT-" +:+ h /\
  String.length h = 8%nat /\
  Hex.all Hex.is_upper_hex h = true.
Proof.
  cbv zeta. unfold AITaskCreator.generate_ticket_number.
  rewrite uuid_str_head, uuid4_top_bits. split; [reflexivity|]. split.
  - now rewrite upper_length, fixed_length.
  - apply upper_all_hex, fixed_all_hex.
Qed.

(** Two draws give the same ticket number exactly when their top 32 bits
    agree. *)
Lemma ticket_number_inj (r1 r2 : Z) :
  AITaskCreator.generate_ticket_number r1
  = AITaskCreator.generate_ticket_number r2 <->
  Z.shiftr (r1 mod 2 ^ 128) 96 = Z.shiftr (r2 mod 2 ^ 128) 96.
Proof.
  destruct (ticket_number_shape r1) as (E1 & _ & _).
  destruct (ticket_number_shape r2) as (E2 & _ & _).
  rewrite E1, E2. split.
  - intros H. apply append_cancel_l in H.
    apply upper_inj_hex in H; try apply fixed_all_hex.
    apply fixed_inj in H.
    assert (B : forall r, 0 <= Z.shiftr (r mod 2 ^ 128) 96 < 16 ^ Z.of_nat 8).
    { intros r. rewrite Z.shiftr_div_pow2 by lia.
      pose proof (Z.mod_pos_bound r (2 ^ 128) ltac:(lia)) as Hb.
      change (16 ^ Z.of_nat 8) with (2 ^ 32).
      split; [apply Z.div_pos; lia|].
      apply Z.div_lt_upper_bound; [lia|].
      change (2 ^ 96 * 2 ^ 32) with (2 ^ 128). lia. }
    rewrite (Z.mod_small _ _ (B r1)), (Z.mod_small _ _ (B r2)) in H.
    exact H.
  - intros H. now rewrite H.
Qed.

End TicketNumberFacts.

(** ** The /api/estimate handler *)

Section HandlerFacts.
Import Py AITaskCreator Spec.

Variable exn_text : fault -> string.

(** The answer on the success branch. *)
Lemma handler_success (data d : gmap string pyval) (raw : string)
    (est : string -> pyval) (rb : Z) :
  data !! "task" = Some (VStr raw) ->
  PyStr.nonempty (PyStr.strip raw) = true ->
  est (PyStr.strip raw) = VDict d ->
  slice_prefix (default (VStr EmptyString) (d !! "reasoning")) = Ok tt ->
  truthy (default VNone (d !! "success")) = true ->
  exists body e,
    get_ai_estimate exn_text (Ok (VDict data)) est rb = (VDict body, 200) /\
    body !! "success" = Some (VBool true) /\
    body !! "ticket_id" = Some (VStr (ticket_id_of (PyStr.strip raw))) /\
    body !! "ticket_number" = Some (VStr (generate_ticket_number rb)) /\
    body !! "task" = Some (VStr (PyStr.strip raw)) /\
    body !! "title"
    = Some (VStr (choose_title (default VNone (d !! "title"))
                               (PyStr.strip raw))) /\
    body !! "estimate" = Some (VDict e) /\
    e !! "estimated_time"
    = Some (default (VStr "Unknown") (d !! "estimated_time")) /\
    e !! "priority" = Some (default (VStr "Medium") (d !! "priority")) /\
    e !! "complexity_level"
    = Some (default (VStr "Medium") (d !! "complexity_level")) /\
    e !! "dependencies" = Some (listish d "dependencies") /\
    e !! "required_access" = Some (listish d "required_access") /\
    e !! "suggested_labels" = Some (listish d "suggested_labels") /\
    e !! "reasoning" = Some (default (VStr EmptyString) (d !! "reasoning")).
Proof.
  intros Ht Hn He Hs Hok.
  unfold get_ai_estimate, get_ai_estimate_body, get_listish.
  cbn [bind get strip]. rewrite Ht. cbn [default from_option id bind strip].
  rewrite Hn. cbn [negb]. rewrite He. cbn [bind get].
  rewrite Hs. cbn [bind]. rewrite Hok. cbn [bind].
  do 2 eexists. split; [reflexivity|].
  repeat split;
    repeat (rewrite lookup_insert_ne by discriminate);
    apply lookup_insert_eq.
Qed.

(** The answer on the failure branch: status 500, and nothing but the
    flag and the error text. *)
Lemma handler_failure (data d : gmap string pyval) (raw : string)
    (est : string -> pyval) (rb : Z) :
  data !! "task" = Some (VStr raw) ->
  PyStr.nonempty (PyStr.strip raw) = true ->
  est (PyStr.strip raw) = VDict d ->
  slice_prefix (default (VStr EmptyString) (d !! "reasoning")) = Ok tt ->
  truthy (default VNone (d !! "success")) = false ->
  get_ai_estimate exn_text (Ok (VDict data)) est rb
  = (error_body (default (VStr "AI generation failed") (d !! "error")), 500).
Proof.
  intros Ht Hn He Hs Hok.
  unfold get_ai_estimate, get_ai_estimate_body.
  cbn [bind get strip]. rewrite Ht. cbn [default from_option id bind strip].
  rewrite Hn. cbn [negb]. rewrite He. cbn [bind get].
  rewrite Hs. cbn [bind]. rewrite Hok. reflexivity.
Qed.

(** An empty task is rejected before the estimator is asked. *)
Lemma handler_empty_task (data : gmap string pyval) (raw : string)
    (est : string -> pyval) (rb : Z) :
  data !! "task" = Some (VStr raw) ->
  PyStr.nonempty (PyStr.strip raw) = false ->
  get_ai_estimate exn_text (Ok (VDict data)) est rb
  = (error_body (VStr "Task description is required"), 400).
Proof.
  intros Ht Hn.
  unfold get_ai_estimate, get_ai_estimate_body.
  cbn [bind get strip]. rewrite Ht. cbn [default from_option id bind strip].
  now rewrite Hn.
Qed.

(** The fields of an error body. *)
Lemma error_body_fields (error : pyval) (key : string) :
  key <> "error" -> key <> "success" -> field (error_body error) key = None.
Proof.
  intros H1 H2. unfold field, error_body.
  rewrite !lookup_insert_ne by congruence. apply lookup_empty.
Qed.

End HandlerFacts.

(** ** Claims about the handler *)

Section HandlerClaims.
Import Py AIServices AITaskCreator Spec.

Variable exn_text : fault -> string.

Lemma capitalize_capitalized (s : string) :
  capitalized (PyStr.capitalize s) = true.
Proof.
  destruct s as [|c r]; [reflexivity|].
  unfold PyStr.capitalize, capitalized.
  now rewrite to_upper_not_lower, lower_no_upper.
Qed.

(** The derived title, for a task that is not empty. *)
Lemma short_title_spec (task : string) :
  PyStr.nonempty task = true ->
  let text := PyStr.strip (PyStr.replace_char "010" " " task) in
  PyStr.lower (generate_short_title task 6)
  = PyStr.lower (first_words 6 text) /\
  capitalized (generate_short_title task 6) = true.
Proof.
  intros Hn. unfold generate_short_title. rewrite Hn. cbn [negb].
  split; [apply lower_capitalize | apply capitalize_capitalized].
Qed.

(** The derived title of the example task is lower-cased after its first
    character, and a model title comes back stripped. *)
Lemma C4_counterexample :
  generate_short_title "Fix login bug on mobile Safari for iOS 17 users" 6
  <> "Fix login bug on mobile Safari" /\
  choose_title (VStr " Fix the login bug ")
    "Fix login bug on mobile Safari for iOS 17 users"
  <> " Fix the login bug ".
Proof. split; intros H; vm_compute in H; discriminate H. Qed.

(** C4, amended. On a successful estimate for the task text [raw], the
    title of the answer is the model's title with surrounding whitespace
    stripped when that title is a string of 3 to 6 words; otherwise (no
    title, a title that is no string, or a word count outside 3..6) it is
    derived from the task text: the first 6 blank-separated words (line
    feeds read as blanks) joined by single spaces, the first character
    upper-cased and every other character lower-cased.  For the task
    "Fix login bug on mobile Safari for iOS 17 users" the derived title
    is "Fix login bug on mobile safari". *)
Theorem C4_title_derivation (data d : gmap string pyval) (raw : string)
    (est : string -> pyval) (rb : Z) :
  data !! "task" = Some (VStr raw) ->
  PyStr.nonempty (PyStr.strip raw) = true ->
  est (PyStr.strip raw) = VDict d ->
  slice_prefix (default (VStr EmptyString) (d !! "reasoning")) = Ok tt ->
  truthy (default VNone (d !! "success")) = true ->
  exists body title,
    get_ai_estimate exn_text (Ok (VDict data)) est rb = (VDict body, 200) /\
    body !! "title" = Some (VStr title) /\
    (forall t, d !! "title" = Some (VStr t) ->
       (3 <= length (PyStr.split t) <= 6)%nat -> title = PyStr.strip t) /\
    ((forall t, d !! "title" = Some (VStr t) ->
        ~ (3 <= length (PyStr.split t) <= 6)%nat) ->
     let text :=
       PyStr.strip (PyStr.replace_char "010" " " (PyStr.strip raw)) in
     PyStr.lower title = PyStr.lower (first_words 6 text) /\
     capitalized title = true /\
     (PyStr.strip raw = "Fix login bug on mobile Safari for iOS 17 users" ->
      title = "Fix login bug on mobile safari")).
Proof.
  intros Ht Hn He Hs Hok.
  destruct (handler_success exn_text data d raw est rb Ht Hn He Hs Hok)
    as (body & e & Hb & _ & _ & _ & _ & Htitle & _).
  exists body. eexists. split; [exact Hb|]. split; [exact Htitle|]. split.
  - intros t Hd Hw. rewrite Hd. cbn [default from_option id choose_title].
    destruct Hw as [H3 H6].
    apply Nat.leb_le in H3, H6. now rewrite H3, H6.
  - intros Hno.
    assert (Hc : choose_title (default VNone (d !! "title")) (PyStr.strip raw)
                 = generate_short_title (PyStr.strip raw) 6).
    { destruct (d !! "title") as [v|] eqn:Hd; [|reflexivity].
      destruct v; try reflexivity.
      cbn [default from_option id choose_title].
      destruct ((3 <=? length (PyStr.split s))%nat) eqn:H3; [|reflexivity].
      destruct ((length (PyStr.split s) <=? 6)%nat) eqn:H6; [|reflexivity].
      exfalso. apply (Hno s eq_refl).
      apply Nat.leb_le in H3, H6. lia. }
    rewrite Hc. cbv zeta.
    destruct (short_title_spec (PyStr.strip raw) Hn) as [Hl Hcap].
    split; [exact Hl|]. split; [exact Hcap|].
    intros ->. reflexivity.
Qed.

End HandlerClaims.

Section HandlerRuns.
Import Py AIServices AITaskCreator Spec.

(** The stand-in estimator supplies no title: the title is derived. *)
Lemma C4_witness :
  exists body,
    get_ai_estimate Fixtures.exn_text
      (Ok (VDict {["task" :=
         VStr "  Fix login bug on mobile Safari for iOS 17 users "]}))
      stub_estimate_task 0
    = (VDict body, 200) /\
    body !! "title" = Some (VStr "Fix login bug on mobile safari").
Proof.
  destruct (C4_title_derivation Fixtures.exn_text
              {["task" :=
                VStr "  Fix login bug on mobile Safari for iOS 17 users "]}
              stub_estimate
              "  Fix login bug on mobile Safari for iOS 17 users "
              stub_estimate_task 0)
    as (body & title & Hb & Ht & _ & Hd);
    [reflexivity | reflexivity | reflexivity | reflexivity | reflexivity |].
  exists body. split; [exact Hb|].
  rewrite Ht. do 2 f_equal.
  refine (proj2 (proj2 (Hd _)) eq_refl).
  intros t Hc. discriminate Hc.
Defined.

End HandlerRuns.

(** ** A failed estimate, and the identifiers of a ticket *)

Section EndpointClaims.
Import Py AIServices AITaskCreator Spec.

Variable exn_text : fault -> string.
Variable json_loads : string -> result pyval.

(** Without a credential the estimate is the complete fallback, and the
    endpoint answers 500 with the error text alone. *)
Lemma C5_counterexample :
  exists d,
    fst (estimate_task Fixtures.exn_text Fixtures.json_loads
           (__init__ Fixtures.bare_env) Fixtures.now Fixtures.task)
    = VDict d /\
    d !! "success" = Some (VBool false) /\
    complete_fallback d = true /\
    get_ai_estimate Fixtures.exn_text
      (Ok (VDict {["task" := VStr Fixtures.task]}))
      (fun t => fst (estimate_task Fixtures.exn_text Fixtures.json_loads
                       (__init__ Fixtures.bare_env) Fixtures.now t)) 0
    = (VDict (<["error" := VStr "AI service temporarily unavailable"]>
             (<["success" := VBool false]> ∅)), 500) /\
    (<["error" := VStr "AI service temporarily unavailable"]>
     (<["success" := VBool false]> (∅ : gmap string pyval))) !! "title" = None /\
    (<["error" := VStr "AI service temporarily unavailable"]>
     (<["success" := VBool false]> (∅ : gmap string pyval))) !! "reasoning"
    = None.
Proof.
  exists (_get_fallback_response Fixtures.now Fixtures.task None).
  split; [reflexivity|].
  split; [apply fallback_success|].
  split; [apply fallback_complete|].
  split; [reflexivity|].
  split; reflexivity.
Qed.

(** C5, amended. When the estimate for a non-empty task fails
    ([estimate_task] returns a dictionary whose [success] is false), the
    /api/estimate endpoint answers with status 500 and a body that holds
    [success] = false and the error text of the estimate, and nothing
    else: the title, the reasoning and the arrays of the fallback are not
    in the answer. *)
Theorem C5_failed_estimate_answer
    (self : AIEstimator) (now raw : string)
    (data d : gmap string pyval) (rb : Z) :
  data !! "task" = Some (VStr raw) ->
  PyStr.nonempty (PyStr.strip raw) = true ->
  fst (estimate_task exn_text json_loads self now (PyStr.strip raw))
  = VDict d ->
  d !! "success" = Some (VBool false) ->
  exists error,
    d !! "error" = Some (VStr error) /\
    PyStr.nonempty error = true /\
    get_ai_estimate exn_text (Ok (VDict data))
      (fun t => fst (estimate_task exn_text json_loads self now t)) rb
    = (VDict (<["error" := VStr error]> (<["success" := VBool false]> ∅)),
       500) /\
    forall key, key <> "error" -> key <> "success" ->
      (<["error" := VStr error]>
       (<["success" := VBool false]> (∅ : gmap string pyval))) !! key = None.
Proof.
  intros Ht Hn Hd Hs.
  destruct (estimate_task_cases exn_text json_loads self now (PyStr.strip raw))
    as [[d' Hd']|[err Hd']]; cbn zeta in Hd'; rewrite Hd in Hd';
    injection Hd' as ->.
  - rewrite lookup_insert_eq in Hs. discriminate Hs.
  - exists (error_or_default err).
    split; [apply fallback_error|].
    split; [apply error_or_default_nonempty|]. split.
    + erewrite (handler_failure exn_text data _ raw _ rb Ht Hn Hd).
      * now rewrite fallback_error.
      * now rewrite fallback_reasoning_field.
      * now rewrite fallback_success.
    + intros key H1 H2. rewrite !lookup_insert_ne by congruence.
      apply lookup_empty.
Qed.

(** C9. In two successful answers of the handler for the same task text
    (after stripping), whatever the estimators, their results and the
    random draws, the [ticket_id] is the same string: the first 16
    hexadecimal digits of the MD5 of the task text; and each
    [ticket_number] is [TKT-] followed by 8 upper-case hexadecimal digits
    that render the top 32 bits of that call's random draw, so that two
    calls get the same number exactly when those bits agree. *)
Theorem C9_ticket_identifiers
    (data1 data2 d1 d2 : gmap string pyval) (raw1 raw2 : string)
    (est1 est2 : string -> pyval) (r1 r2 : Z) :
  data1 !! "task" = Some (VStr raw1) ->
  data2 !! "task" = Some (VStr raw2) ->
  PyStr.strip raw1 = PyStr.strip raw2 ->
  PyStr.nonempty (PyStr.strip raw1) = true ->
  est1 (PyStr.strip raw1) = VDict d1 ->
  est2 (PyStr.strip raw2) = VDict d2 ->
  slice_prefix (default (VStr EmptyString) (d1 !! "reasoning")) = Ok tt ->
  slice_prefix (default (VStr EmptyString) (d2 !! "reasoning")) = Ok tt ->
  truthy (default VNone (d1 !! "success")) = true ->
  truthy (default VNone (d2 !! "success")) = true ->
  exists body1 body2 id h1 h2,
    get_ai_estimate exn_text (Ok (VDict data1)) est1 r1 = (VDict body1, 200) /\
    get_ai_estimate exn_text (Ok (VDict data2)) est2 r2 = (VDict body2, 200) /\
    body1 !! "ticket_id" = Some (VStr id) /\
    body2 !! "ticket_id" = Some (VStr id) /\
    id = PyStr.take 16 (MD5.hexdigest (MD5.encode (PyStr.strip raw1))) /\
    String.length id = 16%nat /\
    Hex.all Hex.is_lower_hex id = true /\
    body1 !! "ticket_number" = Some (VStr ("TKT-" +:+ h1)) /\
    body2 !! "ticket_number" = Some (VStr ("TKT-" +:+ h2)) /\
    String.length h1 = 8%nat /\ Hex.all Hex.is_upper_hex h1 = true /\
    String.length h2 = 8%nat /\ Hex.all Hex.is_upper_hex h2 = true /\
    (h1 = h2 <-> Z.shiftr (r1 mod 2 ^ 128) 96 = Z.shiftr (r2 mod 2 ^ 128) 96).
Proof.
  intros Ht1 Ht2 Heq Hn1 He1 He2 Hs1 Hs2 Hok1 Hok2.
  assert (Hn2 : PyStr.nonempty (PyStr.strip raw2) = true) by now rewrite <- Heq.
  destruct (handler_success exn_text data1 d1 raw1 est1 r1 Ht1 Hn1 He1 Hs1 Hok1)
    as (body1 & e1 & Hb1 & _ & Hid1 & Hnum1 & _).
  destruct (handler_success exn_text data2 d2 raw2 est2 r2 Ht2 Hn2 He2 Hs2 Hok2)
    as (body2 & e2 & Hb2 & _ & Hid2 & Hnum2 & _).
  destruct (ticket_number_shape r1) as (E1 & L1 & A1).
  destruct (ticket_number_shape r2) as (E2 & L2 & A2).
  destruct (ticket_id_shape (PyStr.strip raw1)) as (Li & Ai).
  exists body1, body2, (ticket_id_of (PyStr.strip raw1)).
  do 2 eexists.
  split; [exact Hb1|]. split; [exact Hb2|].
  split; [exact Hid1|]. split; [now rewrite Heq|].
  split; [reflexivity|]. split; [exact Li|]. split; [exact Ai|].
  split; [rewrite Hnum1, E1; reflexivity|].
  split; [rewrite Hnum2, E2; reflexivity|].
  split; [exact L1|]. split; [exact A1|].
  split; [exact L2|]. split; [exact A2|].
  rewrite <- ticket_number_inj, E1, E2. split.
  - now intros ->.
  - apply append_cancel_l.
Qed.

End EndpointClaims.

Section EndpointRuns.
Import Py AIServices AITaskCreator Spec.

(** A provider that stays overloaded: the endpoint reports the API error. *)
Lemma C5_witness :
  get_ai_estimate Fixtures.exn_text
    (Ok (VDict {["task" := VStr Fixtures.task]}))
    (fun t => fst (estimate_task Fixtures.exn_text Fixtures.json_loads
                     (Fixtures.estimator Fixtures.overloaded_client)
                     Fixtures.now t)) 0
  = (VDict (<["error" :=
              VStr "API Error: 503 UNAVAILABLE. The model is overloaded."]>
           (<["success" := VBool false]> ∅)), 500).
Proof.
  destruct (C5_failed_estimate_answer
              Fixtures.exn_text Fixtures.json_loads
              (Fixtures.estimator Fixtures.overloaded_client)
              Fixtures.now Fixtures.task
              {["task" := VStr Fixtures.task]}
              (_get_fallback_response Fixtures.now Fixtures.task
                 (Some "API Error: 503 UNAVAILABLE. The model is overloaded."))
              0)
    as (error & He & _ & Ha & _);
    [reflexivity | reflexivity | reflexivity | apply fallback_success |].
  rewrite fallback_error in He. injection He as <-.
  exact Ha.
Defined.

(** Two answers for the same task, from different estimators and draws. *)
Lemma C9_witness :
  exists body1 body2,
    get_ai_estimate Fixtures.exn_text
      (Ok (VDict {["task" := VStr Fixtures.task]})) stub_estimate_task
      0x1234567890abcdef1234567890abcdef
    = (VDict body1, 200) /\
    get_ai_estimate Fixtures.exn_text
      (Ok (VDict {["task" := VStr (" " +:+ Fixtures.task)]}))
      (fun t => fst (estimate_task Fixtures.exn_text Fixtures.json_loads
                       (Fixtures.estimator Fixtures.flaky_client)
                       Fixtures.now t))
      0xfedcba98000000000000000000000000
    = (VDict body2, 200) /\
    body1 !! "ticket_id" = Some (VStr "35f79ed02cba6cbf") /\
    body2 !! "ticket_id" = Some (VStr "35f79ed02cba6cbf") /\
    body1 !! "ticket_number" = Some (VStr "TKT-12345678") /\
    body2 !! "ticket_number" = Some (VStr "TKT-FEDCBA98").
Proof.
  destruct (C9_ticket_identifiers Fixtures.exn_text
              {["task" := VStr Fixtures.task]}
              {["task" := VStr (" " +:+ Fixtures.task)]}
              stub_estimate
              (<["success" := VBool true]> (normalized Fixtures.payload))
              Fixtures.task (" " +:+ Fixtures.task)
              stub_estimate_task
              (fun t => fst (estimate_task Fixtures.exn_text Fixtures.json_loads
                               (Fixtures.estimator Fixtures.flaky_client)
                               Fixtures.now t))
              0x1234567890abcdef1234567890abcdef
              0xfedcba98000000000000000000000000)
    as (body1 & body2 & id & h1 & h2 & Hb1 & Hb2 & Hi1 & Hi2 & Hid
        & _ & _ & Hn1 & Hn2 & _);
    [reflexivity | reflexivity | reflexivity | reflexivity | reflexivity
    | reflexivity | reflexivity | reflexivity | reflexivity | reflexivity |].
  exists body1, body2.
  split; [exact Hb1|]. split; [exact Hb2|].
  assert (Eid : id = "35f79ed02cba6cbf")
    by (rewrite Hid; vm_compute; reflexivity).
  rewrite Eid in Hi1, Hi2.
  split; [exact Hi1|]. split; [exact Hi2|].
  destruct (ticket_number_shape 0x1234567890abcdef1234567890abcdef)
    as (E1 & _).
  destruct (ticket_number_shape 0xfedcba98000000000000000000000000)
    as (E2 & _).
  split.
  - destruct (handler_success Fixtures.exn_text
                {["task" := VStr Fixtures.task]} stub_estimate Fixtures.task
                stub_estimate_task 0x1234567890abcdef1234567890abcdef)
      as (b & e & Hb & _ & _ & Hnum & _); [reflexivity..|].
    rewrite Hb in Hb1. injection Hb1 as <-.
    rewrite Hnum, E1. reflexivity.
  - destruct (handler_success Fixtures.exn_text
                {["task" := VStr (" " +:+ Fixtures.task)]}
                (<["success" := VBool true]> (normalized Fixtures.payload))
                (" " +:+ Fixtures.task)
                (fun t => fst (estimate_task Fixtures.exn_text
                                 Fixtures.json_loads
                                 (Fixtures.estimator Fixtures.flaky_client)
                                 Fixtures.now t))
                0xfedcba98000000000000000000000000)
      as (b & e & Hb & _ & _ & Hnum & _); [reflexivity..|].
    rewrite Hb in Hb2. injection Hb2 as <-.
    rewrite Hnum, E2. reflexivity.
Defined.

End EndpointRuns.

(* ===================================================================== *)
(** * Further properties of the estimator *)
(* ===================================================================== *)

Section EstimatorBudget.
Import Py AIServices Spec.

Variable exn_text : fault -> string.
Variable json_loads : string -> result pyval.

Ltac run_attempts :=
  repeat match goal with
  | |- context [generate_content ?c ?m ?p ?n] =>
      destruct (generate_content c m p n) as [?|?]
  | |- context [is_transient ?s] => destruct (is_transient s)
  | |- context [match ?x with Break _ => _ | Return _ => _ | Exhausted => _ end] =>
      progress cbn [fst snd app]
  end.

(** X1. Whatever the provider does, one estimate makes at most three
    provider calls and sleeps 0, 2 or 6 seconds in all; an estimator that
    is not available, or has no client, makes no call; an available one
    with a client makes at least one. *)
Theorem X1_retry_budget (self : AIEstimator) (now task : string) :
  let tr := snd (estimate_task exn_text json_loads self now task) in
  (calls tr <= 3)%nat /\
  (slept tr = 0 \/ slept tr = 2 \/ slept tr = 6) /\
  (available self = false \/ client self = None -> calls tr = O) /\
  (available self = true -> is_Some (client self) -> (1 <= calls tr)%nat).
Proof.
  cbv zeta. unfold estimate_task.
  destruct (available self); cbn [negb].
  2: { cbn. split; [lia|]. split; [auto|]. split; [reflexivity | discriminate]. }
  change (seq 0 (Z.to_nat max_retries)) with [0; 1; 2]%nat.
  generalize (_create_prompt task) as prompt. intros prompt.
  cbn [retry_loop]. unfold call_provider.
  change (Z.of_nat 0 <? max_retries - 1) with true.
  change (Z.of_nat 1 <? max_retries - 1) with true.
  change (Z.of_nat 2 <? max_retries - 1) with false.
  destruct (client self) as [c|].
  - run_attempts; cbn;
      (split; [lia|]; split; [auto|]; split;
       [intros [H|H]; discriminate | intros; lia]).
  - run_attempts; cbn;
      (split; [lia|]; split; [auto|]; split;
       [reflexivity | intros _ [x Hx]; discriminate]).
Qed.

End EstimatorBudget.

Section EstimatorAnswers.
Import Py AIServices Spec.

Variable exn_text : fault -> string.
Variable json_loads : string -> result pyval.

(** When the first call answers, nothing more is called or slept. *)
Lemma estimate_first_answer self c now task resp :
  available self = true -> client self = Some c ->
  generate_content c (model_id self) (_create_prompt task) 0 = Ok resp ->
  estimate_task exn_text json_loads self now task
  = (handle exn_text now task (parse_response json_loads task resp),
     [Generate (model_id self) (_create_prompt task) 0]).
Proof.
  intros Ha Hc Hg. unfold estimate_task. rewrite Ha. cbn [negb].
  change (seq 0 (Z.to_nat max_retries)) with [0; 1; 2]%nat.
  erewrite retry_loop_break; [reflexivity|].
  unfold call_provider. now rewrite Hc, Hg.
Qed.

(** A value that is no dictionary does not get through the normaliser
    and the assignment of [success]. *)
Lemma format_non_dict (v : pyval) (task : string) :
  (forall d, v <> VDict d) ->
  exists f,
    bind (_validate_and_format_response v task)
         (fun fd => setitem fd "success" (VBool true))
    = Raise (Fault f).
Proof.
  intros Hv. unfold _validate_and_format_response, wrap_if_str.
  destruct v as [| b | n | bits | s | l | d];
    try (eexists; reflexivity); [| | now destruct (Hv d)].
  - cbn [contains bind getitem].
    destruct (PyStr.contains s "required_access");
      [eexists; reflexivity|]. cbn [bind contains].
    destruct (PyStr.contains s "dependencies");
      [eexists; reflexivity|]. cbn [bind contains].
    destruct (PyStr.contains s "suggested_labels"); eexists; reflexivity.
  - cbn [contains bind getitem].
    destruct (existsb (str_eqb "required_access") l);
      [eexists; reflexivity|]. cbn [bind contains].
    destruct (existsb (str_eqb "dependencies") l);
      [eexists; reflexivity|]. cbn [bind contains].
    destruct (existsb (str_eqb "suggested_labels") l); eexists; reflexivity.
Qed.

Lemma dom_wrap_field (k : string) (p : gmap string pyval) :
  dom (wrap_field k p) = dom p.
Proof.
  unfold wrap_field. destruct (p !! k) as [v|] eqn:E; [|reflexivity].
  destruct v; try reflexivity.
  rewrite dom_insert_L. apply subseteq_union_1_L.
  apply singleton_subseteq_l. eapply elem_of_dom_2. exact E.
Qed.

Lemma dom_normalized (p : gmap string pyval) : dom (normalized p) = dom p.
Proof. unfold normalized. now rewrite !dom_wrap_field. Qed.

(** X2. A reply that is not JSON is not retried: when the first call
    answers with a text that [json.loads] rejects, the estimate is the
    fallback carrying the parser's message, after that single call and
    with no sleep. *)
Theorem X2_parse_error_not_retried
    (self : AIEstimator) (c : Client) (now task t je : string) :
  available self = true -> client self = Some c ->
  generate_content c (model_id self) (_create_prompt task) 0
  = Ok (Response (Some t)) ->
  json_loads (_clean_response (PyStr.strip t)) = Raise (JSONDecodeError je) ->
  estimate_task exn_text json_loads self now task
  = (VDict (_get_fallback_response now task
              (Some ("JSON Parse Error: " +:+ je))),
     [Generate (model_id self) (_create_prompt task) 0]).
Proof.
  intros Ha Hc Hg Hj.
  rewrite (estimate_first_answer self c now task _ Ha Hc Hg).
  unfold parse_response. cbn [text bind]. now rewrite Hj.
Qed.

(** X3. Only a JSON object can become a successful estimate: when the
    reply parses to any other JSON value (array, string, number, Boolean,
    null), or the response carries no text at all, the estimate is the
    fallback with an "Unexpected Error" note, after that single call. *)
Theorem X3_non_object_reply_falls_back
    (self : AIEstimator) (c : Client) (now task : string) (resp : response) :
  available self = true -> client self = Some c ->
  generate_content c (model_id self) (_create_prompt task) 0 = Ok resp ->
  text resp = None \/
  (exists t v, text resp = Some t /\
     json_loads (_clean_response (PyStr.strip t)) = Ok v /\
     forall d, v <> VDict d) ->
  exists f,
    estimate_task exn_text json_loads self now task
    = (VDict (_get_fallback_response now task
                (Some ("Unexpected Error: " +:+ exn_text f))),
       [Generate (model_id self) (_create_prompt task) 0]).
Proof.
  intros Ha Hc Hg Hr.
  rewrite (estimate_first_answer self c now task _ Ha Hc Hg).
  unfold parse_response.
  destruct Hr as [Hn | (t & v & Ht & Hj & Hv)].
  - rewrite Hn. eexists. reflexivity.
  - rewrite Ht. cbn [bind]. rewrite Hj. cbn [bind].
    destruct (format_non_dict v task Hv) as [f Hf].
    exists f. rewrite Hf. reflexivity.
Qed.

(** X4. The estimator checks no schema: when the first call answers with
    a JSON object [p], the result has exactly the keys of [p] and
    [success]; a schema field that the reply lacks is absent from the
    successful result, and a field outside the schema is passed on. *)
Theorem X4_success_keys_are_reply_keys
    (self : AIEstimator) (c : Client) (now task t : string)
    (p : gmap string pyval) :
  available self = true -> client self = Some c ->
  generate_content c (model_id self) (_create_prompt task) 0
  = Ok (Response (Some t)) ->
  json_loads (_clean_response (PyStr.strip t)) = Ok (VDict p) ->
  exists d,
    fst (estimate_task exn_text json_loads self now task) = VDict d /\
    d !! "success" = Some (VBool true) /\
    dom d = {["success"]} ∪ dom p /\
    (forall k, k <> "success" -> p !! k = None -> d !! k = None).
Proof.
  intros Ha Hc Hg Hj.
  rewrite (estimate_first_answer self c now task _ Ha Hc Hg).
  unfold parse_response. cbn [text bind fst]. rewrite Hj. cbn [bind].
  rewrite validate_dict. cbn [bind setitem handle].
  eexists. split; [reflexivity|]. split; [apply lookup_insert_eq|]. split.
  - now rewrite dom_insert_L, dom_normalized.
  - intros k Hk Hp. rewrite lookup_insert_ne by congruence.
    apply not_elem_of_dom. rewrite dom_normalized. now apply not_elem_of_dom.
Qed.

End EstimatorAnswers.

Section EstimatorTexts.
Import Py AIServices Spec.

(** X5. The constructor keeps [available] and the client together: the
    estimator is available exactly when it holds a client, which is
    exactly when the environment has a non-empty GEMINI_API_KEY for which
    the client could be built; the model is then GEMINI_MODEL, or the
    default flash model when that variable is unset. *)
Theorem X5_constructor_invariant (env : Env) :
  let self := __init__ env in
  (available self = true <-> is_Some (client self)) /\
  (available self = true <->
   exists key c, getenv env "GEMINI_API_KEY" = Some key /\
                 key <> EmptyString /\ genai_Client env key = Ok c /\
                 client self = Some c) /\
  (available self = true ->
   model_id self
   = Some (default "gemini-2.0-flash-exp" (getenv env "GEMINI_MODEL"))).
Proof.
  cbv zeta. unfold __init__.
  destruct (getenv env "GEMINI_API_KEY") as [key|] eqn:Hk.
  2: { cbn. split; [|split].
       - split; [discriminate | intros [x Hx]; discriminate].
       - split; [discriminate | intros (k & c & H & _); discriminate].
       - discriminate. }
  destruct key as [|a key'].
  { cbn. split; [|split].
    - split; [discriminate | intros [x Hx]; discriminate].
    - split; [discriminate|]. intros (k & c & H & Hne & _).
      injection H as <-. now destruct Hne.
    - discriminate. }
  destruct (genai_Client env (String a key')) as [c|e] eqn:Hc.
  - cbn. split; [|split].
    + split; eauto.
    + split; [|reflexivity]. intros _. exists (String a key'), c.
      repeat split; auto; discriminate.
    + reflexivity.
  - cbn. split; [|split].
    + split; [discriminate | intros [x Hx]; discriminate].
    + split; [discriminate|]. intros (k & c & H & _ & Hc' & _).
      injection H as <-. rewrite Hc in Hc'. discriminate.
    + discriminate.
Qed.

(** X6. The title of a fallback is "Analysis: ", the first 40 characters
    of the task and "...": 13 characters more than what it keeps of the
    task, never more than 53, however long the task is. *)
Theorem X6_fallback_title_bounded (now task : string) (error : option string) :
  exists title,
    _get_fallback_response now task error !! "title" = Some (VStr title) /\
    title = "Analysis: " +:+ PyStr.take 40 task +:+ "..." /\
    String.length title = (13 + Nat.min 40 (String.length task))%nat /\
    (String.length title <= 53)%nat /\
    ((String.length task <= 40)%nat -> title = "Analysis: " +:+ task +:+ "...").
Proof.
  eexists. split; [apply fallback_title|]. split; [reflexivity|].
  assert (L : String.length ("Analysis: " +:+ PyStr.take 40 task +:+ "...")
              = (13 + Nat.min 40 (String.length task))%nat).
  { rewrite !length_append, length_take. cbn [String.length]. lia. }
  split; [exact L|]. split; [rewrite L; lia|].
  intros Hl. do 2 f_equal.
  clear L. revert Hl. generalize 40%nat as n.
  induction task as [|c r IH]; intros [|n] Hl; cbn [PyStr.take];
    try reflexivity; cbn [String.length] in Hl; [lia|].
  f_equal. apply IH. lia.
Qed.

Lemma startswith_self_append (t b : string) : PyStr.startswith (t +:+ b) t = true.
Proof.
  induction t as [|c t IH]; [reflexivity|].
  cbn [String.append PyStr.startswith]. now rewrite Ascii.eqb_refl, IH.
Qed.

Lemma contains_append (a t b : string) :
  PyStr.contains (a +:+ t +:+ b) t = true.
Proof.
  induction a as [|c a IH].
  - cbn [String.append]. destruct (t +:+ b) eqn:E;
      cbn [PyStr.contains]; rewrite <- ?E, startswith_self_append;
      reflexivity.
  - cbn [String.append PyStr.contains]. rewrite IH. apply orb_true_r.
Qed.

(** X7. The prompt is a fixed text around the task: whatever the task,
    it is the same 173 leading characters (ending in the line
    "TASK DESCRIPTION:"), the task text verbatim with nothing escaped,
    and the same trailing text; hence the prompt always contains the
    task, and is 1780 characters longer than it. *)
Theorem X7_prompt_embeds_task (task : string) :
  let pre := PyStr.take 173 (_create_prompt EmptyString) in
  let post := PyStr.drop 173 (_create_prompt EmptyString) in
  _create_prompt task = pre +:+ task +:+ post /\
  PyStr.endswith pre ("TASK DESCRIPTION:" +:+ nl) = true /\
  PyStr.contains (_create_prompt task) task = true /\
  String.length (_create_prompt task) = (1780 + String.length task)%nat.
Proof.
  cbv zeta.
  assert (E : _create_prompt task
              = PyStr.take 173 (_create_prompt EmptyString) +:+ task
                +:+ PyStr.drop 173 (_create_prompt EmptyString))
    by (vm_compute; reflexivity).
  split; [exact E|]. split; [vm_compute; reflexivity|]. split.
  - rewrite E. apply contains_append.
  - rewrite E, !length_append.
    replace (String.length (PyStr.take 173 (_create_prompt EmptyString)))
      with 173%nat by (vm_compute; reflexivity).
    replace (String.length (PyStr.drop 173 (_create_prompt EmptyString)))
      with 1607%nat by (vm_compute; reflexivity).
    lia.
Qed.

End EstimatorTexts.

Section CleanerShape.
Import PyStr AIServices.

Lemma rstrip_idem (s : string) : rstrip (rstrip s) = rstrip s.
Proof.
  induction s as [|c r IH]; [reflexivity|].
  cbn [rstrip]. destruct (rstrip r) as [|a r'] eqn:E.
  - destruct (is_space c) eqn:Hc; [reflexivity|].
    cbn [rstrip]. now rewrite Hc.
  - cbn [rstrip]. cbn [rstrip] in IH. now rewrite IH.
Qed.

Lemma rstrip_keeps_head (c : ascii) (r : string) :
  is_space c = false -> exists r', rstrip (String c r) = String c r'.
Proof.
  intros Hc. cbn [rstrip]. destruct (rstrip r); [rewrite Hc|]; eauto.
Qed.

Lemma lstrip_head (s : string) :
  lstrip s = EmptyString \/
  exists c r, lstrip s = String c r /\ is_space c = false.
Proof.
  induction s as [|c r IH]; [now left|].
  cbn [lstrip]. destruct (is_space c) eqn:Hc; [exact IH|].
  right. eauto.
Qed.

Lemma strip_idem (s : string) : strip (strip s) = strip s.
Proof.
  unfold strip. destruct (lstrip_head s) as [-> | (c & r & -> & Hc)];
    [reflexivity|].
  destruct (rstrip_keeps_head c r Hc) as [r' Hr]. rewrite Hr.
  cbn [lstrip]. rewrite Hc, <- Hr. apply rstrip_idem.
Qed.

Lemma length_lstrip (s : string) : (String.length (lstrip s) <= String.length s)%nat.
Proof.
  induction s as [|c r IH]; [reflexivity|].
  cbn [lstrip]. destruct (is_space c); cbn [String.length]; lia.
Qed.

Lemma length_rstrip (s : string) : (String.length (rstrip s) <= String.length s)%nat.
Proof.
  induction s as [|c r IH]; [reflexivity|].
  cbn [rstrip]. destruct (rstrip r); [destruct (is_space c)|];
    cbn [String.length] in *; lia.
Qed.

Lemma length_strip (s : string) : (String.length (strip s) <= String.length s)%nat.
Proof.
  unfold strip. pose proof (length_rstrip (lstrip s)).
  pose proof (length_lstrip s). lia.
Qed.

Lemma length_drop (n : nat) (s : string) :
  (String.length (drop n s) <= String.length s)%nat.
Proof.
  revert s; induction n as [|n IH]; intros [|c r]; cbn [drop String.length];
    try lia. specialize (IH r). lia.
Qed.

(** X8. The cleaned response text is trimmed: it neither starts nor ends
    with a blank (stripping it again changes nothing); and cleaning only
    removes characters: the result is never longer than the input. *)
Theorem X8_cleaned_text_is_trimmed (response_text : string) :
  strip (_clean_response response_text) = _clean_response response_text /\
  (String.length (_clean_response response_text)
   <= String.length response_text)%nat.
Proof.
  unfold _clean_response. cbv zeta. split; [apply strip_idem|].
  pose proof (length_drop 7 response_text).
  pose proof (length_drop 3 response_text).
  pose proof (length_drop 3 (drop 7 response_text)).
  repeat match goal with
         | |- context [if ?b then _ else _] => destruct b
         end;
    (eapply Nat.le_trans; [apply length_strip|]);
    unfold drop_last; rewrite ?length_take; lia.
Qed.

End CleanerShape.

(* ===================================================================== *)
(** * Further properties of the /api/estimate handler *)
(* ===================================================================== *)

Section HandlerEdges.
Import Py AIServices AITaskCreator Spec.

Variable exn_text : fault -> string.

Lemma lstrip_blank (s : string) :
  Hex.all PyStr.is_space s = true -> PyStr.lstrip s = EmptyString.
Proof.
  induction s as [|c r IH]; [reflexivity|].
  cbn [Hex.all PyStr.lstrip]. intros H.
  apply andb_true_iff in H as [Hc Hr]. rewrite Hc. now apply IH.
Qed.

Lemma strip_blank (s : string) :
  Hex.all PyStr.is_space s = true -> PyStr.strip s = EmptyString.
Proof. intros H. unfold PyStr.strip. now rewrite lstrip_blank. Qed.

(** X9. A request whose task is missing, empty or made of blanks only is
    answered 400 "Task description is required", whatever the estimator
    in service would have said: it is not consulted. *)
Theorem X9_blank_task_rejected
    (data : gmap string pyval) (est : string -> pyval) (rb : Z) :
  data !! "task" = None \/
  (exists raw, data !! "task" = Some (VStr raw) /\
               Hex.all PyStr.is_space raw = true) ->
  get_ai_estimate exn_text (Ok (VDict data)) est rb
  = (VDict (<["error" := VStr "Task description is required"]>
           (<["success" := VBool false]> ∅)), 400).
Proof.
  intros [Hn | (raw & Ht & Hb)].
  - unfold get_ai_estimate, get_ai_estimate_body.
    cbn [bind get]. rewrite Hn. reflexivity.
  - apply (handler_empty_task exn_text data raw est rb Ht).
    now rewrite strip_blank.
Qed.

(** X10. A malformed request is answered 500, not 400: when the body
    cannot be read as JSON, when it is not a JSON object, and when its
    task is present but not a string (a number, null, a list); the answer
    carries [success] false and the text of the exception. *)
Theorem X10_malformed_request_is_500 (est : string -> pyval) (rb : Z) :
  (forall e,
     get_ai_estimate exn_text (Raise e) est rb
     = (error_body (VStr (str_exn exn_text e)), 500)) /\
  (forall v, (forall d, v <> VDict d) ->
     get_ai_estimate exn_text (Ok v) est rb
     = (error_body (VStr (exn_text (NoAttribute v "get"))), 500)) /\
  (forall data v, data !! "task" = Some v -> is_str v = false ->
     get_ai_estimate exn_text (Ok (VDict data)) est rb
     = (error_body (VStr (exn_text (NoAttribute v "strip"))), 500)).
Proof.
  split; [|split].
  - reflexivity.
  - intros v Hv. unfold get_ai_estimate, get_ai_estimate_body.
    destruct v; try reflexivity. now destruct (Hv d).
  - intros data v Ht Hs. unfold get_ai_estimate, get_ai_estimate_body.
    cbn [bind get]. rewrite Ht. destruct v; try reflexivity. discriminate Hs.
Qed.

(** The cases of the handler, by its status. *)
Lemma handler_cases (request_json : result pyval) (est : string -> pyval)
    (rb : Z) :
  let answer := get_ai_estimate exn_text request_json est rb in
  (exists error, answer = (error_body error, 400)) \/
  (exists error, answer = (error_body error, 500)) \/
  (exists data raw d,
     request_json = Ok (VDict data) /\
     data !! "task" = Some (VStr raw) /\
     PyStr.nonempty (PyStr.strip raw) = true /\
     est (PyStr.strip raw) = VDict d /\
     slice_prefix (default (VStr EmptyString) (d !! "reasoning")) = Ok tt /\
     truthy (default VNone (d !! "success")) = true /\
     snd answer = 200).
Proof.
  cbv zeta. destruct request_json as [v|e].
  2: { right; left. eexists. reflexivity. }
  destruct v as [| | | | | |data];
    try (right; left; eexists; reflexivity).
  destruct (data !! "task") as [t|] eqn:Ht.
  2: { left. eexists. unfold get_ai_estimate, get_ai_estimate_body.
       cbn [bind get]. rewrite Ht. reflexivity. }
  destruct t as [| | | |raw| |];
    try (right; left; eexists;
         unfold get_ai_estimate, get_ai_estimate_body;
         cbn [bind get]; rewrite Ht; reflexivity).
  destruct (PyStr.nonempty (PyStr.strip raw)) eqn:Hn.
  2: { left. eexists. now apply (handler_empty_task exn_text data raw). }
  destruct (est (PyStr.strip raw)) as [| | | | | |d] eqn:He;
    try (right; left; eexists;
         unfold get_ai_estimate, get_ai_estimate_body;
         cbn [bind get strip]; rewrite Ht;
         cbn [default from_option id bind strip];
         rewrite Hn; cbn [negb]; rewrite He; reflexivity).
  destruct (slice_prefix (default (VStr EmptyString) (d !! "reasoning")))
    as [[]|e] eqn:Hs.
  2: { right; left. eexists.
       unfold get_ai_estimate, get_ai_estimate_body.
       cbn [bind get strip]. rewrite Ht.
       cbn [default from_option id bind strip].
       rewrite Hn. cbn [negb]. rewrite He. cbn [bind get].
       rewrite Hs. reflexivity. }
  destruct (truthy (default VNone (d !! "success"))) eqn:Hok.
  - right; right. exists data, raw, d.
    destruct (handler_success exn_text data d raw est rb Ht Hn He Hs Hok)
      as (body & e & Hb & _).
    rewrite Hb. repeat split; auto.
  - right; left. eexists.
    now apply (handler_failure exn_text data d raw est rb).
Qed.

(** X11. Every answer of the handler is a JSON object with a Boolean
    [success], and the status is 200, 400 or 500: [success] is true
    exactly in the answers with status 200; an answer with status 400 or
    500 carries an [error] field and none of the ticket fields. *)
Theorem X11_status_matches_success
    (request_json : result pyval) (est : string -> pyval) (rb : Z) :
  exists body status,
    get_ai_estimate exn_text request_json est rb = (VDict body, status) /\
    (status = 200 /\ body !! "success" = Some (VBool true) \/
     (status = 400 \/ status = 500) /\
     body !! "success" = Some (VBool false) /\
     is_Some (body !! "error") /\
     body !! "ticket_id" = None /\ body !! "estimate" = None).
Proof.
  pose proof (handler_cases request_json est rb) as HC. cbv zeta in HC.
  destruct HC
    as [[err H] | [[err H] | (data & raw & d & -> & Ht & Hn & He & Hs & Hok & _)]].
  - rewrite H. do 2 eexists. split; [reflexivity|]. right.
    split; [now left|]. repeat split; eauto.
  - rewrite H. do 2 eexists. split; [reflexivity|]. right.
    split; [now right|]. repeat split; eauto.
  - destruct (handler_success exn_text data d raw est rb Ht Hn He Hs Hok)
      as (body & e & Hb & Hsucc & _).
    rewrite Hb. do 2 eexists. split; [reflexivity|]. left. now split.
Qed.

End HandlerEdges.

Section HandlerAnswers.
Import Py AIServices AITaskCreator Spec.

Variable exn_text : fault -> string.

Lemma listish_not_str (d : gmap string pyval) (key : string) :
  is_str (listish d key) = false.
Proof.
  unfold listish. cbv zeta.
  destruct (is_str (default (VList []) (d !! key))) eqn:E; [reflexivity|exact E].
Qed.

(** The answer on the success branch, in full. *)
Lemma handler_success_body (data d : gmap string pyval) (raw : string)
    (est : string -> pyval) (rb : Z) :
  data !! "task" = Some (VStr raw) ->
  PyStr.nonempty (PyStr.strip raw) = true ->
  est (PyStr.strip raw) = VDict d ->
  slice_prefix (default (VStr EmptyString) (d !! "reasoning")) = Ok tt ->
  truthy (default VNone (d !! "success")) = true ->
  get_ai_estimate exn_text (Ok (VDict data)) est rb
  = (VDict (<["estimate" := VDict
               (<["reasoning" := default (VStr EmptyString) (d !! "reasoning")]>
               (<["suggested_labels" := listish d "suggested_labels"]>
               (<["required_access" := listish d "required_access"]>
               (<["dependencies" := listish d "dependencies"]>
               (<["complexity_level" :=
                    default (VStr "Medium") (d !! "complexity_level")]>
               (<["priority" := default (VStr "Medium") (d !! "priority")]>
               (<["estimated_time" :=
                    default (VStr "Unknown") (d !! "estimated_time")]>
                ∅)))))))]>
           (<["title" := VStr (choose_title (default VNone (d !! "title"))
                                            (PyStr.strip raw))]>
           (<["task" := VStr (PyStr.strip raw)]>
           (<["ticket_number" := VStr (generate_ticket_number rb)]>
           (<["ticket_id" := VStr (ticket_id_of (PyStr.strip raw))]>
           (<["success" := VBool true]> ∅)))))), 200).
Proof.
  intros Ht Hn He Hs Hok.
  unfold get_ai_estimate, get_ai_estimate_body, get_listish.
  cbn [bind get strip]. rewrite Ht. cbn [default from_option id bind strip].
  rewrite Hn. cbn [negb]. rewrite He. cbn [bind get].
  rewrite Hs. cbn [bind]. rewrite Hok. reflexivity.
Qed.

(** X12. An answer with status 200 has exactly the six fields success,
    ticket_id, ticket_number, task, title and estimate; its estimate has
    exactly the seven estimate fields, each filled in (with the defaults
    of the handler where the estimator gave none); and none of
    dependencies, required_access and suggested_labels is a bare
    string. *)
Theorem X12_success_answer_shape
    (request_json : result pyval) (est : string -> pyval) (rb : Z)
    (answer : pyval) :
  get_ai_estimate exn_text request_json est rb = (answer, 200) ->
  exists body e,
    answer = VDict body /\
    dom body = list_to_set ["success"; "ticket_id"; "ticket_number";
                            "task"; "title"; "estimate"] /\
    body !! "success" = Some (VBool true) /\
    body !! "estimate" = Some (VDict e) /\
    dom e = list_to_set ["estimated_time"; "priority"; "complexity_level";
                         "dependencies"; "required_access";
                         "suggested_labels"; "reasoning"] /\
    (forall k, k = "dependencies" \/ k = "required_access" \/
               k = "suggested_labels" ->
       exists v, e !! k = Some v /\ is_str v = false).
Proof.
  intros Ha.
  pose proof (handler_cases exn_text request_json est rb) as HC.
  cbv zeta in HC. rewrite Ha in HC.
  destruct HC as [[err H] | [[err H]
    | (data & raw & d & -> & Ht & Hn & He & Hs & Hok & _)]];
    [discriminate H | discriminate H |].
  rewrite (handler_success_body data d raw est rb Ht Hn He Hs Hok) in Ha.
  injection Ha as <-. do 2 eexists. split; [reflexivity|].
  split; [rewrite !dom_insert_L, dom_empty_L; cbn [list_to_set]; set_solver|].
  split; [reflexivity|]. split; [reflexivity|].
  split; [rewrite !dom_insert_L, dom_empty_L; cbn [list_to_set]; set_solver|].
  intros k [-> | [-> | ->]]; eexists;
    (split; [reflexivity | apply listish_not_str]).
Qed.

(** X13. The handler slices the reasoning for its log before it looks at
    [success]: an estimate whose reasoning is present but neither a
    string nor a list (a number, null, an object) is answered 500, also
    when the estimate itself succeeded. *)
Theorem X13_unsliceable_reasoning_is_500
    (data d : gmap string pyval) (raw : string) (est : string -> pyval)
    (rb : Z) (v : pyval) :
  data !! "task" = Some (VStr raw) ->
  PyStr.nonempty (PyStr.strip raw) = true ->
  est (PyStr.strip raw) = VDict d ->
  d !! "reasoning" = Some v -> is_str v = false -> is_list v = false ->
  get_ai_estimate exn_text (Ok (VDict data)) est rb
  = (VDict (<["error" := VStr (exn_text (NotSliceable v))]>
           (<["success" := VBool false]> ∅)), 500).
Proof.
  intros Ht Hn He Hr Hs Hl.
  unfold get_ai_estimate, get_ai_estimate_body.
  cbn [bind get strip]. rewrite Ht. cbn [default from_option id bind strip].
  rewrite Hn. cbn [negb]. rewrite He. cbn [bind get]. rewrite Hr.
  cbn [default from_option id].
  destruct v; try discriminate; reflexivity.
Qed.

(** X14. Without a usable credential the endpoint cannot estimate
    anything: with an estimator that is not available, every request with
    a non-blank task is answered 500 with the error "AI service
    temporarily unavailable". *)
Theorem X14_unavailable_endpoint
    (json_loads : string -> result pyval) (self : AIEstimator)
    (now raw : string) (data : gmap string pyval) (rb : Z) :
  available self = false ->
  data !! "task" = Some (VStr raw) ->
  PyStr.nonempty (PyStr.strip raw) = true ->
  get_ai_estimate exn_text (Ok (VDict data))
    (fun t => fst (estimate_task exn_text json_loads self now t)) rb
  = (VDict (<["error" := VStr "AI service temporarily unavailable"]>
           (<["success" := VBool false]> ∅)), 500).
Proof.
  intros Ha Ht Hn.
  rewrite (handler_failure exn_text data
             (_get_fallback_response now (PyStr.strip raw) None) raw _ rb Ht Hn).
  - now rewrite fallback_error.
  - unfold estimate_task. now rewrite Ha.
  - now rewrite fallback_reasoning_field.
  - now rewrite fallback_success.
Qed.

End HandlerAnswers.

(* ===================================================================== *)
(** * Words of a title *)
(* ===================================================================== *)

Section Words.
Import PyStr Spec2.

Lemma split_good (s : string) : Forall good_word (split s).
Proof. exact (split_words s). Qed.

Lemma split_word_then_blank (w x : string) (b : ascii) :
  good_word w -> is_space b = true ->
  split (w +:+ String b x) = w :: split x.
Proof.
  intros [Hn Ha] Hb. induction w as [|c w IH]; [discriminate Hn|].
  cbn [Hex.all] in Ha. apply andb_true_iff in Ha as [Hc Hw].
  apply negb_true_iff in Hc.
  cbn [String.append split]. rewrite Hc.
  destruct w as [|c' w'].
  - cbn [String.append]. rewrite Hb. cbn [split]. now rewrite Hb.
  - cbn [String.append].
    assert (Hc' : is_space c' = false).
    { cbn [Hex.all] in Hw. apply andb_true_iff in Hw as [H _].
      now apply negb_true_iff in H. }
    rewrite Hc'. cbn [String.append] in IH. now rewrite (IH eq_refl Hw).
Qed.

Lemma split_word (w : string) : good_word w -> split w = [w].
Proof.
  intros [Hn Ha]. induction w as [|c w IH]; [discriminate Hn|].
  cbn [Hex.all] in Ha. apply andb_true_iff in Ha as [Hc Hw].
  apply negb_true_iff in Hc. cbn [split]. rewrite Hc.
  destruct w as [|c' w']; [reflexivity|].
  assert (Hc' : is_space c' = false).
  { cbn [Hex.all] in Hw. apply andb_true_iff in Hw as [H _].
    now apply negb_true_iff in H. }
  rewrite Hc'. now rewrite (IH eq_refl Hw).
Qed.

(** Joining words by single spaces and splitting again gives the words. *)
Lemma split_join (ws : list string) :
  Forall good_word ws -> split (join " " ws) = ws.
Proof.
  induction ws as [|w ws IH]; intros H; [reflexivity|].
  inversion H as [|? ? Hw Hws]; subst.
  destruct ws as [|w2 ws']; [now apply split_word|].
  change (join " " (w :: w2 :: ws'))
    with (w +:+ String " " (join " " (w2 :: ws'))).
  rewrite split_word_then_blank by (auto; reflexivity).
  now rewrite IH.
Qed.

(** A character map that keeps blanks blank and the rest non-blank acts
    word by word. *)
Lemma split_map (f : ascii -> ascii) (s : string) :
  (forall c, is_space (f c) = is_space c) ->
  split (map f s) = List.map (map f) (split s).
Proof.
  intros Hf. induction s as [|c r IH]; [reflexivity|].
  cbn [map split]. rewrite Hf. destruct (is_space c); [exact IH|].
  destruct r as [|c' r']; [reflexivity|].
  cbn [map]. rewrite Hf. cbn [map] in IH.
  destruct (is_space c'); [now rewrite IH|].
  rewrite IH. now destruct (split (String c' r')).
Qed.

Lemma to_lower_space (c : ascii) : is_space (to_lower c) = is_space c.
Proof. destruct c as [[] [] [] [] [] [] [] []]; reflexivity. Qed.

Lemma map_id_on_word (f : ascii -> ascii) (w : string) :
  (forall c, is_space c = false -> f c = c) ->
  Hex.all (fun c => negb (is_space c)) w = true -> map f w = w.
Proof.
  intros Hf. induction w as [|c w IH]; [reflexivity|].
  cbn [Hex.all map]. intros H. apply andb_true_iff in H as [Hc Hw].
  apply negb_true_iff in Hc. now rewrite (Hf c Hc), IH.
Qed.

(** Line feeds turned into spaces: the words are the same. *)
Lemma split_replace_nl (s : string) :
  split (replace_char "010" " " s) = split s.
Proof.
  unfold replace_char.
  rewrite split_map.
  - pose proof (split_good s) as Hg. induction Hg as [|w ws [_ Hw] _ IH];
      [reflexivity|].
    cbn [List.map]. rewrite IH. f_equal.
    apply map_id_on_word; [|exact Hw].
    intros c Hc. destruct (Ascii.eqb c "010") eqn:E; [|reflexivity].
    apply Ascii.eqb_eq in E. subst c. discriminate Hc.
  - intros c. destruct (Ascii.eqb c "010") eqn:E; [|reflexivity].
    apply Ascii.eqb_eq in E. now subst c.
Qed.

Lemma split_lstrip (s : string) : split (lstrip s) = split s.
Proof.
  induction s as [|c r IH]; [reflexivity|].
  cbn [lstrip]. destruct (is_space c) eqn:Hc; [|reflexivity].
  cbn [split]. now rewrite Hc.
Qed.

Lemma split_nil_head (c : ascii) (r : string) :
  split (String c r) = [] -> is_space c = true.
Proof.
  cbn [split]. destruct (is_space c); [reflexivity|].
  destruct r as [|c' r']; [discriminate|].
  destruct (is_space c'); [discriminate|].
  destruct (split (String c' r')); discriminate.
Qed.

Lemma rstrip_head (c : ascii) (r : string) :
  rstrip (String c r) = EmptyString \/
  exists r', rstrip (String c r) = String c r'.
Proof.
  cbn [rstrip]. destruct (rstrip r); [destruct (is_space c)|]; eauto.
Qed.

Lemma split_rstrip (s : string) : split (rstrip s) = split s.
Proof.
  induction s as [|c r IH]; [reflexivity|].
  cbn [rstrip]. destruct (rstrip r) as [|a r''] eqn:E.
  - cbn [split] in IH. symmetry in IH.
    destruct (is_space c) eqn:Hc.
    + cbn [split]. now rewrite Hc.
    + cbn [split]. rewrite Hc. destruct r as [|c' r']; [reflexivity|].
      rewrite (split_nil_head c' r' IH). now rewrite IH.
  - destruct r as [|c' r']; [discriminate E|].
    destruct (rstrip_head c' r') as [H | [r1 H]]; rewrite H in E;
      [discriminate E|]. injection E as <- <-.
    rewrite <- H in IH |- *.
    cbn [split]. destruct (is_space c); [exact IH|].
    rewrite H. rewrite H in IH. now rewrite IH.
Qed.

Lemma split_strip (s : string) : split (strip s) = split s.
Proof. unfold strip. now rewrite split_rstrip, split_lstrip. Qed.

Lemma lower_split (s : string) :
  split (lower s) = List.map lower (split s).
Proof. apply split_map, to_lower_space. Qed.

Lemma Forall_firstn {A} (P : A -> Prop) (n : nat) (l : list A) :
  Forall P l -> Forall P (firstn n l).
Proof.
  intros H. revert n. induction H as [|x l Hx Hl IH]; intros [|n];
    cbn [firstn]; constructor; auto.
Qed.

End Words.

Section ShortTitle.
Import Py AITaskCreator Spec.

(** X15. The derived title of a non-empty task has the first [max_words]
    words of the task, up to letter case, and no others: it has
    min(max_words, number of words of the task) words, so at most 6 in
    the handler, however the task is spaced or broken into lines. *)
Theorem X15_short_title_words (task : string) (max_words : nat) :
  PyStr.nonempty task = true ->
  let title := generate_short_title task max_words in
  List.map PyStr.lower (PyStr.split title)
  = List.map PyStr.lower (firstn max_words (PyStr.split task)) /\
  length (PyStr.split title)
  = Nat.min max_words (length (PyStr.split task)) /\
  (length (PyStr.split title) <= max_words)%nat.
Proof.
  intros Hn. cbv zeta.
  assert (E : List.map PyStr.lower (PyStr.split (generate_short_title task max_words))
              = List.map PyStr.lower (firstn max_words (PyStr.split task))).
  { unfold generate_short_title. rewrite Hn. cbn [negb].
    rewrite <- lower_split, lower_capitalize, lower_split.
    rewrite split_join.
    - now rewrite split_strip, split_replace_nl.
    - apply Forall_firstn, split_good. }
  assert (L : length (PyStr.split (generate_short_title task max_words))
              = Nat.min max_words (length (PyStr.split task))).
  { apply (f_equal (@length string)) in E.
    rewrite !length_map in E. rewrite E. apply length_firstn. }
  split; [exact E|]. split; [exact L|]. rewrite L. lia.
Qed.

(** X16. A task that is not empty but holds only blanks or line feeds
    passes the emptiness test of [generate_short_title]: its title is the
    empty string, not "New Ticket". *)
Theorem X16_blank_task_gets_empty_title (task : string) (max_words : nat) :
  PyStr.nonempty task = true ->
  Hex.all PyStr.is_space task = true ->
  generate_short_title task max_words = EmptyString /\
  generate_short_title EmptyString max_words = "New Ticket".
Proof.
  intros Hn Hb. split; [|reflexivity].
  unfold generate_short_title. rewrite Hn. cbn [negb].
  assert (Hs : PyStr.split task = []).
  { clear Hn. induction task as [|c r IH]; [reflexivity|].
    cbn [Hex.all] in Hb. apply andb_true_iff in Hb as [Hc Hr].
    cbn [PyStr.split]. rewrite Hc. now apply IH. }
  rewrite split_strip, split_replace_nl, Hs. now destruct max_words.
Qed.

End ShortTitle.

(* ===================================================================== *)
(** * Creating the ticket *)
(* ===================================================================== *)

Section TicketCreationFacts.
Import Py AIServices AITaskCreator TicketCreation Spec.

Variable exn_text : fault -> string.

Lemma lower_no_upper_value (v w : pyval) :
  lower v = Ok w ->
  exists p, w = VStr p /\
            Hex.all (fun c => negb (PyStr.is_upper c)) p = true.
Proof.
  destruct v; try discriminate. intros [= <-].
  eexists. split; [reflexivity | apply lower_no_upper].
Qed.

(** X17. Whenever the arguments of a new ticket can be built from a
    request, they are the ten fields ticket_id, ticket_number, title,
    description, status, priority, estimated_time, tags, access_required
    and dependencies; the status is "new", the priority is a string
    without upper-case letters, and the ticket number is truthy, so that
    the model's constructor draws no second number. *)
Theorem X17_new_ticket_fields
    (data : pyval) (random1 : Z) (kwargs : gmap string pyval) :
  new_ticket_kwargs data random1 = Ok kwargs ->
  dom kwargs = list_to_set ["ticket_id"; "ticket_number"; "title";
                            "description"; "status"; "priority";
                            "estimated_time"; "tags"; "access_required";
                            "dependencies"] /\
  kwargs !! "status" = Some (VStr "new") /\
  (exists p, kwargs !! "priority" = Some (VStr p) /\
             Hex.all (fun c => negb (PyStr.is_upper c)) p = true) /\
  (exists n, kwargs !! "ticket_number" = Some n /\ truthy n = true) /\
  (forall random2, Models.__init__ kwargs random2 = kwargs).
Proof.
  unfold new_ticket_kwargs. destruct data as [| | | | | |d]; try discriminate.
  cbn [get bind].
  destruct (short_title_of _) as [dt|]; [|discriminate]. cbn [bind].
  destruct (lower _) as [pr|] eqn:Hl; [|discriminate]. cbn [bind].
  destruct (get (default (VDict ∅) (d !! "estimate")) "estimated_time" _)
    as [et|]; [|discriminate]. cbn [bind].
  destruct (get (default (VDict ∅) (d !! "estimate")) "suggested_labels" _)
    as [tg|]; [|discriminate]. cbn [bind].
  destruct (get (default (VDict ∅) (d !! "estimate")) "required_access" _)
    as [ac|]; [|discriminate]. cbn [bind].
  destruct (get (default (VDict ∅) (d !! "estimate")) "dependencies" _)
    as [dp|]; [|discriminate]. cbn [bind].
  intros [= <-].
  assert (Hn : exists n,
    (if truthy (default VNone (d !! "ticket_number"))
     then default VNone (d !! "ticket_number")
     else VStr (generate_ticket_number random1)) = n /\ truthy n = true).
  { destruct (truthy (default VNone (d !! "ticket_number"))) eqn:E; eauto. }
  destruct Hn as (n & Hn & Htn). rewrite Hn.
  split; [rewrite !dom_insert_L, dom_empty_L; cbn [list_to_set]; set_solver|].
  split; [now rewrite !lookup_insert_ne, lookup_insert_eq by discriminate|].
  split.
  { destruct (lower_no_upper_value _ _ Hl) as (p & -> & Hp). exists p.
    split; [|exact Hp].
    now rewrite !lookup_insert_ne, lookup_insert_eq by discriminate. }
  assert (Hlk : forall (m : gmap string pyval),
    (<["dependencies":=dp]> (<["access_required":=ac]> (<["tags":=tg]>
     (<["estimated_time":=et]> (<["priority":=pr]>
     (<["status":=VStr "new"]>
     (<["description":=default (VStr EmptyString) (d !! "edited_description")]>
     (<["title":=default (VStr dt) (d !! "title")]>
     (<["ticket_number":=n]> m))))))))) !! "ticket_number" = Some n).
  { intros m. now rewrite !lookup_insert_ne, lookup_insert_eq by discriminate. }
  split; [eauto|].
  intros random2. unfold Models.__init__. now rewrite Hlk, Htn.
Qed.

End TicketCreationFacts.

Section TicketCreationFlow.
Import Py AIServices AITaskCreator TicketCreation Spec.

Variable exn_text : fault -> string.
Variable format_value : pyval -> string.
Variable persist : gmap string pyval -> result pyval.

Ltac lookup_chain :=
  repeat (rewrite lookup_insert_ne by discriminate);
  first [apply lookup_insert_eq | apply lookup_empty].

(** X18. The answer of /api/estimate, posted as it is to
    /api/create-ticket, builds a ticket with the same ticket_id,
    ticket_number and title, whose tags, access_required, dependencies
    and estimated_time are the suggested_labels, required_access,
    dependencies and estimated_time of the estimate; its priority is
    "medium" whatever priority the estimate gave, and its description is
    empty: these two come from the user's edits only. *)
Theorem X18_estimate_answer_creates_same_ticket
    (request_json : result pyval) (est : string -> pyval) (rb random1 : Z)
    (answer : pyval) :
  get_ai_estimate exn_text request_json est rb = (answer, 200) ->
  exists body e kwargs,
    answer = VDict body /\ body !! "estimate" = Some (VDict e) /\
    new_ticket_kwargs answer random1 = Ok kwargs /\
    kwargs !! "ticket_id" = body !! "ticket_id" /\
    kwargs !! "ticket_number" = body !! "ticket_number" /\
    kwargs !! "title" = body !! "title" /\
    kwargs !! "tags" = e !! "suggested_labels" /\
    kwargs !! "access_required" = e !! "required_access" /\
    kwargs !! "dependencies" = e !! "dependencies" /\
    kwargs !! "estimated_time" = e !! "estimated_time" /\
    kwargs !! "priority" = Some (VStr "medium") /\
    kwargs !! "description" = Some (VStr EmptyString).
Proof.
  intros Ha.
  pose proof (handler_cases exn_text request_json est rb) as HC.
  cbv zeta in HC. rewrite Ha in HC.
  destruct HC as [[err H] | [[err H]
    | (data & raw & d & -> & Ht & Hn & He & Hs & Hok & _)]];
    [discriminate H | discriminate H |].
  rewrite (handler_success_body exn_text data d raw est rb Ht Hn He Hs Hok)
    in Ha.
  injection Ha as <-.
  set (e := <["reasoning" := default (VStr EmptyString) (d !! "reasoning")]>
            (<["suggested_labels" := listish d "suggested_labels"]>
            (<["required_access" := listish d "required_access"]>
            (<["dependencies" := listish d "dependencies"]>
            (<["complexity_level" :=
                 default (VStr "Medium") (d !! "complexity_level")]>
            (<["priority" := default (VStr "Medium") (d !! "priority")]>
            (<["estimated_time" :=
                 default (VStr "Unknown") (d !! "estimated_time")]>
             (∅ : gmap string pyval)))))))).
  set (title := choose_title (default VNone (d !! "title")) (PyStr.strip raw)).
  set (body := <["estimate" := VDict e]>
               (<["title" := VStr title]>
               (<["task" := VStr (PyStr.strip raw)]>
               (<["ticket_number" := VStr (generate_ticket_number rb)]>
               (<["ticket_id" := VStr (ticket_id_of (PyStr.strip raw))]>
               (<["success" := VBool true]> (∅ : gmap string pyval))))))).
  assert (B1 : body !! "ticket_id"
               = Some (VStr (ticket_id_of (PyStr.strip raw))))
    by (subst body; lookup_chain).
  assert (B2 : body !! "ticket_number"
               = Some (VStr (generate_ticket_number rb)))
    by (subst body; lookup_chain).
  assert (B3 : body !! "task" = Some (VStr (PyStr.strip raw)))
    by (subst body; lookup_chain).
  assert (B4 : body !! "title" = Some (VStr title))
    by (subst body; lookup_chain).
  assert (B5 : body !! "estimate" = Some (VDict e))
    by (subst body; lookup_chain).
  assert (B6 : body !! "edited_description" = None)
    by (subst body; lookup_chain).
  assert (B7 : body !! "edited_priority" = None)
    by (subst body; lookup_chain).
  assert (E1 : e !! "estimated_time"
               = Some (default (VStr "Unknown") (d !! "estimated_time")))
    by (subst e; lookup_chain).
  assert (E2 : e !! "suggested_labels" = Some (listish d "suggested_labels"))
    by (subst e; lookup_chain).
  assert (E3 : e !! "required_access" = Some (listish d "required_access"))
    by (subst e; lookup_chain).
  assert (E4 : e !! "dependencies" = Some (listish d "dependencies"))
    by (subst e; lookup_chain).
  assert (Hnum : truthy (VStr (generate_ticket_number rb)) = true)
    by reflexivity.
  exists body, e. eexists. split; [reflexivity|]. split; [exact B5|].
  clearbody body e. unfold new_ticket_kwargs. cbn [get bind].
  rewrite B1, B2, B3, B4, B5, B6, B7.
  cbn [default from_option id]. rewrite Hnum.
  unfold short_title_of. cbn [truthy]. rewrite Hn. cbn [negb bind lower get].
  rewrite E1, E2, E3, E4. cbn [default from_option id bind].
  split; [reflexivity|].
  repeat split; lookup_chain.
Qed.

(** X19. The default title is computed before the title is looked up:
    a request whose task is truthy but not a string (a number, a list,
    an object) is answered 500 also when it supplies a title, and the
    store is not reached; with a string or falsy task, a supplied title
    is taken as it is, whatever its value, null and the empty string
    included. *)
Theorem X19_default_title_is_eager
    (d : gmap string pyval) (random1 random2 : Z) :
  (forall v, d !! "task" = Some v -> truthy v = true -> is_str v = false ->
     create_final_ticket exn_text format_value persist (Ok (VDict d))
       random1 random2
     = (VDict (<["error" := VStr (exn_text (NoAttribute v "replace"))]>
              (<["success" := VBool false]> ∅)), 500)) /\
  (forall t kwargs,
     d !! "title" = Some t ->
     new_ticket_kwargs (VDict d) random1 = Ok kwargs ->
     kwargs !! "title" = Some t).
Proof.
  split.
  - intros v Hv Ht Hs.
    unfold create_final_ticket, create_final_ticket_body, new_ticket_kwargs.
    cbn [bind get]. rewrite Hv. cbn [default from_option id].
    unfold short_title_of. rewrite Ht. cbn [negb].
    destruct v; try discriminate Hs; reflexivity.
  - intros t kwargs Ht. unfold new_ticket_kwargs. cbn [get bind].
    destruct (short_title_of _) as [dt|]; [|discriminate]. cbn [bind].
    destruct (lower _) as [pr|]; [|discriminate]. cbn [bind].
    destruct (get (default (VDict ∅) (d !! "estimate")) "estimated_time" _)
      as [et|]; [|discriminate]. cbn [bind].
    destruct (get (default (VDict ∅) (d !! "estimate")) "suggested_labels" _)
      as [tg|]; [|discriminate]. cbn [bind].
    destruct (get (default (VDict ∅) (d !! "estimate")) "required_access" _)
      as [ac|]; [|discriminate]. cbn [bind].
    destruct (get (default (VDict ∅) (d !! "estimate")) "dependencies" _)
      as [dp|]; [|discriminate]. cbn [bind].
    intros [= <-]. rewrite Ht. cbn [default from_option id]. lookup_chain.
Qed.

End TicketCreationFlow.

(* ===================================================================== *)
(** * The ticket estimator service *)
(* ===================================================================== *)

Section TicketIds.
Import Py EstimationServices PyStr.

(** The decimal rendering of an integer determines it. *)
Lemma str_int_inj (a b : Z) : str_int a = str_int b -> a = b.
Proof.
  unfold str_int. intros H.
  apply DecimalZ.to_int_inj.
  assert (N : forall z, Z.to_int z <> Decimal.Pos Decimal.Nil /\
                        Z.to_int z <> Decimal.Neg Decimal.Nil).
  { intros [|p|p]; cbn; split; try discriminate;
      intros [= E]; now apply (DecimalPos.Unsigned.to_uint_nonnil p). }
  pose proof (NilZero.isi (Z.to_int a) (proj1 (N a)) (proj2 (N a))) as Ia.
  pose proof (NilZero.isi (Z.to_int b) (proj1 (N b)) (proj2 (N b))) as Ib.
  rewrite H in Ia. rewrite Ia in Ib. now injection Ib.
Qed.

Lemma append_eq_length (a b x y : string) :
  a +:+ x = b +:+ y -> String.length a = String.length b -> a = b.
Proof.
  revert b. induction a as [|c a IH]; intros [|d b] H L;
    try discriminate L; [reflexivity|].
  cbn [String.append] in H. injection H as -> H.
  f_equal. apply (IH b H). now injection L.
Qed.

(** The hash part of an identifier: six characters. *)
Lemma hash_part_length (task : string) :
  String.length (upper (take 6 (MD5.hexdigest (MD5.encode task)))) = 6%nat.
Proof.
  rewrite upper_length, length_take.
  destruct (hexdigest_shape (MD5.encode task)) as [-> _]. reflexivity.
Qed.

Lemma ticket_id_counter (s1 s2 : TicketEstimator) (t1 t2 : string) :
  fst (_generate_ticket_id s1 t1) = fst (_generate_ticket_id s2 t2) ->
  ticket_counter s1 = ticket_counter s2.
Proof.
  unfold _generate_ticket_id. cbn [fst ticket_counter]. intros H.
  apply append_cancel_l in H.
  assert (L : String.length (str_int (ticket_counter s1 + 1))
              = String.length (str_int (ticket_counter s2 + 1))).
  { apply (f_equal String.length) in H.
    rewrite !length_append, !hash_part_length in H.
    cbn [String.length] in H. lia. }
  apply append_eq_length in H; [|exact L].
  apply str_int_inj in H. lia.
Qed.

Lemma generate_ids_counters (self : TicketEstimator) (tasks : list string)
    (ticket_id : string) :
  In ticket_id (generate_ids self tasks) ->
  exists s t, ticket_counter self <= ticket_counter s /\
              ticket_id = fst (_generate_ticket_id s t).
Proof.
  revert self. induction tasks as [|task rest IH]; intros self; [intros []|].
  cbn [generate_ids]. unfold _generate_ticket_id at 1. cbv zeta.
  intros [<- | Hin].
  - exists self, task. split; [lia | reflexivity].
  - destruct (IH _ Hin) as (s & t & Hs & ->). cbn [ticket_counter] in Hs.
    exists s, t. split; [lia | reflexivity].
Qed.

(** X20. The identifiers a ticket estimator hands out never repeat,
    whatever the tasks, the same task twice included: each is "TKT-",
    the counter after the call, "-" and six characters of the task's
    hash, and the counter moves up by one at each call. *)
Theorem X20_ticket_ids_never_repeat
    (self : TicketEstimator) (tasks : list string) :
  List.NoDup (generate_ids self tasks) /\
  (forall task,
     snd (_generate_ticket_id self task)
     = MkTicketEstimator (ticket_counter self + 1) /\
     exists h, fst (_generate_ticket_id self task)
               = "TKT-" +:+ str_int (ticket_counter self + 1) +:+ "-" +:+ h /\
               String.length h = 6%nat /\
               Hex.all Hex.is_upper_hex h = true).
Proof.
  split.
  - revert self. induction tasks as [|task rest IH]; intros self;
      [constructor|].
    cbn [generate_ids]. unfold _generate_ticket_id at 1. cbv zeta.
    constructor; [|apply IH].
    intros Hin. apply generate_ids_counters in Hin as (s & t & Hs & Heq).
    cbn [ticket_counter] in Hs.
    change ("TKT-" +:+ str_int (ticket_counter self + 1) +:+ "-"
            +:+ upper (take 6 (MD5.hexdigest (MD5.encode task))))
      with (fst (_generate_ticket_id self task)) in Heq.
    apply ticket_id_counter in Heq. lia.
  - intros task. split; [reflexivity|]. eexists. split; [reflexivity|].
    split; [apply hash_part_length|].
    apply upper_all_hex, all_take.
    exact (proj2 (hexdigest_shape (MD5.encode task))).
Qed.

End TicketIds.

Section Assignee.
Import Py EstimationServices Spec2.

Lemma contains_list (k : string) (l : list pyval) :
  contains k (VList l) = Ok (has_element k l).
Proof. reflexivity. Qed.

(** The assignee of an estimate with a list of accesses is computed. *)
Lemma assignee_of_list
    (estimate : gmap string pyval) (l : list pyval) :
  default (VList []) (estimate !! "required_access") = VList l ->
  exists role, _suggest_assignee (VDict estimate) = Ok role.
Proof.
  intros Hl. unfold _suggest_assignee, contains_both.
  cbn [get bind]. rewrite Hl. rewrite !contains_list. cbn [bind].
  destruct (has_element "Backend" l), (has_element "Frontend" l),
    (has_element "Database" l), (has_element "DevOps" l);
    cbn [bind]; eexists; reflexivity.
Qed.

(** X21. For an estimate whose required_access is a list (or absent,
    which counts as the empty list), [_suggest_assignee] always answers,
    with one of its six roles; only an element equal to one of the five
    keywords counts, not a longer text that mentions it: the role is
    "General Developer" exactly when none of "Backend", "Frontend",
    "Database", "DevOps" is an element, and "Full Stack Developer"
    exactly when both "Backend" and "Frontend" are. *)
Theorem X21_suggested_assignee
    (estimate : gmap string pyval) (l : list pyval) :
  default (VList []) (estimate !! "required_access") = VList l ->
  exists role,
    _suggest_assignee (VDict estimate) = Ok role /\
    In role ["Full Stack Developer"; "Backend Developer";
             "Frontend Developer"; "Database Administrator";
             "DevOps Engineer"; "General Developer"] /\
    (role = "General Developer" <->
     has_element "Backend" l = false /\ has_element "Frontend" l = false /\
     has_element "Database" l = false /\ has_element "DevOps" l = false) /\
    (role = "Full Stack Developer" <->
     has_element "Backend" l = true /\ has_element "Frontend" l = true).
Proof.
  intros Hl. unfold _suggest_assignee, contains_both.
  cbn [get bind]. rewrite Hl. rewrite !contains_list. cbn [bind].
  destruct (has_element "Backend" l), (has_element "Frontend" l),
    (has_element "Database" l), (has_element "DevOps" l);
    cbn [bind]; eexists; (split; [reflexivity|]);
    (split; [cbn; tauto|]);
    (split; split; try discriminate; intuition discriminate).
Qed.

(** X22. [create_ticket] moves the counter up by one whether it returns
    or raises; it raises when the estimate is no dictionary; and for an
    estimate whose required_access is a list it returns a ticket with
    the identifier of that counter, the status "Estimated", the
    estimate as it came, and an empty metadata object when the metadata
    argument is falsy. *)
Theorem X22_create_ticket_counter
    (self : TicketEstimator) (now1 now2 now3 task : string)
    (estimate metadata : pyval) :
  snd (create_ticket self now1 now2 now3 task estimate metadata)
  = MkTicketEstimator (ticket_counter self + 1) /\
  ((forall d, estimate <> VDict d) ->
   fst (create_ticket self now1 now2 now3 task estimate metadata)
   = Raise (Fault (NoAttribute estimate "get"))) /\
  (forall d l,
     estimate = VDict d ->
     default (VList []) (d !! "required_access") = VList l ->
     exists ticket role,
       fst (create_ticket self now1 now2 now3 task estimate metadata)
       = Ok (VDict ticket) /\
       _suggest_assignee estimate = Ok role /\
       ticket !! "suggested_assignee" = Some (VStr role) /\
       ticket !! "id" = Some (VStr (fst (_generate_ticket_id self task))) /\
       ticket !! "status" = Some (VStr "Estimated") /\
       ticket !! "estimate_details" = Some estimate /\
       (truthy metadata = false -> ticket !! "metadata" = Some (VDict ∅)) /\
       (truthy metadata = true -> ticket !! "metadata" = Some metadata)).
Proof.
  split; [reflexivity|]. split.
  - intros Hd. unfold create_ticket, _generate_ticket_id. cbv zeta.
    cbn [fst]. destruct estimate; try reflexivity. now destruct (Hd d).
  - intros d l -> Hl.
    destruct (assignee_of_list d l Hl) as (role & Hr).
    exists (<["suggested_assignee" := VStr role]>
      (<["history" :=
        VList [VDict (<["details" := VStr "Ticket estimated by AI assistant"]>
                     (<["action" := VStr "Created"]>
                     (<["timestamp" := VStr now3]> ∅)))]]>
      (<["metadata" := if truthy metadata then metadata else VDict ∅]>
      (<["estimate_details" := VDict d]>
      (<["estimated_at" := VStr now2]>
      (<["created_at" := VStr now1]>
      (<["status" := VStr "Estimated"]>
      (<["task" := VStr task]>
      (<["id" := VStr (fst (_generate_ticket_id self task))]> ∅))))))))),
      role.
    split.
    { unfold create_ticket, _generate_ticket_id. cbv zeta. cbn [fst].
      rewrite Hr. reflexivity. }
    split; [exact Hr|].
    repeat split; try intros Hm; try rewrite Hm;
      repeat (rewrite lookup_insert_ne by discriminate);
      apply lookup_insert_eq.
Qed.

End Assignee.

(* ===================================================================== *)
(** * The Kanban board *)
(* ===================================================================== *)

Section BoardUpdate.
Import Py KanbanDashboard Spec2.

Variable exn_text : fault -> string.
Variable int_of : pyval -> result Z.
Variable commit : gmap Z Ticket -> result unit.

(** The outcomes of the update of a ticket that was found. *)
Lemma update_found_cases db ticket_id ticket request_json now resp db' :
  update_found int_of commit db ticket_id ticket request_json now
    = Ok (resp, db') ->
  (resp = Failure 400 "Invalid status" /\ db' = db) \/
  (exists data ticket1 ticket2,
     request_json = Ok (VDict data) /\
     resp = Success ticket2 /\ db' = <[ticket_id := ticket2]> db /\
     (truthy (asked_status data) = false /\ ticket1 = ticket \/
      exists s, asked_status data = VStr s /\ s ∈ statuses /\
                ticket1 = apply_status ticket s now) /\
     (asked_progress data = VNone /\ ticket2 = ticket1 \/
      exists n, asked_progress data <> VNone /\
                py_int int_of (asked_progress data) = Ok n /\
                ticket2 = set_progress ticket1 (Z.max 0 (Z.min 100 n)))).
Proof.
  unfold update_found, asked_status, asked_progress.
  destruct request_json as [v|e]; [|discriminate].
  destruct v as [| | | | | |data]; try discriminate. cbn [bind get].
  remember (default VNone (data !! "status")) as ns eqn:Ens.
  remember (default VNone (data !! "progress_percentage")) as np eqn:Enp.
  assert (Hprog : forall t1 r d,
    (let* ticket2 :=
       if is_none np then Ok t1
       else (let* n := py_int int_of np in
             Ok (set_progress t1 (Z.max 0 (Z.min 100 n)))) in
     let* _ := commit (<[ticket_id := ticket2]> db) in
     Ok (Success ticket2, <[ticket_id := ticket2]> db)) = Ok (r, d) ->
    exists t2, r = Success t2 /\ d = <[ticket_id := t2]> db /\
      (np = VNone /\ t2 = t1 \/
       exists n, np <> VNone /\ py_int int_of np = Ok n /\
                 t2 = set_progress t1 (Z.max 0 (Z.min 100 n)))).
  { intros t1 r d. destruct (is_none np) eqn:Hnp.
    - cbn [bind]. destruct (commit _); [|discriminate]. cbn [bind].
      intros [= <- <-]. eexists. repeat split. left.
      split; [now destruct np | reflexivity].
    - destruct (py_int int_of np) as [n|]; [|discriminate]. cbn [bind].
      destruct (commit _); [|discriminate]. cbn [bind].
      intros [= <- <-]. eexists. repeat split. right. exists n.
      repeat split. intros ->. discriminate. }
  destruct (truthy ns) eqn:Hns; cbn [andb].
  - destruct (known_status ns) eqn:Hk; cbn [negb].
    2: { intros [= <- <-]. now left. }
    destruct ns as [| | | |s| |]; try discriminate Hk.
    cbn [known_status] in Hk. apply bool_decide_eq_true_1 in Hk.
    intros H. apply Hprog in H as (t2 & -> & -> & H2). right.
    exists data, (apply_status ticket s now), t2. rewrite <- Ens, <- Enp.
    repeat split; auto. right. exists s. auto.
  - assert (Ht1 : match ns with
                  | VStr s => if false then apply_status ticket s now
                              else ticket
                  | _ => ticket
                  end = ticket) by now destruct ns.
    rewrite Ht1. intros H. apply Hprog in H as (t2 & -> & -> & H2).
    right. exists data, ticket, t2. rewrite <- Ens, <- Enp.
    repeat split; auto.
Qed.

Lemma apply_status_ok ticket s now :
  s ∈ statuses -> progress_ok ticket ->
  progress_ok (apply_status ticket s now) /\
  status_ok (apply_status ticket s now).
Proof.
  intros Hs Hp. unfold apply_status, progress_ok, status_ok in *.
  repeat match goal with
         | |- context [if ?b then _ else _] => destruct b eqn:?
         end; cbn; split; auto; try lia.
  destruct (progress_percentage ticket) as [p|]; [|lia].
  destruct (p =? 0); lia.
Qed.

Lemma set_progress_ok ticket n :
  status_ok ticket ->
  progress_ok (set_progress ticket (Z.max 0 (Z.min 100 n))) /\
  status_ok (set_progress ticket (Z.max 0 (Z.min 100 n))).
Proof.
  intros H. unfold progress_ok, status_ok in *. cbn. split; [lia|auto].
Qed.

(** X23. No request can make a stored ticket invalid: if every ticket of
    the table has a progress that is absent or between 0 and 100, and a
    status that is absent or one of the five stages, the same holds of
    the table after [update_ticket_status], whatever was asked. *)
Theorem X23_update_keeps_tickets_valid
    (db : gmap Z Ticket) (ticket_id : Z) (request_json : result pyval)
    (now : Z) :
  (forall i t, db !! i = Some t -> progress_ok t /\ status_ok t) ->
  forall i t,
    snd (update_ticket_status exn_text int_of commit db ticket_id
           request_json now) !! i = Some t ->
    progress_ok t /\ status_ok t.
Proof.
  intros Hdb i t. unfold update_ticket_status.
  destruct (db !! ticket_id) as [ticket|] eqn:Hl; [|apply Hdb].
  destruct (update_found int_of commit db ticket_id ticket request_json now)
    as [[resp db']|e] eqn:Hu; [|apply Hdb].
  cbn [snd].
  apply update_found_cases in Hu
    as [[_ ->] | (data & t1 & t2 & _ & _ & -> & H1 & H2)]; [apply Hdb|].
  destruct (decide (i = ticket_id)) as [->|Hne].
  2: { rewrite lookup_insert_ne by congruence. apply Hdb. }
  rewrite lookup_insert_eq. intros [= <-].
  destruct (Hdb _ _ Hl) as [Hp Hs].
  assert (V1 : progress_ok t1 /\ status_ok t1).
  { destruct H1 as [[_ ->] | (s & _ & Hin & ->)]; [auto|].
    now apply apply_status_ok. }
  destruct H2 as [[_ ->] | (n & _ & _ & ->)]; [exact V1|].
  apply set_progress_ok, V1.
Qed.

(** X24. An update touches the addressed ticket only: no ticket is
    created or deleted and every other ticket is left as it was; a
    failure is a 400, a 404 or a 500 and leaves the whole table as it
    was; an unknown ticket is a 404; a success stores the ticket it
    answers with. *)
Theorem X24_update_is_local
    (db : gmap Z Ticket) (ticket_id : Z) (request_json : result pyval)
    (now : Z) :
  let answer :=
    update_ticket_status exn_text int_of commit db ticket_id
      request_json now in
  dom (snd answer) = dom db /\
  (forall i, i <> ticket_id -> snd answer !! i = db !! i) /\
  (forall code error, fst answer = Failure code error ->
     snd answer = db /\ (code = 400 \/ code = 404 \/ code = 500)) /\
  (forall t, fst answer = Success t ->
     is_Some (db !! ticket_id) /\ snd answer = <[ticket_id := t]> db) /\
  (db !! ticket_id = None -> fst answer = Failure 404 "Ticket not found").
Proof.
  cbv zeta. unfold update_ticket_status.
  destruct (db !! ticket_id) as [ticket|] eqn:Hl.
  2: { cbn. repeat split; auto; try discriminate.
       match goal with
       | H : Failure _ _ = Failure _ _ |- _ => injection H as <- <-
       end. auto. }
  destruct (update_found int_of commit db ticket_id ticket request_json now)
    as [[resp db']|e] eqn:Hu.
  2: { cbn. repeat split; auto; try discriminate.
       match goal with
       | H : Failure _ _ = Failure _ _ |- _ => injection H as <- <-
       end. auto. }
  cbn [fst snd].
  apply update_found_cases in Hu
    as [[-> ->] | (data & t1 & t2 & _ & -> & -> & _)].
  - repeat split; auto; try discriminate.
    match goal with
    | H : Failure _ _ = Failure _ _ |- _ => injection H as <- <-
    end. auto.
  - split.
    { rewrite dom_insert_L. apply subseteq_union_1_L.
      apply singleton_subseteq_l. eapply elem_of_dom_2. exact Hl. }
    split; [intros i Hi; now rewrite lookup_insert_ne by congruence|].
    split; [discriminate|]. split; [|discriminate].
    intros t [= <-]. split; [eauto | reflexivity].
Qed.

(** What a successful update made of the ticket it found. *)
Lemma update_success db ticket_id ticket data now t' :
  db !! ticket_id = Some ticket ->
  fst (update_ticket_status exn_text int_of commit db ticket_id
         (Ok (VDict data)) now) = Success t' ->
  exists ticket1,
    (truthy (asked_status data) = false /\ ticket1 = ticket \/
     exists s, asked_status data = VStr s /\ s ∈ statuses /\
               ticket1 = apply_status ticket s now) /\
    (asked_progress data = VNone /\ t' = ticket1 \/
     exists n, asked_progress data <> VNone /\
               py_int int_of (asked_progress data) = Ok n /\
               t' = set_progress ticket1 (Z.max 0 (Z.min 100 n))).
Proof.
  intros Hl. unfold update_ticket_status. rewrite Hl.
  destruct (update_found int_of commit db ticket_id ticket
              (Ok (VDict data)) now) as [[resp db']|e] eqn:Hu;
    [|discriminate].
  cbn [fst]. intros ->.
  apply update_found_cases in Hu
    as [[[=] _] | (data' & t1 & t2 & [= <-] & [= <-] & _ & H1 & H2)].
  exists t1. split; assumption.
Qed.

(** X25. The two instants of a ticket are stamped once.  After a
    successful update that asks for a status other than 'new' (or for
    none), a start or a completion instant the ticket had is kept; the
    first move to 'in_progress' stamps the start and the first move to
    'completed' stamps the completion with the clock; 'new' clears both.
    So a ticket completed before and completed again keeps its first
    completion instant, and, no progress being sent, its progress is
    not raised to 100. *)
Theorem X25_stamps_set_once
    (db : gmap Z Ticket) (ticket_id : Z) (ticket : Ticket)
    (data : gmap string pyval) (now : Z) (t' : Ticket) :
  db !! ticket_id = Some ticket ->
  fst (update_ticket_status exn_text int_of commit db ticket_id
         (Ok (VDict data)) now) = Success t' ->
  (asked_status data <> VStr "new" ->
     (forall a, started_at ticket = Some a -> started_at t' = Some a) /\
     (forall c, completed_at ticket = Some c ->
                completed_at t' = Some c)) /\
  (asked_status data = VStr "new" ->
     started_at t' = None /\ completed_at t' = None) /\
  (asked_status data = VStr "in_progress" -> started_at ticket = None ->
     started_at t' = Some now) /\
  (asked_status data = VStr "completed" -> completed_at ticket = None ->
     completed_at t' = Some now) /\
  (asked_status data = VStr "completed" -> asked_progress data = VNone ->
     forall c, completed_at ticket = Some c ->
       completed_at t' = Some c /\
       progress_percentage t' = progress_percentage ticket).
Proof.
  intros Hl Hs. destruct (update_success _ _ _ _ _ _ Hl Hs)
    as (t1 & H1 & H2).
  assert (St : started_at t' = started_at t1 /\
               completed_at t' = completed_at t1).
  { destruct H2 as [[_ ->] | (n & _ & _ & ->)]; split; reflexivity. }
  destruct St as [-> ->].
  split; [|split; [|split; [|split]]].
  - intros Hne. destruct H1 as [[_ ->] | (s & E & _ & ->)]; [auto|].
    assert (Hs' : s <> "new") by (intros ->; now apply Hne).
    apply String.eqb_neq in Hs'.
    unfold apply_status. split.
    + intros a Ha. rewrite Ha, Hs'.
      rewrite bool_decide_eq_true_2 by eauto. rewrite andb_false_r.
      destruct (_ && _); cbn; auto.
    + intros c Hc. rewrite Hc, Hs'.
      rewrite (bool_decide_eq_true_2 (is_Some (Some c))) by eauto.
      rewrite andb_false_r.
      destruct (_ && _); cbn; auto.
  - intros E. destruct H1 as [[F _] | (s & E' & _ & ->)].
    { rewrite E in F. discriminate. }
    rewrite E in E'. injection E' as <-.
    unfold apply_status. cbn. auto.
  - intros E Hn. destruct H1 as [[F _] | (s & E' & _ & ->)].
    { rewrite E in F. discriminate. }
    rewrite E in E'. injection E' as <-.
    unfold apply_status. rewrite Hn. reflexivity.
  - intros E Hn. destruct H1 as [[F _] | (s & E' & _ & ->)].
    { rewrite E in F. discriminate. }
    rewrite E in E'. injection E' as <-.
    unfold apply_status. rewrite Hn. reflexivity.
  - intros E Ep c Hc. destruct H1 as [[F _] | (s & E' & _ & ->)].
    { rewrite E in F. discriminate. }
    rewrite E in E'. injection E' as <-.
    destruct H2 as [[_ ->] | (n & Hne & _)]; [|contradiction].
    unfold apply_status. rewrite Hc. cbn. auto.
Qed.

(** X26. A progress that is sent wins over the status and is clamped: a
    request for a found ticket whose status is absent, falsy or one of
    the five stages, whose progress converts to the integer [n], and
    whose commit is accepted, succeeds and stores the progress
    [max 0 (min 100 n)], also when the status sent is 'completed' or
    'new'. *)
Theorem X26_explicit_progress_is_clamped
    (db : gmap Z Ticket) (ticket_id : Z) (ticket : Ticket)
    (data : gmap string pyval) (now n : Z) :
  db !! ticket_id = Some ticket ->
  truthy (asked_status data) = false \/
    known_status (asked_status data) = true ->
  asked_progress data <> VNone ->
  py_int int_of (asked_progress data) = Ok n ->
  (forall d, commit d = Ok tt) ->
  exists t',
    update_ticket_status exn_text int_of commit db ticket_id
      (Ok (VDict data)) now = (Success t', <[ticket_id := t']> db) /\
    progress_percentage t' = Some (Z.max 0 (Z.min 100 n)) /\
    0 <= Z.max 0 (Z.min 100 n) <= 100 /\
    (forall s, asked_status data = VStr s -> truthy (VStr s) = true ->
               status t' = Some s).
Proof.
  intros Hl Hst Hne Hn Hc. unfold update_ticket_status. rewrite Hl.
  unfold update_found. cbn [bind get].
  fold (asked_status data). fold (asked_progress data).
  assert (Hchk : truthy (asked_status data)
                 && negb (known_status (asked_status data)) = false).
  { destruct Hst as [-> | ->]; [reflexivity | apply andb_false_r]. }
  rewrite Hchk.
  assert (Hnn : is_none (asked_progress data) = false)
    by (destruct (asked_progress data); auto; contradiction).
  rewrite Hnn, Hn. cbn [bind]. rewrite Hc. cbn [bind].
  eexists. split; [reflexivity|]. cbn [set_progress progress_percentage].
  split; [reflexivity|]. split; [lia|].
  intros s E T. rewrite E, T. cbn [status set_progress].
  unfold apply_status.
  repeat match goal with
         | |- context [if ?b then _ else _] => destruct b
         end; reflexivity.
Qed.

(** X27. What cannot be stored is refused and changes nothing: a status
    that is truthy and not one of the five stages is a 400, whatever
    else the request holds; past that check, a progress that does not
    convert to an integer, or a refused commit, is a 500. *)
Theorem X27_bad_update_is_refused
    (db : gmap Z Ticket) (ticket_id : Z) (ticket : Ticket)
    (data : gmap string pyval) (now : Z) :
  db !! ticket_id = Some ticket ->
  let answer :=
    update_ticket_status exn_text int_of commit db ticket_id
      (Ok (VDict data)) now in
  (truthy (asked_status data) = true ->
   known_status (asked_status data) = false ->
   answer = (Failure 400 "Invalid status", db)) /\
  (truthy (asked_status data) = false \/
     known_status (asked_status data) = true ->
   asked_progress data <> VNone ->
   forall e, py_int int_of (asked_progress data) = Raise e ->
   answer = (Failure 500 (str_exn exn_text e), db)) /\
  (truthy (asked_status data) = false \/
     known_status (asked_status data) = true ->
   forall e, (forall d, commit d = Raise e) ->
   exists e', answer = (Failure 500 (str_exn exn_text e'), db)).
Proof.
  intros Hl. cbv zeta. unfold update_ticket_status. rewrite Hl.
  unfold update_found. cbn [bind get].
  fold (asked_status data). fold (asked_progress data).
  split; [|split].
  - intros -> ->. reflexivity.
  - intros Hst Hne e He.
    assert (Hchk : truthy (asked_status data)
                   && negb (known_status (asked_status data)) = false).
    { destruct Hst as [-> | ->]; [reflexivity | apply andb_false_r]. }
    rewrite Hchk.
    assert (Hnn : is_none (asked_progress data) = false)
      by (destruct (asked_progress data); auto; contradiction).
    rewrite Hnn, He. reflexivity.
  - intros Hst e He.
    assert (Hchk : truthy (asked_status data)
                   && negb (known_status (asked_status data)) = false).
    { destruct Hst as [-> | ->]; [reflexivity | apply andb_false_r]. }
    rewrite Hchk.
    destruct (is_none (asked_progress data)).
    + cbn [bind]. rewrite He. cbn [bind]. eauto.
    + destruct (py_int int_of (asked_progress data)); cbn [bind].
      * rewrite He. cbn [bind]. eauto.
      * eauto.
Qed.


End BoardUpdate.

Section BoardColumns.
Import Py KanbanDashboard Spec2.

Variable to_dict : Ticket -> pyval.

(** The number of columns a ticket is shown in. *)
Lemma columns_of_ticket (t : Ticket) :
  (Nat.b2n (has_status "new" t) + Nat.b2n (has_status "in_progress" t)
   + Nat.b2n (has_status "review" t) + Nat.b2n (has_status "completed" t)
   + Nat.b2n (has_status "blocked" t))%nat
  = Nat.b2n (shown t).
Proof.
  unfold has_status, shown. destruct (status t) as [x|]; [|reflexivity].
  destruct (String.eqb x "new") eqn:E1.
  { apply String.eqb_eq in E1. subst. reflexivity. }
  destruct (String.eqb x "in_progress") eqn:E2.
  { apply String.eqb_eq in E2. subst. reflexivity. }
  destruct (String.eqb x "review") eqn:E3.
  { apply String.eqb_eq in E3. subst. reflexivity. }
  destruct (String.eqb x "completed") eqn:E4.
  { apply String.eqb_eq in E4. subst. reflexivity. }
  destruct (String.eqb x "blocked") eqn:E5.
  { apply String.eqb_eq in E5. subst. reflexivity. }
  apply String.eqb_neq in E1, E2, E3, E4, E5.
  rewrite bool_decide_eq_false_2; [reflexivity|].
  unfold statuses. intros Hin.
  repeat (apply elem_of_cons in Hin as [-> | Hin]; [congruence|]).
  now apply elem_of_nil in Hin.
Qed.

Lemma length_filter_cons (f : Ticket -> bool) t r :
  length (List.filter f (t :: r))
  = (Nat.b2n (f t) + length (List.filter f r))%nat.
Proof. cbn [List.filter]. now destruct (f t). Qed.

(** X29. The five columns of [get_kanban_tickets] part the tickets: the
    answer holds exactly the columns 'new', 'in_progress', 'review',
    'completed' and 'blocked'; a ticket is shown in the column of its
    status, in the order of the query; and the columns hold together as
    many entries as there are tickets with one of the five statuses, so
    no ticket is shown twice and a ticket with another status, or none,
    is shown nowhere. *)
Theorem X29_columns_part_the_tickets (tickets : list Ticket) :
  exists g : gmap string pyval,
    get_kanban_tickets to_dict tickets
      = VDict (<["tickets" := VDict g]> (<["success" := VBool true]> ∅)) /\
    dom g = list_to_set statuses /\
    (forall s, s ∈ statuses ->
       g !! s = Some (VList (column to_dict s tickets))) /\
    (forall s t, status t = Some s ->
       column to_dict s (tickets ++ [t])
       = column to_dict s tickets ++ [to_dict t]) /\
    (forall s t, status t <> Some s ->
       column to_dict s (tickets ++ [t]) = column to_dict s tickets) /\
    (length (column to_dict "new" tickets)
     + length (column to_dict "in_progress" tickets)
     + length (column to_dict "review" tickets)
     + length (column to_dict "completed" tickets)
     + length (column to_dict "blocked" tickets))%nat
    = length (List.filter shown tickets).
Proof.
  eexists. split; [reflexivity|]. split.
  { rewrite !dom_insert_L, dom_empty_L. unfold statuses. cbn.
    set_solver. }
  split.
  { intros s Hs. unfold statuses in Hs.
    repeat (apply elem_of_cons in Hs as [-> | Hs]; [reflexivity|]).
    now apply elem_of_nil in Hs. }
  split.
  { intros s t E. unfold column.
    rewrite List.filter_app, List.map_app. cbn [List.filter].
    unfold has_status at 2. rewrite E, String.eqb_refl. reflexivity. }
  split.
  { intros s t E. unfold column.
    rewrite List.filter_app, List.map_app. cbn [List.filter].
    unfold has_status at 2. destruct (status t) as [x|].
    - destruct (String.eqb x s) eqn:Ex.
      + apply String.eqb_eq in Ex. congruence.
      + cbn. now rewrite app_nil_r.
    - cbn. now rewrite app_nil_r. }
  unfold column. rewrite !length_map.
  induction tickets as [|t r IH]; [reflexivity|].
  rewrite !length_filter_cons.
  pose proof (columns_of_ticket t) as Ht. lia.
Qed.

End BoardColumns.

(* ===================================================================== *)
(** * The further properties on concrete runs *)
(* ===================================================================== *)

Section EstimatorAnswerRuns.
Import Py AIServices Spec Fixtures.

(** A reply in prose: one call, no sleep, the parse error reported. *)
Lemma X2_witness :
  estimate_task exn_text json_loads (estimator Fixtures2.prose_client)
    now task
  = (VDict (_get_fallback_response now task
              (Some ("JSON Parse Error: "
                     +:+ "Expecting value: line 1 column 1 (char 0)"))),
     [Generate model (_create_prompt task) 0]).
Proof.
  apply (X2_parse_error_not_retried exn_text json_loads
           (estimator Fixtures2.prose_client) Fixtures2.prose_client
           now task "Sorry, I cannot help."
           "Expecting value: line 1 column 1 (char 0)");
    reflexivity.
Defined.

(** A reply that is a JSON array. *)
Lemma X3_witness :
  exists f,
    estimate_task exn_text json_loads (estimator Fixtures2.array_client)
      now task
    = (VDict (_get_fallback_response now task
                (Some ("Unexpected Error: " +:+ exn_text f))),
       [Generate model (_create_prompt task) 0]).
Proof.
  apply (X3_non_object_reply_falls_back exn_text json_loads
           (estimator Fixtures2.array_client) Fixtures2.array_client
           now task (Response (Some "[]")));
    [reflexivity | reflexivity | reflexivity |].
  right. exists "[]", (VList []).
  split; [reflexivity|]. split; [reflexivity|].
  intros d H. discriminate H.
Defined.

(** A bare object with three keys, one of them [success]. *)
Lemma X4_witness :
  exists d,
    fst (estimate_task exn_text json_loads
           (estimator Fixtures2.direct_client) now task) = VDict d /\
    d !! "success" = Some (VBool true) /\
    dom d = {["success"]} ∪ dom payload /\
    (forall k, k <> "success" -> payload !! k = None -> d !! k = None).
Proof.
  apply (X4_success_keys_are_reply_keys exn_text json_loads
           (estimator Fixtures2.direct_client) Fixtures2.direct_client
           now task payload_text payload);
    reflexivity.
Defined.

End EstimatorAnswerRuns.

Section HandlerEdgeRuns.
Import Py AIServices AITaskCreator Spec.

(** A task of blanks only. *)
Lemma X9_witness :
  get_ai_estimate Fixtures.exn_text (Ok (VDict {["task" := VStr "   "]}))
    stub_estimate_task 0
  = (VDict (<["error" := VStr "Task description is required"]>
           (<["success" := VBool false]> ∅)), 400).
Proof.
  apply (X9_blank_task_rejected Fixtures.exn_text
           {["task" := VStr "   "]} stub_estimate_task 0).
  right. exists "   ". split; reflexivity.
Defined.

(** The answer to a plain task. *)
Lemma X12_witness :
  exists body e,
    fst (get_ai_estimate Fixtures.exn_text
           (Ok (VDict {["task" := VStr Fixtures.task]}))
           stub_estimate_task 0) = VDict body /\
    dom body = list_to_set ["success"; "ticket_id"; "ticket_number";
                            "task"; "title"; "estimate"] /\
    body !! "success" = Some (VBool true) /\
    body !! "estimate" = Some (VDict e) /\
    dom e = list_to_set ["estimated_time"; "priority"; "complexity_level";
                         "dependencies"; "required_access";
                         "suggested_labels"; "reasoning"] /\
    (forall k, k = "dependencies" \/ k = "required_access" \/
               k = "suggested_labels" ->
       exists v, e !! k = Some v /\ is_str v = false).
Proof.
  apply (X12_success_answer_shape Fixtures.exn_text
           (Ok (VDict {["task" := VStr Fixtures.task]}))
           stub_estimate_task 0).
  reflexivity.
Defined.

(** The model answers with a null reasoning. *)
Lemma X13_witness :
  get_ai_estimate Fixtures.exn_text
    (Ok (VDict {["task" := VStr Fixtures.task]}))
    (fun t => fst (estimate_task Fixtures.exn_text Fixtures2.json_loads
                     (Fixtures.estimator Fixtures2.null_reasoning_client)
                     Fixtures.now t)) 0
  = (VDict (<["error" := VStr "'NoneType' object is not subscriptable"]>
           (<["success" := VBool false]> ∅)), 500).
Proof.
  apply (X13_unsliceable_reasoning_is_500 Fixtures.exn_text
           {["task" := VStr Fixtures.task]}
           (<["success" := VBool true]> {["reasoning" := VNone]})
           Fixtures.task
           (fun t => fst (estimate_task Fixtures.exn_text
                            Fixtures2.json_loads
                            (Fixtures.estimator
                               Fixtures2.null_reasoning_client)
                            Fixtures.now t))
           0 VNone);
    reflexivity.
Defined.

(** No credential in the environment. *)
Lemma X14_witness :
  get_ai_estimate Fixtures.exn_text
    (Ok (VDict {["task" := VStr Fixtures.task]}))
    (fun t => fst (estimate_task Fixtures.exn_text Fixtures.json_loads
                     (__init__ Fixtures.bare_env) Fixtures.now t)) 7
  = (VDict (<["error" := VStr "AI service temporarily unavailable"]>
           (<["success" := VBool false]> ∅)), 500).
Proof.
  apply (X14_unavailable_endpoint Fixtures.exn_text Fixtures.json_loads
           (__init__ Fixtures.bare_env) Fixtures.now Fixtures.task
           {["task" := VStr Fixtures.task]} 7);
    reflexivity.
Defined.

(** Eight words with runs of blanks between them. *)
Lemma X15_witness :
  List.map PyStr.lower
    (PyStr.split (generate_short_title "fix   THE login  Bug now ok so far" 6))
  = ["fix"; "the"; "login"; "bug"; "now"; "ok"] /\
  length (PyStr.split
            (generate_short_title "fix   THE login  Bug now ok so far" 6))
  = 6%nat.
Proof.
  destruct (X15_short_title_words "fix   THE login  Bug now ok so far" 6)
    as (H1 & H2 & _); [reflexivity|].
  split; [rewrite H1 | rewrite H2]; reflexivity.
Defined.

Lemma X16_witness :
  generate_short_title "   " 6 = EmptyString /\
  generate_short_title EmptyString 6 = "New Ticket".
Proof.
  apply (X16_blank_task_gets_empty_title "   " 6); reflexivity.
Defined.

End HandlerEdgeRuns.

Section TicketCreationRuns.
Import Py AIServices AITaskCreator TicketCreation Spec.

(** A request with a task and a priority in capitals. *)
Lemma X17_witness :
  new_ticket_kwargs
    (VDict (<["edited_priority" := VStr "HIGH"]>
              {["task" := VStr Fixtures.task]})) 0
  = Ok Fixtures2.new_kwargs /\
  Fixtures2.new_kwargs !! "status" = Some (VStr "new") /\
  (exists p, Fixtures2.new_kwargs !! "priority" = Some (VStr p) /\
             Hex.all (fun c => negb (PyStr.is_upper c)) p = true) /\
  Models.__init__ Fixtures2.new_kwargs 5 = Fixtures2.new_kwargs.
Proof.
  split; [reflexivity|].
  destruct (X17_new_ticket_fields
              (VDict (<["edited_priority" := VStr "HIGH"]>
                        {["task" := VStr Fixtures.task]})) 0
              Fixtures2.new_kwargs)
    as (_ & Hs & Hp & _ & Hi); [reflexivity|].
  split; [exact Hs|]. split; [exact Hp|]. apply Hi.
Defined.

(** The answer to a plain task, sent back unchanged. *)
Lemma X18_witness :
  exists body e kwargs,
    fst (get_ai_estimate Fixtures.exn_text
           (Ok (VDict {["task" := VStr Fixtures.task]}))
           stub_estimate_task 0) = VDict body /\
    body !! "estimate" = Some (VDict e) /\
    new_ticket_kwargs
      (fst (get_ai_estimate Fixtures.exn_text
              (Ok (VDict {["task" := VStr Fixtures.task]}))
              stub_estimate_task 0)) 1 = Ok kwargs /\
    kwargs !! "ticket_id" = body !! "ticket_id" /\
    kwargs !! "ticket_number" = body !! "ticket_number" /\
    kwargs !! "title" = body !! "title" /\
    kwargs !! "tags" = e !! "suggested_labels" /\
    kwargs !! "access_required" = e !! "required_access" /\
    kwargs !! "dependencies" = e !! "dependencies" /\
    kwargs !! "estimated_time" = e !! "estimated_time" /\
    kwargs !! "priority" = Some (VStr "medium") /\
    kwargs !! "description" = Some (VStr EmptyString).
Proof.
  apply (X18_estimate_answer_creates_same_ticket Fixtures.exn_text
           (Ok (VDict {["task" := VStr Fixtures.task]}))
           stub_estimate_task 0 1).
  reflexivity.
Defined.

End TicketCreationRuns.

Section AssigneeRuns.
Import Py EstimationServices Spec2.

(** Both sides of the stack are needed. *)
Lemma X21_witness :
  _suggest_assignee
    (VDict {["required_access" :=
               VList [VStr "Database"; VStr "Frontend"; VStr "Backend"]]})
  = Ok "Full Stack Developer".
Proof.
  destruct (X21_suggested_assignee
              {["required_access" :=
                  VList [VStr "Database"; VStr "Frontend"; VStr "Backend"]]}
              [VStr "Database"; VStr "Frontend"; VStr "Backend"])
    as (role & Hr & _ & _ & Hf); [reflexivity|].
  rewrite Hr. f_equal. apply Hf. split; reflexivity.
Defined.

End AssigneeRuns.

Section BoardRuns.
Import Py KanbanDashboard Spec2 Fixtures2.

Lemma table_valid i t :
  table !! i = Some t -> progress_ok t /\ status_ok t.
Proof.
  unfold table. intros H.
  apply lookup_insert_Some in H as [[_ <-] | [_ H]].
  { split; [cbn; lia|]. apply list_elem_of_In. cbn. auto 10. }
  apply lookup_insert_Some in H as [[_ <-] | [_ H]].
  { split; [cbn; lia|]. apply list_elem_of_In. cbn. auto 10. }
  rewrite lookup_empty in H. discriminate H.
Qed.

(** A progress of 250 is sent with the status 'completed'. *)
Lemma X23_witness :
  exists t,
    snd (update_ticket_status Fixtures.exn_text int_of commit table 2
           (Ok (VDict (<["progress_percentage" := VStr "250"]>
                         {["status" := VStr "completed"]}))) 300)
      !! 2 = Some t /\
    progress_percentage t = Some 100 /\
    progress_ok t /\ status_ok t.
Proof.
  eexists. split; [reflexivity|]. split; [reflexivity|].
  apply (X23_update_keeps_tickets_valid Fixtures.exn_text int_of commit
           table 2
           (Ok (VDict (<["progress_percentage" := VStr "250"]>
                         {["status" := VStr "completed"]}))) 300
           table_valid 2).
  reflexivity.
Defined.

(** A ticket completed before, moved back, and completed again. *)
Lemma X25_witness :
  exists t',
    fst (update_ticket_status Fixtures.exn_text int_of commit table 2
           (Ok (VDict {["status" := VStr "completed"]})) 300)
    = Success t' /\
    status t' = Some "completed" /\
    started_at t' = Some 150 /\
    completed_at t' = Some 200 /\
    progress_percentage t' = Some 40.
Proof.
  eexists. split; [reflexivity|]. split; [reflexivity|].
  destruct (X25_stamps_set_once Fixtures.exn_text int_of commit table 2
              reopened_ticket {["status" := VStr "completed"]} 300
              (MkTicket (Some "completed") (Some 40) (Some 150) (Some 200) ∅))
    as (H1 & _ & _ & _ & H5);
    [reflexivity | reflexivity |].
  split.
  { apply H1; [intros H; discriminate H | reflexivity]. }
  apply (H5 eq_refl eq_refl 200 eq_refl).
Defined.

(** A fresh ticket, sent 'new' and a progress of 250. *)
Lemma X26_witness :
  exists t',
    update_ticket_status Fixtures.exn_text int_of commit table 1
      (Ok (VDict (<["progress_percentage" := VStr "250"]>
                    {["status" := VStr "new"]}))) 300
    = (Success t', <[1 := t']> table) /\
    progress_percentage t' = Some 100 /\
    status t' = Some "new".
Proof.
  destruct (X26_explicit_progress_is_clamped Fixtures.exn_text int_of
              commit table 1 fresh_ticket
              (<["progress_percentage" := VStr "250"]>
                 {["status" := VStr "new"]}) 300 250)
    as (t' & H1 & H2 & _ & H4).
  - reflexivity.
  - right. reflexivity.
  - change (VStr "250" <> VNone). intros H. discriminate H.
  - reflexivity.
  - intros d. reflexivity.
  - exists t'. split; [exact H1|]. split; [exact H2|].
    apply H4; reflexivity.
Defined.

(** A status the board does not know. *)
Lemma X27_witness :
  update_ticket_status Fixtures.exn_text int_of commit table 1
    (Ok (VDict {["status" := VStr "archived"]})) 300
  = (Failure 400 "Invalid status", table).
Proof.
  refine (proj1 (X27_bad_update_is_refused Fixtures.exn_text int_of commit
                   table 1 fresh_ticket {["status" := VStr "archived"]} 300
                   _) _ _);
    reflexivity.
Defined.

End BoardRuns.
